(** * Parametric budget: the scenario-to-estimate engine of [app.py]

    A shallow embedding of [compute_simulation] (and of [capture_scenario],
    which builds its argument) together with the properties stated for it.

    Python's [float] is IEEE-754 binary64 with round-to-nearest-even, which is
    what Rocq's primitive [float] is; the embedding therefore computes with
    the very same numbers as the program.  Python's [int] is [Z].

    Layout: the embedding; the predicates used to state and prove the
    properties; facts about binary64 arithmetic ([Module Binary64]); facts
    about the computation; the properties C1 to C10; further properties of
    the code. *)

From Stdlib Require Import ZArith List String Bool Lia.
From Stdlib Require Import Floats Reals Lra Psatz.
Import ListNotations.

Local Open Scope string_scope.
Local Open Scope Z_scope.

Set Warnings "-inexact-float".

(** ** Python values and exceptions *)

(** A key of one of the literal dictionaries of [compute_simulation]. *)
Inductive pykey :=
| KStr (s : string)
| KPair (a b : string).

Inductive exn :=
| KeyError (k : pykey)
| ZeroDivisionError
| OverflowError.

Inductive Result (A : Type) :=
| Ok (a : A)
| Raise (e : exn).
Arguments Ok {A} a.
Arguments Raise {A} e.

Definition bind {A B} (c : Result A) (k : A -> Result B) : Result B :=
  match c with
  | Ok a => k a
  | Raise e => Raise e
  end.

Notation "x <- c ;; k" := (bind c (fun x => k))
  (at level 61, c at next level, right associativity).

(** A number that is an [int] or a [float] at run time
    ([unit_cost] is [0] or a float, depending on the area guard). *)
Inductive pynum :=
| PyInt (z : Z)
| PyFloat (f : float).

(** ** Numbers *)

Module Py.

(** [float(z)] for an [int] [z]: the nearest double, ties to even;
    [OverflowError] when that is out of range. *)
Definition float_of_int (z : Z) : Result float :=
  match binary_normalize prec emax z 0 false with
  | S754_infinity _ => Raise OverflowError
  | sf => Ok (SF2Prim sf)
  end.

(** [i * f], [i + f] and [f * i] with [i] an [int]: the [int] operand is
    converted first. *)
Definition int_mul (i : Z) (f : float) : Result float :=
  x <- float_of_int i ;; Ok (x * f)%float.

Definition mul_int (f : float) (i : Z) : Result float :=
  x <- float_of_int i ;; Ok (f * x)%float.

Definition int_add (i : Z) (f : float) : Result float :=
  x <- float_of_int i ;; Ok (x + f)%float.

Definition add_int (f : float) (i : Z) : Result float :=
  x <- float_of_int i ;; Ok (f + x)%float.

(** [f / i]: Python raises on a zero divisor. *)
Definition div_int (f : float) (i : Z) : Result float :=
  x <- float_of_int i ;;
  if i =? 0 then Raise ZeroDivisionError else Ok (f / x)%float.

(** [min(a, b)]: the first argument unless the second is smaller. *)
Definition min (a b : float) : float :=
  if (b <? a)%float then b else a.

(** The integer nearest to [n * 2^e], ties to the even one ([0 <= n]). *)
Definition round_half_even (n e : Z) : Z :=
  match e with
  | Zneg p =>
      let d := Z.pow_pos 2 p in
      let q := n / d in
      match (2 * (n mod d)) ?= d with
      | Lt => q
      | Gt => q + 1
      | Eq => if Z.even q then q else q + 1
      end
  | _ => n * 2 ^ e
  end.

(** The double nearest to the decimal [+- k / 10^ndigits] (what [strtod]
    makes of its digits). *)
Definition decimal (s : bool) (k : positive) (ndigits : Z) : float :=
  SF2Prim (SFdiv prec emax (S754_finite s k 0)
                           (S754_finite false (Z.to_pos (10 ^ ndigits)) 0)).

(** [round(x, ndigits)] for a float [x] and [0 <= ndigits] (CPython's
    [double_round]): the exact value of [x] is rounded, ties to even, to a
    decimal with [ndigits] places, and that decimal is converted back to the
    nearest double.  NaN and the infinities round to themselves and the sign
    of [x] is kept when the result is zero. *)
Definition round (x : float) (ndigits : Z) : float :=
  match Prim2SF x with
  | S754_finite s m e =>
      match round_half_even (Zpos m * 10 ^ ndigits) e with
      | Zpos k => decimal s k ndigits
      | _ => SF2Prim (S754_zero s)
      end
  | _ => x
  end.

(** [round(v, ndigits)] where [v] may be an [int]: for [0 <= ndigits] an
    [int] is returned unchanged. *)
Definition round_num (v : pynum) (ndigits : Z) : pynum :=
  match v with
  | PyInt z => PyInt z
  | PyFloat f => PyFloat (round f ndigits)
  end.

End Py.

(** ** Scenario and estimate *)

Record Opts := {
  skylights : bool;
  mezzanine : bool;
  hvac : bool }.

(** The dictionary returned by [capture_scenario].  The checklist is a
    [dict] from item name to [bool]; it is kept as the list of its items in
    iteration order. *)
Record Scenario := {
  project : string;
  project_type : string;
  area_m2 : Z;
  structural_system : string;
  envelope : string;
  quality : string;
  region : string;
  opts : Opts;
  checklist : list (string * bool);
  sent_at : option string }.

Record CostBuckets := {
  Structure : float;
  Envelope : float;
  MEP : float;
  Finishes : float;
  Contingency : float }.

(** The dictionary returned by [compute_simulation]. *)
Record Estimate := {
  unit_cost : pynum;
  total_cost : float;
  contingency_pct : float;
  steel_t : float;
  concrete_m3 : float;
  co2_tons : float;
  lead_time_wks : Z;
  cost_buckets : CostBuckets;
  subtotal_no_cont : float;
  adders_per_m2 : Z }.

(** ** Lookup tables *)

Fixpoint assoc {V} (tbl : list (string * V)) (k : string) : option V :=
  match tbl with
  | [] => None
  | (k', v) :: rest => if String.eqb k k' then Some v else assoc rest k
  end.

Fixpoint assoc2 {V} (tbl : list (string * string * V)) (a b : string) : option V :=
  match tbl with
  | [] => None
  | (a', b', v) :: rest =>
      if (String.eqb a a' && String.eqb b b')%bool then Some v else assoc2 rest a b
  end.

(** [tbl[k]]: [KeyError] when the key is missing. *)
Definition getitem {V} (tbl : list (string * V)) (k : string) : Result V :=
  match assoc tbl k with
  | Some v => Ok v
  | None => Raise (KeyError (KStr k))
  end.

Definition getitem2 {V} (tbl : list (string * string * V)) (a b : string) : Result V :=
  match assoc2 tbl a b with
  | Some v => Ok v
  | None => Raise (KeyError (KPair a b))
  end.

Definition base_table : list (string * string * Z) :=
  [ ("Warehouse", "Steel", 420);
    ("Warehouse", "Concrete", 450);
    ("Office", "Steel", 520);
    ("Office", "Concrete", 560);
    ("Retail", "Steel", 480);
    ("Retail", "Concrete", 510) ].

Definition region_table : list (string * float) :=
  [ ("North", 0.95%float); ("Central", 1.00%float); ("South", 1.05%float) ].

Definition envelope_table : list (string * float) :=
  [ ("Standard", 1.00%float); ("Insulated", 1.08%float) ].

Definition quality_table : list (string * float) :=
  [ ("Basic", 0.95%float); ("Standard", 1.00%float); ("Premium", 1.12%float) ].

(** ** The computation *)

(** The option adders: [adders = 0], then [+= 8], [+= 60], [+= 45]. *)
Definition adders (o : Opts) : Z :=
  let a := 0 in
  let a := if skylights o then a + 8 else a in
  let a := if mezzanine o then a + 60 else a in
  let a := if hvac o then a + 45 else a in
  a.

(** [sum(1 for v in scn["checklist"].values() if not v)] *)
Fixpoint unchecked (cl : list (string * bool)) : Z :=
  match cl with
  | [] => 0
  | (_, v) :: rest => if negb v then 1 + unchecked rest else unchecked rest
  end.

(** The five shares of [total] before rounding; the last one is what the
    other four leave. *)
Definition shares (total : float) : CostBuckets :=
  let structure := (total * 0.35)%float in
  let envelope := (total * 0.18)%float in
  let mep := (total * 0.20)%float in
  let finishes := (total * 0.22)%float in
  let contingency_val := (total - (structure + envelope + mep + finishes))%float in
  {| Structure := structure; Envelope := envelope; MEP := mep;
     Finishes := finishes; Contingency := contingency_val |}.

(** The [cost_buckets] dictionary: every share goes through [round(_, 0)]. *)
Definition round_buckets (b : CostBuckets) : CostBuckets :=
  {| Structure := Py.round (Structure b) 0;
     Envelope := Py.round (Envelope b) 0;
     MEP := Py.round (MEP b) 0;
     Finishes := Py.round (Finishes b) 0;
     Contingency := Py.round (Contingency b) 0 |}.

(** The branch on the structural system:
    [(steel_t, conc_m3, co2, lead_weeks)]. *)
Definition quantities (scn : Scenario) : Result (float * float * float * Z) :=
  let area := area_m2 scn in
  if String.eqb (structural_system scn) "Steel" then
    s <- Py.int_mul area 0.02%float ;;
    let steel_t := Py.round s 1 in
    c <- Py.int_mul area 0.05%float ;;
    let conc_m3 := Py.round c 1 in
    let co2 := Py.round (steel_t * 1.8 + conc_m3 * 0.1)%float 1 in
    Ok (steel_t, conc_m3, co2, if mezzanine (opts scn) then 14 else 12)
  else
    s <- Py.int_mul area 0.008%float ;;
    let steel_t := Py.round s 1 in
    c <- Py.int_mul area 0.12%float ;;
    let conc_m3 := Py.round c 1 in
    let co2 := Py.round (steel_t * 1.4 + conc_m3 * 0.22)%float 1 in
    Ok (steel_t, conc_m3, co2, if mezzanine (opts scn) then 16 else 14).

(** The two universal lead-time increments. *)
Definition lead_weeks (scn : Scenario) (base_weeks : Z) : Z :=
  let w := base_weeks in
  let w := if hvac (opts scn) then w + 1 else w in
  let w := if String.eqb (region scn) "South" then w + 1 else w in
  w.

(** [total / area if area else 0] *)
Definition unit_cost_total (total : float) (area : Z) : Result pynum :=
  if area =? 0 then Ok (PyInt 0)
  else q <- Py.div_int total area ;; Ok (PyFloat q).

(** [base * region_mult * envelope_mult * quality_mult], after the four
    table lookups. *)
Definition unit_cost_base (scn : Scenario) : Result float :=
  base <- getitem2 base_table (project_type scn) (structural_system scn) ;;
  region_mult <- getitem region_table (region scn) ;;
  envelope_mult <- getitem envelope_table (envelope scn) ;;
  quality_mult <- getitem quality_table (quality scn) ;;
  b <- Py.int_mul base region_mult ;;
  Ok (b * envelope_mult * quality_mult)%float.

(** [min(unchecked * 0.005, 0.05)] *)
Definition contingency (unchecked : Z) : Result float :=
  x <- Py.int_mul unchecked 0.005%float ;;
  Ok (Py.min x 0.05%float).

(** What [compute_simulation] has in its local variables when it reaches its
    [return]. *)
Record Locals := {
  l_unit_cost_base : float;
  l_adders : Z;
  l_unchecked : Z;
  l_contingency_pct : float;
  l_subtotal : float;
  l_total : float;
  l_shares : CostBuckets;
  l_steel_t : float;
  l_conc_m3 : float;
  l_co2 : float;
  l_lead_weeks : Z;
  l_unit_cost_total : pynum }.

(** The body of [compute_simulation] up to its [return], in source order. *)
Definition run (scn : Scenario) : Result Locals :=
  unit_cost_base <- unit_cost_base scn ;;
  let adders := adders (opts scn) in
  let unchecked := unchecked (checklist scn) in
  contingency_pct <- contingency unchecked ;;
  let area := area_m2 scn in
  u <- Py.add_int unit_cost_base adders ;;
  subtotal <- Py.int_mul area u ;;
  k <- Py.int_add 1 contingency_pct ;;
  let total := (subtotal * k)%float in
  let buckets := shares total in
  q <- quantities scn ;;
  let '(steel_t, conc_m3, co2, weeks) := q in
  unit_cost_total <- unit_cost_total total area ;;
  Ok {| l_unit_cost_base := unit_cost_base;
        l_adders := adders;
        l_unchecked := unchecked;
        l_contingency_pct := contingency_pct;
        l_subtotal := subtotal;
        l_total := total;
        l_shares := buckets;
        l_steel_t := steel_t;
        l_conc_m3 := conc_m3;
        l_co2 := co2;
        l_lead_weeks := lead_weeks scn weeks;
        l_unit_cost_total := unit_cost_total |}.

(** The returned dictionary. *)
Definition returned (l : Locals) : Result Estimate :=
  pct <- Py.mul_int (l_contingency_pct l) 100 ;;
  Ok {| unit_cost := Py.round_num (l_unit_cost_total l) 2;
        total_cost := Py.round (l_total l) 0;
        contingency_pct := Py.round pct 1;
        steel_t := l_steel_t l;
        concrete_m3 := l_conc_m3 l;
        co2_tons := l_co2 l;
        lead_time_wks := l_lead_weeks l;
        cost_buckets := round_buckets (l_shares l);
        subtotal_no_cont := Py.round (l_subtotal l) 0;
        adders_per_m2 := l_adders l |}.

Definition compute_simulation (scn : Scenario) : Result Estimate :=
  l <- run scn ;; returned l.

(** ** The session and the scenarios of the application *)

(** [st.session_state], as [init_state] lays it out. *)
Record SessionState := {
  dark_mode : bool;
  ss_project : string;
  sent_flag : bool;
  last_sent_ts : option string;
  ss_project_type : string;
  built_area : Z;
  ss_structural_system : string;
  ss_envelope : string;
  ss_quality : string;
  ss_region : string;
  opt_skylights : bool;
  opt_mezzanine : bool;
  opt_hvac : bool;
  ss_checklist : list (string * bool);
  pulse : bool;
  fake_link : option string;
  fake_qr : option string }.

Definition capture_scenario (st : SessionState) : Scenario :=
  {| project := ss_project st;
     project_type := ss_project_type st;
     area_m2 := built_area st;
     structural_system := ss_structural_system st;
     envelope := ss_envelope st;
     quality := ss_quality st;
     region := ss_region st;
     opts := {| skylights := opt_skylights st;
                mezzanine := opt_mezzanine st;
                hvac := opt_hvac st |};
     checklist := ss_checklist st;
     sent_at := last_sent_ts st |}.

(** The dashboard panel: nothing before a scenario was sent, otherwise the
    captured scenario and its estimate.  The session is handed back as the
    call left it. *)
Definition dashboard (st : SessionState)
  : option (Scenario * Result Estimate) * SessionState :=
  if sent_flag st then
    let scenario := capture_scenario st in
    let calc := compute_simulation scenario in
    (Some (scenario, calc), st)
  else (None, st).

(** The option lists of the form widgets. *)
Definition PROJECT_TYPES : list string := ["Warehouse"; "Office"; "Retail"].
Definition STRUCTURAL_SYSTEMS : list string := ["Steel"; "Concrete"].
Definition ENVELOPES : list string := ["Standard"; "Insulated"].
Definition QUALITIES : list string := ["Basic"; "Standard"; "Premium"].
Definition REGIONS : list string := ["North"; "Central"; "South"].

(** The seven checklist items of [init_state]. *)
Definition CHECKLIST_ITEMS : list string :=
  [ "Soil report available";
    "As-built utilities verified";
    "Permitting path confirmed";
    "Vendor pre-qualification complete";
    "BIM execution plan approved";
    "LEED considerations";
    "Early procurement planned" ].

(** A valid scenario: every choice is one of its widget's options, the area
    is within the slider's range and the checklist has the seven items. *)
Definition valid_scenario (scn : Scenario) : Prop :=
  In (project_type scn) PROJECT_TYPES /\
  In (structural_system scn) STRUCTURAL_SYSTEMS /\
  In (envelope scn) ENVELOPES /\
  In (quality scn) QUALITIES /\
  In (region scn) REGIONS /\
  500 <= area_m2 scn <= 50000 /\
  map fst (checklist scn) = CHECKLIST_ITEMS.

Definition with_area (scn : Scenario) (area : Z) : Scenario :=
  {| project := project scn; project_type := project_type scn; area_m2 := area;
     structural_system := structural_system scn; envelope := envelope scn;
     quality := quality scn; region := region scn; opts := opts scn;
     checklist := checklist scn; sent_at := sent_at scn |}.

Definition with_checklist (scn : Scenario) (cl : list (string * bool)) : Scenario :=
  {| project := project scn; project_type := project_type scn; area_m2 := area_m2 scn;
     structural_system := structural_system scn; envelope := envelope scn;
     quality := quality scn; region := region scn; opts := opts scn;
     checklist := cl; sent_at := sent_at scn |}.

(** A checklist with the given answers, in the order of [CHECKLIST_ITEMS]. *)
Definition checklist_of (answers : list bool) : list (string * bool) :=
  combine CHECKLIST_ITEMS answers.

Definition all_checked : list (string * bool) :=
  checklist_of [true; true; true; true; true; true; true].

Definition no_opts : Opts := {| skylights := false; mezzanine := false; hvac := false |}.

(** Warehouse, 10000 m2, Steel, Standard, Basic, North, no option, nothing
    unchecked. *)
Definition scn_warehouse_steel : Scenario :=
  {| project := "North Hub DC"; project_type := "Warehouse"; area_m2 := 10000;
     structural_system := "Steel"; envelope := "Standard"; quality := "Basic";
     region := "North"; opts := no_opts;
     checklist := all_checked; sent_at := None |}.

(** The same with Concrete, mezzanine and HVAC, in the South. *)
Definition scn_warehouse_concrete : Scenario :=
  {| project := "North Hub DC"; project_type := "Warehouse"; area_m2 := 10000;
     structural_system := "Concrete"; envelope := "Standard"; quality := "Basic";
     region := "South";
     opts := {| skylights := false; mezzanine := true; hvac := true |};
     checklist := all_checked; sent_at := None |}.

(** Warehouse, Steel, Standard, Basic, Central, no option, one item
    unchecked: the unit cost before rounding sits on a half cent. *)
Definition scn_half_cent : Scenario :=
  {| project := "North Hub DC"; project_type := "Warehouse"; area_m2 := 500;
     structural_system := "Steel"; envelope := "Standard"; quality := "Basic";
     region := "Central"; opts := no_opts;
     checklist := checklist_of [true; true; false; true; true; true; true];
     sent_at := None |}.

(** Warehouse, 500 m2, Steel, Standard, Basic, North, no option, nothing
    unchecked. *)
Definition scn_warehouse_500 : Scenario := with_area scn_warehouse_steel 500.

(** The same as [scn_warehouse_steel] with all seven items unchecked. *)
Definition scn_all_unchecked : Scenario :=
  with_checklist scn_warehouse_steel
    (checklist_of [false; false; false; false; false; false; false]).

(** A checklist whose first [n] items are unchecked. *)
Definition checklist_gaps (n : Z) : list (string * bool) :=
  checklist_of (map (fun i => n <=? i) [0; 1; 2; 3; 4; 5; 6]).

(** ** The specification's wording of two quantities *)

(** The number of unchecked checklist items: the entries of the checklist
    whose value is false. *)
Definition count_unchecked (cl : list (string * bool)) : Z :=
  Z.of_nat (List.length (filter (fun item => negb (snd item)) cl)).

(** The cost buckets with the Contingency bucket taken as the remainder of
    the returned total cost over the four other returned buckets, instead of
    being rounded on its own. *)
Definition spec_cost_buckets (est : Estimate) : CostBuckets :=
  let b := cost_buckets est in
  {| Structure := Structure b; Envelope := Envelope b; MEP := MEP b;
     Finishes := Finishes b;
     Contingency :=
       (total_cost est - (Structure b + Envelope b + MEP b + Finishes b))%float |}.

(** ** Reading an estimate *)

(** [int(f)]: the integer part of a finite float. *)
Definition int_of_float (f : float) : Z :=
  match Prim2SF f with
  | S754_finite s m e =>
      let a := match e with
               | Zneg p => Zpos m / Z.pow_pos 2 p
               | _ => Zpos m * 2 ^ e
               end in
      if s then - a else a
  | _ => 0
  end.

(** [sum(cost_buckets.values())] over the integer values of the buckets. *)
Definition bucket_sum (b : CostBuckets) : Z :=
  int_of_float (Structure b) + int_of_float (Envelope b) + int_of_float (MEP b)
  + int_of_float (Finishes b) + int_of_float (Contingency b).

(** The same sum in floating point, left to right. *)
Definition bucket_fsum (b : CostBuckets) : float :=
  (Structure b + Envelope b + MEP b + Finishes b + Contingency b)%float.

(** The only [KeyError] on a pair of strings comes from [base_table]. *)
Definition is_pair_error (e : exn) : bool :=
  match e with
  | KeyError (KPair _ _) => true
  | _ => false
  end.

(** ** Real values of doubles *)

Definition bpow (e : Z) : R := powerRZ 2 e.

(** The real number [m * 2^e]. *)
Definition F2R (m e : Z) : R := (IZR m * bpow e)%R.

(** [f] is a finite positive double of real value [v]. *)
Definition is_pos (f : float) (v : R) : Prop :=
  exists m e, Prim2SF f = S754_finite false m e /\ F2R (Zpos m) e = v.

(** A positive finite double between two integers. *)
Definition pos_between (lo hi : Z) (f : float) : bool :=
  match Prim2SF f with
  | S754_finite false m e =>
      match e with
      | Zneg p => (lo * Z.pow_pos 2 p <=? Zpos m) && (Zpos m <=? hi * Z.pow_pos 2 p)
      | _ => (lo <=? Zpos m * 2 ^ e) && (Zpos m * 2 ^ e <=? hi)
      end
  | _ => false
  end.

(** What a shift record knows about the number [M / c] it was cut from,
    after [k] one-bit shifts: the quotient by [2^k], and where the remainder
    lies with respect to the middle.  ([c] is 1 for an integer, and the
    divisor for the quotient of a division.) *)
Definition shr_inv (c M k : Z) (mrs : shr_record) : Prop :=
  0 <= shr_m mrs /\
  exists rest,
    M = shr_m mrs * (2 ^ k * c) + rest /\ 0 <= rest < 2 ^ k * c /\
    (shr_r mrs = true <-> 2 ^ k * c <= 2 * rest) /\
    (shr_s mrs = true <-> rest <> 0 /\ 2 * rest <> 2 ^ k * c).

(** ** The run of a scenario whose conversions succeed *)

(** [quantities] once the area is the float [A]. *)
Definition quantities_at (scn : Scenario) (A : float) : float * float * float * Z :=
  if String.eqb (structural_system scn) "Steel" then
    let steel_t := Py.round (A * 0.02)%float 1 in
    let conc_m3 := Py.round (A * 0.05)%float 1 in
    (steel_t, conc_m3, Py.round (steel_t * 1.8 + conc_m3 * 0.1)%float 1,
     if mezzanine (opts scn) then 14 else 12)
  else
    let steel_t := Py.round (A * 0.008)%float 1 in
    let conc_m3 := Py.round (A * 0.12)%float 1 in
    (steel_t, conc_m3, Py.round (steel_t * 1.4 + conc_m3 * 0.22)%float 1,
     if mezzanine (opts scn) then 16 else 14).

(** The local variables at the [return], given the unit cost base [ucb], the
    unit price [u = ucb + adders], the contingency [c], the factor
    [k = 1 + c] and the area as the float [A]. *)
Definition locals_at (scn : Scenario) (ucb u c k A : float) : Locals :=
  let total := (A * u * k)%float in
  let '(steel_t, conc_m3, co2, weeks) := quantities_at scn A in
  {| l_unit_cost_base := ucb;
     l_adders := adders (opts scn);
     l_unchecked := unchecked (checklist scn);
     l_contingency_pct := c;
     l_subtotal := (A * u)%float;
     l_total := total;
     l_shares := shares total;
     l_steel_t := steel_t;
     l_conc_m3 := conc_m3;
     l_co2 := co2;
     l_lead_weeks := lead_weeks scn weeks;
     l_unit_cost_total :=
       if area_m2 scn =? 0 then PyInt 0 else PyFloat (total / A)%float |}.

(** The unit price and the contingency factor are within these bounds. *)
Definition price_ok (scn : Scenario) : bool :=
  match unit_cost_base scn with
  | Ok ucb =>
      match Py.add_int ucb (adders (opts scn)) with
      | Ok u => pos_between 379 841 u
      | Raise _ => false
      end
  | Raise _ => false
  end.

Definition factor_ok (unchecked : Z) : bool :=
  match contingency unchecked with
  | Ok c =>
      match Py.int_add 1 c with
      | Ok k => pos_between 1 2 k
      | Raise _ => false
      end
  | Raise _ => false
  end.

(** ** Definitions for the further properties *)

(** [x * num <= y * den] for two positive finite doubles, exactly. *)
Definition scaled_le (num den : Z) (x y : float) : bool :=
  match Prim2SF x, Prim2SF y with
  | S754_finite false mx ex, S754_finite false my ey =>
      let e := Z.min ex ey in
      Zpos mx * 2 ^ (ex - e) * num <=? Zpos my * 2 ^ (ey - e) * den
  | _, _ => false
  end.

(** [scn2 = dict(scn); scn2["quality"] = q] *)
Definition with_quality (scn : Scenario) (q : string) : Scenario :=
  {| project := project scn; project_type := project_type scn; area_m2 := area_m2 scn;
     structural_system := structural_system scn; envelope := envelope scn;
     quality := q; region := region scn; opts := opts scn;
     checklist := checklist scn; sent_at := sent_at scn |}.

(** The unit price [unit_cost_base + adders] and the factor
    [1 + contingency_pct]. *)
Definition price (scn : Scenario) : Result float :=
  ucb <- unit_cost_base scn ;; Py.add_int ucb (adders (opts scn)).

Definition factor (unchecked : Z) : Result float :=
  c <- contingency unchecked ;; Py.int_add 1 c.

(** The base cost and the three multipliers of a scenario. *)
Definition drivers (scn : Scenario) : Result (Z * float * float * float) :=
  base <- getitem2 base_table (project_type scn) (structural_system scn) ;;
  region_mult <- getitem region_table (region scn) ;;
  envelope_mult <- getitem envelope_table (envelope scn) ;;
  quality_mult <- getitem quality_table (quality scn) ;;
  Ok (base, region_mult, envelope_mult, quality_mult).

Definition opts_le (o1 o2 : Opts) : bool :=
  implb (skylights o1) (skylights o2) && implb (mezzanine o1) (mezzanine o2)
  && implb (hvac o1) (hvac o2).

(** No cost driver of the first scenario is above that of the second: base
    cost, multipliers, and the options taken. *)
Definition drivers_le (s1 s2 : Scenario) : bool :=
  match drivers s1, drivers s2 with
  | Ok (b1, r1, e1, q1), Ok (b2, r2, e2, q2) =>
      (b1 <=? b2) && (r1 <=? r2)%float && (e1 <=? e2)%float && (q1 <=? q2)%float
      && opts_le (opts s1) (opts s2)
  | _, _ => false
  end.

Definition choice_of (pt ss env q reg : string) (o : Opts) : Scenario :=
  {| project := EmptyString; project_type := pt; area_m2 := 0; structural_system := ss;
     envelope := env; quality := q; region := reg; opts := o;
     checklist := []; sent_at := None |}.

Definition all_opts : list Opts :=
  flat_map (fun s => flat_map (fun m => map (fun h =>
    {| skylights := s; mezzanine := m; hvac := h |}) [false; true]) [false; true]) [false; true].

Definition all_choices : list Scenario :=
  flat_map (fun pt => flat_map (fun ss => flat_map (fun env => flat_map (fun q =>
  flat_map (fun reg => map (choice_of pt ss env q reg) all_opts)
    REGIONS) QUALITIES) ENVELOPES) STRUCTURAL_SYSTEMS) PROJECT_TYPES.

Definition summary (scn : Scenario) : option (Z * float * float * float * Opts * float) :=
  match drivers scn, price scn with
  | Ok (b, r, e, q), Ok u => Some (b, r, e, q, opts scn, u)
  | _, _ => None
  end.

Definition summary_le (x y : Z * float * float * float * Opts * float) : bool :=
  let '(b1, r1, e1, q1, o1, _) := x in
  let '(b2, r2, e2, q2, o2, _) := y in
  (b1 <=? b2) && (r1 <=? r2)%float && (e1 <=? e2)%float && (q1 <=? q2)%float && opts_le o1 o2.

Definition summary_price_le (x y : Z * float * float * float * Opts * float) : bool :=
  let '(_, _, _, _, _, u1) := x in
  let '(_, _, _, _, _, u2) := y in
  scaled_le 1 1 u1 u2 && (if summary_le y x then true else scaled_le 251 250 u1 u2).

(** The base cost, multipliers, options and unit price of every
    combination. *)
Definition summaries : list (option (Z * float * float * float * Opts * float)) :=
  map summary all_choices.

(** Of two combinations with ordered drivers the second has the higher unit
    price. *)
Definition pair_ok (x y : option (Z * float * float * float * Opts * float)) : bool :=
  match x, y with
  | Some a, Some b => if summary_le a b then summary_price_le a b else true
  | _, _ => false
  end.

(** The second factor is not below the first, and is at least 0.4 percent
    above it when more items are unchecked. *)
Definition factor_le (n1 n2 : Z) : bool :=
  match factor n1, factor n2 with
  | Ok k1, Ok k2 =>
      scaled_le 1 1 k1 k2 && (if n1 <? n2 then scaled_le 251 250 k1 k2 else true)
  | _, _ => false
  end.

(** The loop of [make_quality_line]: for each quality, the unit cost of a
    copy of the scenario with that quality, appended to [unit_costs]. *)
Fixpoint quality_loop (scn : Scenario) (qualities : list string) (unit_costs : list pynum)
  : Result (list pynum) :=
  match qualities with
  | [] => Ok unit_costs
  | q :: rest =>
      let scn2 := with_quality scn q in
      c2 <- compute_simulation scn2 ;;
      quality_loop scn rest (unit_costs ++ [unit_cost c2])
  end.

(** [make_quality_line]: the [x] and [y] of the line that is drawn. *)
Definition make_quality_line (scn : Scenario) (_calc : Estimate)
  : Result (list string * list pynum) :=
  let qualities := ["Basic"; "Standard"; "Premium"] in
  unit_costs <- quality_loop scn qualities [] ;;
  Ok (qualities, unit_costs).

Definition scn_warehouse_premium : Scenario := with_quality scn_warehouse_steel "Premium".

(** A scenario whose region is not in the table. *)
Definition scn_unknown_region : Scenario :=
  {| project := "North Hub DC"; project_type := "Warehouse"; area_m2 := 10000;
     structural_system := "Steel"; envelope := "Standard"; quality := "Basic";
     region := "East"; opts := no_opts;
     checklist := all_checked; sent_at := None |}.

(** A scenario with a negative area. *)
Definition scn_negative_area : Scenario := with_area scn_warehouse_steel (-1250).

(** ** The session store

    [st.session_state] as the dictionary it is: [init_state] and [reset_all]
    test keys for presence, insert and delete them. *)

(** A value held under a key of the session. *)
Inductive value :=
| VNone
| VBool (b : bool)
| VInt (z : Z)
| VStr (s : string)
| VChecklist (cl : list (string * bool))
| VBytes (b : string).

(** The keys in insertion order, each with its value. *)
Definition store := list (string * value).

(** [k in ss] *)
Definition contains (ss : store) (k : string) : bool :=
  match assoc ss k with
  | Some _ => true
  | None => false
  end.

(** [ss[k] = v]: the value is replaced where the key is, a new key goes to
    the end. *)
Fixpoint setitem (ss : store) (k : string) (v : value) : store :=
  match ss with
  | [] => [(k, v)]
  | (k', v') :: rest =>
      if String.eqb k k' then (k', v) :: rest else (k', v') :: setitem rest k v
  end.

(** [del ss[k]]: [KeyError] when the key is missing. *)
Fixpoint delitem (ss : store) (k : string) : Result store :=
  match ss with
  | [] => Raise (KeyError (KStr k))
  | (k', v') :: rest =>
      if String.eqb k k' then Ok rest
      else rest' <- delitem rest k ;; Ok ((k', v') :: rest')
  end.

(** The [defaults] dictionary of [init_state]. *)
Definition defaults : store :=
  [ ("dark_mode", VBool false);
    ("project", VStr "North Hub DC");
    ("sent_flag", VBool false);
    ("last_sent_ts", VNone);
    ("project_type", VStr "Warehouse");
    ("built_area", VInt 10000);
    ("structural_system", VStr "Steel");
    ("envelope", VStr "Standard");
    ("quality", VStr "Standard");
    ("region", VStr "North");
    ("opt_skylights", VBool true);
    ("opt_mezzanine", VBool false);
    ("opt_hvac", VBool true);
    ("checklist",
     VChecklist [ ("Soil report available", true);
                  ("As-built utilities verified", true);
                  ("Permitting path confirmed", false);
                  ("Vendor pre-qualification complete", true);
                  ("BIM execution plan approved", false);
                  ("LEED considerations", true);
                  ("Early procurement planned", false) ]);
    ("pulse", VBool false);
    ("fake_link", VNone);
    ("fake_qr", VNone) ].

(** [for k, v in d.items(): if k not in ss: ss[k] = v] *)
Definition set_missing (d : list (string * value)) (ss : store) : store :=
  fold_left (fun ss kv => if contains ss (fst kv) then ss else setitem ss (fst kv) (snd kv))
            d ss.

Definition init_state (ss : store) : store := set_missing defaults ss.

(** The [keep] set of [reset_all]. *)
Definition keep : list string := ["dark_mode"].

(** [for k in keys: if k not in keep: del ss[k]] *)
Fixpoint delete_unkept (keys : list string) (ss : store) : Result store :=
  match keys with
  | [] => Ok ss
  | k :: rest =>
      if existsb (String.eqb k) keep then delete_unkept rest ss
      else ss' <- delitem ss k ;; delete_unkept rest ss'
  end.

(** [reset_all]: the loop runs over a copy of the keys, [list(ss.keys())]. *)
Definition reset_all (ss : store) : Result store :=
  ss' <- delete_unkept (map fst ss) ss ;;
  Ok (init_state ss').

Definition load_preset (p_type : string) (area : Z)
    (structure envelope quality region : string) (skylights mezz hvac : bool)
    (ss : store) : store :=
  let ss := setitem ss "project_type" (VStr p_type) in
  let ss := setitem ss "built_area" (VInt area) in
  let ss := setitem ss "structural_system" (VStr structure) in
  let ss := setitem ss "envelope" (VStr envelope) in
  let ss := setitem ss "quality" (VStr quality) in
  let ss := setitem ss "region" (VStr region) in
  let ss := setitem ss "opt_skylights" (VBool skylights) in
  let ss := setitem ss "opt_mezzanine" (VBool mezz) in
  let ss := setitem ss "opt_hvac" (VBool hvac) in
  setitem ss "pulse" (VBool true).

(** The three preset buttons of the control band. *)
Definition preset_basic_whse : store -> store :=
  load_preset "Warehouse" 10000 "Steel" "Standard" "Basic" "North" true false true.

Definition preset_premium_office : store -> store :=
  load_preset "Office" 5000 "Concrete" "Insulated" "Premium" "Central" false true true.

Definition preset_retail_std : store -> store :=
  load_preset "Retail" 3000 "Steel" "Standard" "Standard" "South" true false true.

(** Reading a key as a value of the type the application keeps under it. *)
Definition get_bool (ss : store) (k : string) : option bool :=
  match assoc ss k with
  | Some (VBool b) => Some b
  | _ => None
  end.

Definition get_int (ss : store) (k : string) : option Z :=
  match assoc ss k with
  | Some (VInt z) => Some z
  | _ => None
  end.

Definition get_str (ss : store) (k : string) : option string :=
  match assoc ss k with
  | Some (VStr s) => Some s
  | _ => None
  end.

Definition get_checklist (ss : store) (k : string) : option (list (string * bool)) :=
  match assoc ss k with
  | Some (VChecklist cl) => Some cl
  | _ => None
  end.

(** A string or [None]. *)
Definition get_opt_str (ss : store) (k : string) : option (option string) :=
  match assoc ss k with
  | Some VNone => Some None
  | Some (VStr s) => Some (Some s)
  | Some (VBytes b) => Some (Some b)
  | _ => None
  end.

(** The session as [capture_scenario] and the dashboard read it: every key
    of [init_state] present, with a value of its type. *)
Definition session_of (ss : store) : option SessionState :=
  match get_bool ss "dark_mode" with None => None | Some v_dark_mode =>
  match get_str ss "project" with None => None | Some v_project =>
  match get_bool ss "sent_flag" with None => None | Some v_sent_flag =>
  match get_opt_str ss "last_sent_ts" with None => None | Some v_last_sent_ts =>
  match get_str ss "project_type" with None => None | Some v_project_type =>
  match get_int ss "built_area" with None => None | Some v_built_area =>
  match get_str ss "structural_system" with None => None | Some v_structural_system =>
  match get_str ss "envelope" with None => None | Some v_envelope =>
  match get_str ss "quality" with None => None | Some v_quality =>
  match get_str ss "region" with None => None | Some v_region =>
  match get_bool ss "opt_skylights" with None => None | Some v_opt_skylights =>
  match get_bool ss "opt_mezzanine" with None => None | Some v_opt_mezzanine =>
  match get_bool ss "opt_hvac" with None => None | Some v_opt_hvac =>
  match get_checklist ss "checklist" with None => None | Some v_checklist =>
  match get_bool ss "pulse" with None => None | Some v_pulse =>
  match get_opt_str ss "fake_link" with None => None | Some v_fake_link =>
  match get_opt_str ss "fake_qr" with None => None | Some v_fake_qr =>
  Some {| dark_mode := v_dark_mode; ss_project := v_project; sent_flag := v_sent_flag;
          last_sent_ts := v_last_sent_ts; ss_project_type := v_project_type;
          built_area := v_built_area; ss_structural_system := v_structural_system;
          ss_envelope := v_envelope; ss_quality := v_quality; ss_region := v_region;
          opt_skylights := v_opt_skylights; opt_mezzanine := v_opt_mezzanine;
          opt_hvac := v_opt_hvac; ss_checklist := v_checklist; pulse := v_pulse;
          fake_link := v_fake_link; fake_qr := v_fake_qr |}
  end end end end end end end end end end end end end end end end end.

(** The session of a first run, in dark mode or not. *)
Definition default_session (dark : bool) : SessionState :=
  {| dark_mode := dark; ss_project := "North Hub DC"; sent_flag := false;
     last_sent_ts := None; ss_project_type := "Warehouse"; built_area := 10000;
     ss_structural_system := "Steel"; ss_envelope := "Standard";
     ss_quality := "Standard"; ss_region := "North";
     opt_skylights := true; opt_mezzanine := false; opt_hvac := true;
     ss_checklist := checklist_of [true; true; false; true; false; true; false];
     pulse := false; fake_link := None; fake_qr := None |}.

(** A session in which a scenario was sent and a share link made, with a key
    of its own besides. *)
Definition store_in_use : store :=
  [ ("project", VStr "MX HQ Office"); ("dark_mode", VBool true);
    ("sent_flag", VBool true); ("last_sent_ts", VStr "2024-01-01 09:00:00");
    ("project_type", VStr "Office"); ("built_area", VInt 5000);
    ("structural_system", VStr "Concrete"); ("envelope", VStr "Insulated");
    ("quality", VStr "Premium"); ("region", VStr "Central");
    ("opt_skylights", VBool false); ("opt_mezzanine", VBool true);
    ("opt_hvac", VBool true);
    ("checklist", VChecklist (checklist_of [false; true; true; true; true; true; false]));
    ("pulse", VBool false); ("fake_link", VStr "https://core-inn.hermosillo/sim/1");
    ("fake_qr", VBytes "PNG"); ("extra", VInt 1) ].

(** [store_in_use] as the application reads it. *)
Definition session_in_use : SessionState :=
  {| dark_mode := true; ss_project := "MX HQ Office"; sent_flag := true;
     last_sent_ts := Some "2024-01-01 09:00:00";
     ss_project_type := "Office"; built_area := 5000;
     ss_structural_system := "Concrete"; ss_envelope := "Insulated";
     ss_quality := "Premium"; ss_region := "Central";
     opt_skylights := false; opt_mezzanine := true; opt_hvac := true;
     ss_checklist := checklist_of [false; true; true; true; true; true; false];
     pulse := false; fake_link := Some "https://core-inn.hermosillo/sim/1";
     fake_qr := Some "PNG" |}.

(** * Facts about binary64 arithmetic

    The primitive operations are specified by [SpecFloat]'s functions
    ([mul_spec], [add_spec], [div_spec], ...); what follows derives, from
    those functions, the round-off bounds the estimate needs. *)

Module Binary64.

(** ** Bit lengths *)

Lemma digits2_pos_bounds (p : positive) :
  2 ^ (Zpos (digits2_pos p) - 1) <= Zpos p < 2 ^ Zpos (digits2_pos p).
Proof.
  induction p as [p IH | p IH |]; cbn [digits2_pos].
  - rewrite Pos2Z.inj_succ.
    replace (Z.succ (Zpos (digits2_pos p)) - 1) with (Z.succ (Zpos (digits2_pos p) - 1)) by lia.
    rewrite !Z.pow_succ_r by lia. lia.
  - rewrite Pos2Z.inj_succ.
    replace (Z.succ (Zpos (digits2_pos p)) - 1) with (Z.succ (Zpos (digits2_pos p) - 1)) by lia.
    rewrite !Z.pow_succ_r by lia. lia.
  - cbn. lia.
Qed.

Lemma pow2_lt_inv (a b : Z) : 0 <= b -> 2 ^ a < 2 ^ b -> a < b.
Proof.
  intros Hb H. destruct (Z.lt_ge_cases a b) as [|Hge]; [assumption|].
  exfalso. apply (Z.pow_le_mono_r 2) in Hge; lia.
Qed.

Lemma digits2_pos_unique (p : positive) (n : Z) :
  2 ^ (n - 1) <= Zpos p < 2 ^ n -> Zpos (digits2_pos p) = n.
Proof.
  intros [Hlo Hhi].
  destruct (digits2_pos_bounds p) as [Dlo Dhi].
  assert (0 < n).
  { destruct (Z.lt_ge_cases 0 n); [assumption|].
    exfalso. destruct (Z.eq_dec n 0) as [->|]; [cbn in Hhi; lia|].
    rewrite Z.pow_neg_r in Hhi by lia. lia. }
  assert (Zpos (digits2_pos p) - 1 < n) by (apply pow2_lt_inv; lia).
  assert (n - 1 < Zpos (digits2_pos p)) by (apply pow2_lt_inv; lia).
  lia.
Qed.

Lemma Zdigits2_unique (z n : Z) : 2 ^ (n - 1) <= z < 2 ^ n -> 0 < z -> Zdigits2 z = n.
Proof.
  intros H Hz. destruct z as [|p|p]; try lia. cbn [Zdigits2].
  apply digits2_pos_unique; assumption.
Qed.

Lemma iter_xO_mul (m d : positive) : Zpos (Pos.iter xO m d) = Zpos m * 2 ^ Zpos d.
Proof.
  induction d as [|d IH] using Pos.peano_ind.
  - cbn. lia.
  - rewrite Pos.iter_succ, Pos2Z.inj_xO, IH, Pos2Z.inj_succ, Z.pow_succ_r by lia. ring.
Qed.

Lemma digits2_pos_shift (m mz : positive) (d : Z) :
  0 <= d -> Zpos mz = Zpos m * 2 ^ d ->
  Zpos (digits2_pos mz) = Zpos (digits2_pos m) + d.
Proof.
  intros Hd E. apply digits2_pos_unique.
  pose proof (digits2_pos_bounds m) as [Hlo Hhi].
  assert (0 < 2 ^ d) by (apply Z.pow_pos_nonneg; lia).
  replace (Zpos (digits2_pos m) + d - 1) with (Zpos (digits2_pos m) - 1 + d) by lia.
  rewrite !Z.pow_add_r by lia. rewrite E. split; nia.
Qed.

Lemma fexp_normal (x : Z) : -1021 <= x -> fexp prec emax x = x - 53.
Proof. intros H. unfold fexp, SpecFloat.emin, prec, emax. lia. Qed.

(** ** Shifting and rounding a mantissa *)

Lemma iter_pos_nat {A} (f : A -> A) (p : positive) (x : A) :
  SpecFloat.iter_pos f p x = Nat.iter (Pos.to_nat p) f x.
Proof.
  revert x. induction p as [p IH | p IH |]; intros x; cbn [SpecFloat.iter_pos].
  - rewrite !IH. rewrite Pos2Nat.inj_xI.
    replace (S (2 * Pos.to_nat p))%nat with (Pos.to_nat p + (Pos.to_nat p + 1))%nat by lia.
    rewrite !Nat.iter_add. reflexivity.
  - rewrite !IH. rewrite Pos2Nat.inj_xO.
    replace (2 * Pos.to_nat p)%nat with (Pos.to_nat p + Pos.to_nat p)%nat by lia.
    rewrite Nat.iter_add. reflexivity.
  - reflexivity.
Qed.

Lemma shr_1_nonneg (m : Z) (r s : bool) :
  0 <= m ->
  shr_1 {| shr_m := m; shr_r := r; shr_s := s |} =
  {| shr_m := m / 2; shr_r := Z.odd m; shr_s := r || s |}.
Proof.
  intros Hm. destruct m as [|[p|p|]|p]; try lia; cbn [shr_1].
  - reflexivity.
  - replace (Zpos p~1 / 2) with (Zpos p); [reflexivity|].
    apply (Z.div_unique _ _ _ 1); lia.
  - replace (Zpos p~0 / 2) with (Zpos p); [reflexivity|].
    apply (Z.div_unique _ _ _ 0); lia.
  - reflexivity.
Qed.

(** The location of a remainder [r] of a division by [c]. *)
Lemma new_location_cases (c r : Z) :
  0 < c -> 0 <= r < c ->
  new_location c r = if r =? 0 then loc_Exact else loc_Inexact (2 * r ?= c).
Proof.
  intros Hc Hr. unfold new_location, new_location_even, new_location_odd.
  change (IntDef.Z.even c) with (Z.even c).
  change (IntDef.Z.eqb r 0) with (r =? 0).
  change (IntDef.Z.compare (IntDef.Z.mul 2 r) c) with (2 * r ?= c).
  change (IntDef.Z.compare (IntDef.Z.add (IntDef.Z.mul 2 r) 1) c) with (2 * r + 1 ?= c).
  destruct (Z.even c) eqn:Ec; [reflexivity|].
  destruct (r =? 0); [reflexivity|]. f_equal.
  assert (Hodd : Z.odd c = true) by (rewrite <- Z.negb_even, Ec; reflexivity).
  apply Z.odd_spec in Hodd. destruct Hodd as [h Hh].
  destruct (Z.compare_spec (2 * r + 1) c); destruct (Z.compare_spec (2 * r) c);
    try reflexivity; lia.
Qed.

Lemma shr_inv_init (c q r : Z) :
  0 <= q -> 0 < c -> 0 <= r < c ->
  shr_inv c (q * c + r) 0 (shr_record_of_loc q (new_location c r)).
Proof.
  intros Hq Hc Hr. rewrite (new_location_cases c r Hc Hr).
  unfold shr_inv. rewrite Z.pow_0_r, Z.mul_1_l.
  destruct (Z.eqb_spec r 0) as [E | E].
  - cbn [shr_record_of_loc shr_m shr_r shr_s]. split; [exact Hq|].
    exists r. repeat split; try lia; discriminate.
  - destruct (Z.compare_spec (2 * r) c); cbn [shr_record_of_loc shr_m shr_r shr_s];
      (split; [exact Hq|]); exists r; repeat split; try lia; try discriminate.
Qed.

Lemma shr_inv_step (c M k : Z) (mrs : shr_record) :
  0 < c -> 0 <= k -> shr_inv c M k mrs -> shr_inv c M (k + 1) (shr_1 mrs).
Proof.
  intros Hc Hk [Hm [rest (HM & Hrest & Hr & Hs)]].
  destruct mrs as [m r s]. cbn [shr_m shr_r shr_s] in *.
  rewrite shr_1_nonneg by assumption. unfold shr_inv. cbn [shr_m shr_r shr_s].
  assert (Hp : 0 < 2 ^ k) by (apply Z.pow_pos_nonneg; lia).
  rewrite Z.pow_add_r, Z.pow_1_r by lia.
  set (U := 2 ^ k * c) in *.
  assert (HU : 0 < U) by (unfold U; nia).
  replace (2 ^ k * 2 * c) with (2 * U) by (unfold U; ring).
  split; [apply Z.div_pos; lia|].
  exists ((m mod 2) * U + rest).
  pose proof (Z.div_mod m 2 ltac:(lia)) as Hdm.
  pose proof (Z.mod_pos_bound m 2 ltac:(lia)) as Hmb.
  assert (Hrs : (r || s)%bool = true <-> rest <> 0).
  { rewrite orb_true_iff, Hr, Hs. lia. }
  rewrite Hrs, Zodd_mod, Z.eqb_eq.
  assert (Hcase : m mod 2 = 0 \/ m mod 2 = 1) by lia.
  destruct Hcase as [E|E]; rewrite E in *; repeat split; try nia.
Qed.

Lemma shr_inv_iter (c M : Z) (mrs : shr_record) (n : nat) :
  0 < c -> shr_inv c M 0 mrs -> shr_inv c M (Z.of_nat n) (Nat.iter n shr_1 mrs).
Proof.
  intros Hc H0. induction n as [|n IH]; cbn [Nat.iter].
  - exact H0.
  - rewrite Nat2Z.inj_succ, <- Z.add_1_r. apply shr_inv_step; [exact Hc | lia | exact IH].
Qed.

Lemma shr_spec (c q r e n : Z) :
  0 <= q -> 0 < c -> 0 <= r < c -> 0 <= n ->
  exists mrs,
    shr (shr_record_of_loc q (new_location c r)) e n = (mrs, e + n) /\
    shr_inv c (q * c + r) n mrs.
Proof.
  intros Hq Hc Hr Hn. pose proof (shr_inv_init c q r Hq Hc Hr) as H0.
  destruct n as [|p|p]; try lia; cbn [shr].
  - eexists; split; [rewrite Z.add_0_r; reflexivity | exact H0].
  - eexists; split; [reflexivity|].
    rewrite iter_pos_nat, <- positive_nat_Z.
    apply shr_inv_iter; assumption.
Qed.

(** Rounding the shifted mantissa to nearest-even moves it by at most half a
    unit of the last kept place, and not at all when nothing was cut off. *)
Lemma round_nearest_even_inv (c M k : Z) (mrs : shr_record) :
  0 < c -> 0 <= k -> shr_inv c M k mrs ->
  let m1 := round_nearest_even (shr_m mrs) (loc_of_shr_record mrs) in
  shr_m mrs <= m1 <= shr_m mrs + 1 /\
  2 * Z.abs (m1 * (2 ^ k * c) - M) <= 2 ^ k * c /\
  (forall q, M = q * (2 ^ k * c) -> m1 = q).
Proof.
  intros Hc Hk [Hm [rest (HM & Hrest & Hr & Hs)]].
  destruct mrs as [m r s]. cbn [shr_m shr_r shr_s] in *.
  assert (Hp : 0 < 2 ^ k) by (apply Z.pow_pos_nonneg; lia).
  set (U := 2 ^ k * c) in *.
  assert (HU : 0 < U) by (unfold U; nia).
  assert (Hq : forall q, M = q * U -> q = m /\ rest = 0).
  { intros q Hq.
    assert (q = m); [|subst q; lia].
    destruct (Z.lt_trichotomy q m) as [Hlt | [Heq | Hgt]]; [exfalso | assumption | exfalso].
    - assert (q * U + U <= m * U) by nia. lia.
    - assert (m * U + U <= q * U) by nia. lia. }
  destruct r, s; cbn [loc_of_shr_record round_nearest_even].
  - assert (U <= 2 * rest) by (apply Hr; reflexivity).
    assert (rest <> 0 /\ 2 * rest <> U) by (apply Hs; reflexivity).
    repeat split; try lia.
    intros q Hq'. apply Hq in Hq'. lia.
  - assert (U <= 2 * rest) by (apply Hr; reflexivity).
    assert (2 * rest = U).
    { destruct (Z.eq_dec (2 * rest) U); [assumption|].
      assert (false = true) by (apply Hs; lia). discriminate. }
    destruct (Z.even m); repeat split; try lia;
      intros q Hq'; apply Hq in Hq'; lia.
  - assert (rest <> 0 /\ 2 * rest <> U) by (apply Hs; reflexivity).
    assert (~ U <= 2 * rest) by (intros C; apply Hr in C; discriminate).
    repeat split; try lia.
    intros q Hq'. apply Hq in Hq'. lia.
  - assert (~ U <= 2 * rest) by (intros C; apply Hr in C; discriminate).
    assert (rest = 0).
    { destruct (Z.eq_dec rest 0); [assumption|].
      assert (false = true) by (apply Hs; lia). discriminate. }
    repeat split; try lia.
    intros q Hq'. apply Hq in Hq'. lia.
Qed.

(** [binary_round_aux] on a mantissa [p] of at least 53 bits followed by the
    fraction [r / c], away from underflow and overflow: the result is a normal
    number, at most half a unit of its last place off, and exact when the
    cut-off part is zero. *)
Lemma binary_round_aux_loc_spec (sx : bool) (p : positive) (e c r : Z) :
  let d := Zpos (digits2_pos p) in
  0 < c -> 0 <= r < c ->
  53 <= d -> -1021 <= d + e <= 1023 ->
  exists m' e',
    binary_round_aux prec emax sx (Zpos p) e (new_location c r) = S754_finite sx m' e' /\
    SpecFloat.bounded prec emax m' e' = true /\
    e <= e' /\
    2 * Z.abs (Zpos m' * 2 ^ (e' - e) * c - (Zpos p * c + r)) <= 2 ^ (d - 53) * c /\
    (forall q, Zpos p * c + r = q * (2 ^ (d - 53) * c) -> Zpos m' * 2 ^ (e' - e) = q * 2 ^ (d - 53)).
Proof.
  intros d Hc Hr Hd He.
  pose proof (digits2_pos_bounds p) as Hdig. fold d in Hdig.
  set (k := d - 53) in *.
  unfold binary_round_aux, shr_fexp. cbn [Zdigits2]. fold d.
  rewrite fexp_normal by lia.
  replace (d + e - 53 - e) with k by lia.
  destruct (shr_spec c (Zpos p) r e k ltac:(lia) Hc Hr ltac:(lia)) as [mrs [-> Hinv]].
  pose proof (round_nearest_even_inv c (Zpos p * c + r) k mrs Hc ltac:(lia) Hinv) as Hrnd.
  cbv zeta in Hrnd. destruct Hrnd as (Hm1 & Herr & Hex).
  set (m1 := round_nearest_even (shr_m mrs) (loc_of_shr_record mrs)) in *.
  assert (Hpk : 0 < 2 ^ k) by (apply Z.pow_pos_nonneg; lia).
  assert (Hsplit : 2 ^ d = 2 ^ 53 * 2 ^ k /\ 2 ^ (d - 1) = 2 ^ 52 * 2 ^ k).
  { split; rewrite <- Z.pow_add_r by lia; f_equal; lia. }
  destruct Hsplit as [Hd1 Hd2].
  set (U := 2 ^ k * c) in *.
  assert (HU : 0 < U) by (unfold U; nia).
  assert (Hm : 2 ^ 52 <= shr_m mrs < 2 ^ 53).
  { destruct Hinv as [_ [rest (HM & Hrest & _)]]. fold U in HM, Hrest.
    change (2 ^ 52) with 4503599627370496 in *.
    change (2 ^ 53) with 9007199254740992 in *.
    assert (4503599627370496 * U <= Zpos p * c) by (unfold U; nia).
    assert (Zpos p * c + c <= 9007199254740992 * U) by (unfold U; nia).
    split; nia. }
  assert (Hm1r : 2 ^ 52 <= m1 <= 2 ^ 53) by lia.
  destruct (Z.eq_dec m1 (2 ^ 53)) as [Etop | Ntop].
  - (* the rounding carried into a 54th bit: one more shift, exactly *)
    rewrite Etop.
    replace (Zdigits2 (2 ^ 53)) with 54 by reflexivity.
    rewrite fexp_normal by lia.
    replace (54 + (e + k) - 53 - (e + k)) with 1 by lia.
    cbn [shr SpecFloat.iter_pos shr_record_of_loc shr_1 shr_m Z.pow Z.pow_pos Pos.iter Pos.mul].
    replace (e + k + 1 <=? emax - prec) with true
      by (symmetry; apply Z.leb_le; unfold emax, prec; lia).
    exists 4503599627370496%positive, (e + k + 1). split; [reflexivity|].
    split.
    { unfold SpecFloat.bounded, canonical_mantissa. cbn [digits2_pos Pos.succ].
      rewrite fexp_normal by lia. apply andb_true_intro; split.
      - apply Z.eqb_eq. lia.
      - apply Z.leb_le. unfold emax, prec. lia. }
    split; [lia|].
    replace (e + k + 1 - e) with (k + 1) by lia.
    rewrite Z.pow_add_r, Z.pow_1_r by lia.
    change (Zpos 4503599627370496) with (2 ^ 52).
    replace (2 ^ 52 * (2 ^ k * 2)) with (2 ^ 53 * 2 ^ k)
      by (change (2 ^ 53) with (2 * 2 ^ 52); ring).
    rewrite Etop in Herr.
    replace (2 ^ 53 * 2 ^ k * c) with (2 ^ 53 * U) by (unfold U; ring).
    split; [exact Herr|].
    intros q Hq. f_equal. rewrite <- Etop. apply Hex, Hq.
  - assert (Hm1s : 2 ^ 52 <= m1 < 2 ^ 53) by lia.
    rewrite (Zdigits2_unique m1 53) by (simpl; lia).
    rewrite fexp_normal by lia.
    replace (53 + (e + k) - 53 - (e + k)) with 0 by lia.
    cbn [shr shr_record_of_loc shr_m].
    destruct m1 as [|q1|q1] eqn:Em1; try lia.
    replace (e + k <=? emax - prec) with true
      by (symmetry; apply Z.leb_le; unfold emax, prec; lia).
    exists q1, (e + k). split; [reflexivity|].
    split.
    { unfold SpecFloat.bounded, canonical_mantissa.
      rewrite (digits2_pos_unique q1 53) by (simpl; lia).
      rewrite fexp_normal by lia. apply andb_true_intro; split.
      - apply Z.eqb_eq. lia.
      - apply Z.leb_le. unfold emax, prec. lia. }
    split; [lia|].
    replace (e + k - e) with k by lia.
    replace (Zpos q1 * 2 ^ k * c) with (Zpos q1 * U) by (unfold U; ring).
    split; [exact Herr|].
    intros q Hq. f_equal. apply Hex, Hq.
Qed.

(** The same on an exact mantissa. *)
Lemma binary_round_aux_spec (sx : bool) (p : positive) (e : Z) :
  let d := Zpos (digits2_pos p) in
  53 <= d -> -1021 <= d + e <= 1023 ->
  exists m' e',
    binary_round_aux prec emax sx (Zpos p) e loc_Exact = S754_finite sx m' e' /\
    SpecFloat.bounded prec emax m' e' = true /\
    e <= e' /\
    2 * Z.abs (Zpos m' * 2 ^ (e' - e) - Zpos p) <= 2 ^ (d - 53) /\
    (forall q, Zpos p = q * 2 ^ (d - 53) -> Zpos m' * 2 ^ (e' - e) = Zpos p).
Proof.
  intros d Hd He.
  destruct (binary_round_aux_loc_spec sx p e 1 0 ltac:(lia) ltac:(lia) Hd He)
    as (m' & e' & Hr & Hb & Hle & Herr & Hex).
  change (new_location 1 0) with loc_Exact in Hr. fold d in Herr, Hex.
  exists m', e'. split; [exact Hr|]. split; [exact Hb|]. split; [exact Hle|].
  rewrite !Z.mul_1_r, Z.add_0_r in Herr. split; [exact Herr|].
  intros q Hq. rewrite Hq. apply Hex. rewrite Hq. ring.
Qed.

(** [binary_round] first pads short mantissas to 53 bits, so it is exact on
    them, and rounds long ones. *)
Lemma binary_round_spec (sx : bool) (p : positive) (e : Z) :
  let d := Zpos (digits2_pos p) in
  -1021 <= d + e <= 1023 ->
  exists m' e' ez pz,
    binary_round prec emax sx p e = S754_finite sx m' e' /\
    SpecFloat.bounded prec emax m' e' = true /\
    ez <= e /\ ez <= e' /\ Zpos pz = Zpos p * 2 ^ (e - ez) /\
    2 * Z.abs (Zpos m' * 2 ^ (e' - ez) - Zpos pz) <= 2 ^ (d + e - ez - 53) /\
    53 <= d + e - ez /\
    (d <= 53 \/ (exists q, Zpos p = q * 2 ^ (d - 53)) ->
     Zpos m' * 2 ^ (e' - ez) = Zpos pz).
Proof.
  intros d He. unfold binary_round. fold d.
  rewrite fexp_normal by lia. unfold shl_align.
  destruct (d + e - 53 - e) as [|k|k] eqn:Ek.
  - (* exactly 53 bits *)
    destruct (binary_round_aux_spec sx p e) as (m' & e' & Hr & Hb & Hle & Herr & Hex);
      fold d; try lia.
    exists m', e', e, p. rewrite Hr, Z.sub_diag, Z.mul_1_r.
    repeat split; try assumption; try lia.
    + fold d in Herr. replace (d + e - e - 53) with (d - 53) by lia. exact Herr.
    + intros _. apply (Hex (Zpos p)). fold d. replace (d - 53) with 0 by lia.
      rewrite Z.mul_1_r. reflexivity.
  - (* more than 53 bits *)
    destruct (binary_round_aux_spec sx p e) as (m' & e' & Hr & Hb & Hle & Herr & Hex);
      fold d; try lia.
    exists m', e', e, p. rewrite Hr, Z.sub_diag, Z.mul_1_r.
    repeat split; try assumption; try lia.
    + fold d in Herr. replace (d + e - e - 53) with (d - 53) by lia. exact Herr.
    + intros [Hle53 | [q Hq]]; [lia|]. apply (Hex q). exact Hq.
  - (* fewer: pad *)
    pose proof (iter_xO_mul p k) as Hz.
    set (pz := Pos.iter xO p k) in *.
    assert (Hdz : Zpos (digits2_pos pz) = d + Zpos k)
      by (apply digits2_pos_shift; [lia | exact Hz]).
    destruct (binary_round_aux_spec sx pz (d + e - 53)) as (m' & e' & Hr & Hb & Hle & Herr & Hex);
      try lia.
    exists m', e', (d + e - 53), pz. rewrite Hr.
    replace (e - (d + e - 53)) with (Zpos k) by lia.
    rewrite Hdz in Herr, Hex.
    replace (d + Zpos k - 53) with 0 in Herr, Hex by lia.
    replace (d + e - (d + e - 53) - 53) with 0 by lia.
    repeat split; try assumption; try lia.
Qed.

(** ** Powers of two and real values *)

Local Open Scope R_scope.

Lemma Rabs_le_inv (a b : R) : Rabs a <= b -> - b <= a <= b.
Proof. unfold Rabs. destruct (Rcase_abs a); lra. Qed.

Lemma bpow_pos (e : Z) : 0 < bpow e.
Proof. apply powerRZ_lt. lra. Qed.

Lemma bpow_add (a b : Z) : bpow (a + b) = bpow a * bpow b.
Proof. apply powerRZ_add. lra. Qed.

Lemma bpow_IZR (n : Z) : (0 <= n)%Z -> bpow n = IZR (2 ^ n).
Proof.
  intros Hn. unfold bpow. destruct n as [|p|p]; try lia.
  - reflexivity.
  - change (2 ^ Zpos p)%Z with (Z.pow_pos 2 p). rewrite Zpower_pos_powerRZ. reflexivity.
Qed.

Lemma bpow_ge_1 (n : Z) : (0 <= n)%Z -> 1 <= bpow n.
Proof.
  intros Hn. rewrite bpow_IZR by assumption. apply IZR_le.
  assert (0 < 2 ^ n)%Z by (apply Z.pow_pos_nonneg; lia). lia.
Qed.

Lemma bpow_le (a b : Z) : (a <= b)%Z -> bpow a <= bpow b.
Proof.
  intros H. replace b with (a + (b - a))%Z by lia. rewrite bpow_add.
  pose proof (bpow_pos a). pose proof (bpow_ge_1 (b - a) ltac:(lia)). nra.
Qed.

Lemma bpow_lt (a b : Z) : (a < b)%Z -> bpow a < bpow b.
Proof.
  intros H. replace b with (a + 1 + (b - a - 1))%Z by lia. rewrite !bpow_add.
  pose proof (bpow_pos a). pose proof (bpow_ge_1 (b - a - 1) ltac:(lia)).
  change (bpow 1) with (2 * 1). nra.
Qed.

Lemma bpow_lt_inv (a b : Z) : bpow a < bpow b -> (a < b)%Z.
Proof.
  intros H. destruct (Z.lt_ge_cases a b) as [|Hge]; [assumption|].
  apply bpow_le in Hge. lra.
Qed.

Lemma bpow_opp (n : Z) : bpow (- n) = / bpow n.
Proof. apply powerRZ_neg'. Qed.

Lemma bpow_52 : bpow 52 = 4503599627370496.
Proof. rewrite bpow_IZR by lia. reflexivity. Qed.

Lemma bpow_m53 : bpow (-53) = / 9007199254740992.
Proof. change (-53)%Z with (- (53))%Z. rewrite bpow_opp, bpow_IZR by lia. reflexivity. Qed.

Lemma bpow_500_1023 : bpow 500 * bpow 500 < bpow 1023.
Proof. rewrite <- bpow_add. apply bpow_lt. lia. Qed.

Lemma bpow_500_twice : 2 * bpow 500 < bpow 1023.
Proof.
  assert (E : bpow 1 = 2) by (change (bpow 1) with (2 * 1); lra).
  rewrite <- E at 1. rewrite <- bpow_add. apply bpow_lt. lia.
Qed.

Lemma bpow_m500_m1021 : bpow (-1021) <= bpow (-500) * bpow (-500).
Proof. rewrite <- bpow_add. apply bpow_le. lia. Qed.

Lemma F2R_shift (m e e' : Z) : (e' <= e)%Z -> F2R (m * 2 ^ (e - e')) e' = F2R m e.
Proof.
  intros H. unfold F2R. rewrite mult_IZR, <- bpow_IZR by lia.
  rewrite Rmult_assoc, <- bpow_add. f_equal. f_equal. lia.
Qed.

Lemma F2R_digits (p : positive) (e : Z) :
  bpow (Zpos (digits2_pos p) + e - 1) <= F2R (Zpos p) e < bpow (Zpos (digits2_pos p) + e).
Proof.
  pose proof (digits2_pos_bounds p) as [Hlo Hhi].
  set (d := Zpos (digits2_pos p)) in *.
  assert (0 < d)%Z by (unfold d; lia).
  unfold F2R. replace (d + e - 1)%Z with (d - 1 + e)%Z by lia.
  rewrite !bpow_add, (bpow_IZR (d - 1)), (bpow_IZR d) by lia.
  apply IZR_le in Hlo. apply IZR_lt in Hhi. pose proof (bpow_pos e). nra.
Qed.

Lemma F2R_inj (m1 m2 e : Z) : F2R m1 e = F2R m2 e -> m1 = m2.
Proof.
  unfold F2R. intros H. pose proof (bpow_pos e). apply eq_IZR. nra.
Qed.

Lemma F2R_pos (m : positive) (e : Z) : 0 < F2R (Zpos m) e.
Proof.
  unfold F2R. pose proof (bpow_pos e).
  assert (0 < IZR (Zpos m)) by (apply IZR_lt; lia). nra.
Qed.

Lemma magnitude_unique (v : R) (a b : Z) :
  bpow (a - 1) <= v < bpow a -> bpow (b - 1) <= v < bpow b -> a = b.
Proof.
  intros [La Ha] [Lb Hb].
  assert (a - 1 < b)%Z by (apply bpow_lt_inv; lra).
  assert (b - 1 < a)%Z by (apply bpow_lt_inv; lra).
  lia.
Qed.

(** A valid finite positive number [m * 2^e] above [2^-1022] has exactly 53
    mantissa bits. *)
Lemma bounded_normal (m : positive) (e : Z) :
  SpecFloat.bounded prec emax m e = true -> bpow (-1021) <= F2R (Zpos m) e ->
  Zpos (digits2_pos m) = 53%Z.
Proof.
  intros Hb Hv. unfold SpecFloat.bounded, canonical_mantissa in Hb.
  apply andb_prop in Hb. destruct Hb as [Hc _]. apply Z.eqb_eq in Hc.
  pose proof (F2R_digits m e) as [_ Hhi].
  assert (-1021 < Zpos (digits2_pos m) + e)%Z by (apply bpow_lt_inv; lra).
  rewrite fexp_normal in Hc by lia. lia.
Qed.

(** ** Round-off in real numbers *)

(** From half a unit in the last place, counted in integers, to a relative
    error of [2^-53]. *)
Lemma half_ulp_R (m' pz : positive) (e' ez D : Z) :
  (ez <= e')%Z -> (53 <= D)%Z ->
  (2 * Z.abs (Zpos m' * 2 ^ (e' - ez) - Zpos pz) <= 2 ^ (D - 53))%Z ->
  (2 ^ (D - 1) <= Zpos pz)%Z ->
  Rabs (F2R (Zpos m') e' - F2R (Zpos pz) ez) <= F2R (Zpos pz) ez * bpow (-53).
Proof.
  intros Hez HD Herr Hpz.
  rewrite <- (F2R_shift (Zpos m') e' ez) by lia.
  unfold F2R. rewrite <- Rmult_minus_distr_r, Rabs_mult, <- minus_IZR, <- abs_IZR.
  rewrite (Rabs_pos_eq (bpow ez)) by (apply Rlt_le, bpow_pos).
  apply IZR_le in Herr, Hpz. rewrite mult_IZR in Herr.
  rewrite <- bpow_IZR in Herr, Hpz by lia.
  replace (D - 1)%Z with (D - 53 + 52)%Z in Hpz by lia.
  rewrite bpow_add, bpow_52 in Hpz. rewrite bpow_m53.
  pose proof (bpow_pos ez). pose proof (bpow_pos (D - 53)).
  set (E := IZR (Z.abs (Zpos m' * 2 ^ (e' - ez) - Zpos pz))) in *.
  assert (0 <= E) by (unfold E; apply IZR_le; lia).
  assert (E <= IZR (Zpos pz) / 9007199254740992) by lra.
  nra.
Qed.

(** Round-off of [binary_round_aux] and [binary_round] in real numbers. *)
Lemma binary_round_aux_R (sx : bool) (p : positive) (e : Z) :
  (53 <= Zpos (digits2_pos p))%Z ->
  bpow (-1021) <= F2R (Zpos p) e < bpow 1023 ->
  exists m' e',
    binary_round_aux prec emax sx (Zpos p) e loc_Exact = S754_finite sx m' e' /\
    SpecFloat.bounded prec emax m' e' = true /\
    Rabs (F2R (Zpos m') e' - F2R (Zpos p) e) <= F2R (Zpos p) e * bpow (-53) /\
    (forall q, Zpos p = (q * 2 ^ (Zpos (digits2_pos p) - 53))%Z ->
               F2R (Zpos m') e' = F2R (Zpos p) e).
Proof.
  intros Hd [Hlo Hhi].
  pose proof (F2R_digits p e) as [Dlo Dhi].
  pose proof (digits2_pos_bounds p) as [Plo _].
  set (d := Zpos (digits2_pos p)) in *.
  assert (-1021 < d + e)%Z by (apply bpow_lt_inv; lra).
  assert (d + e - 1 < 1023)%Z by (apply bpow_lt_inv; lra).
  destruct (binary_round_aux_spec sx p e) as (m' & e' & Hr & Hb & Hle & Herr & Hex);
    fold d; try lia.
  fold d in Herr, Hex.
  exists m', e'. split; [exact Hr|]. split; [exact Hb|]. split.
  - apply (half_ulp_R m' p e' e d); assumption.
  - intros q Hq. rewrite <- (F2R_shift (Zpos m') e' e) by lia. f_equal. apply (Hex q Hq).
Qed.

Lemma binary_round_R (sx : bool) (p : positive) (e : Z) :
  bpow (-1021) <= F2R (Zpos p) e < bpow 1023 ->
  exists m' e',
    binary_round prec emax sx p e = S754_finite sx m' e' /\
    SpecFloat.bounded prec emax m' e' = true /\
    Rabs (F2R (Zpos m') e' - F2R (Zpos p) e) <= F2R (Zpos p) e * bpow (-53) /\
    ((Zpos (digits2_pos p) <= 53)%Z -> F2R (Zpos m') e' = F2R (Zpos p) e) /\
    (forall m0 e0, SpecFloat.bounded prec emax m0 e0 = true ->
                   F2R (Zpos m0) e0 = F2R (Zpos p) e ->
                   F2R (Zpos m') e' = F2R (Zpos p) e).
Proof.
  intros [Hlo Hhi].
  pose proof (F2R_digits p e) as [Dlo Dhi].
  pose proof (digits2_pos_bounds p) as [Plo _].
  set (d := Zpos (digits2_pos p)) in *.
  assert (-1021 < d + e)%Z by (apply bpow_lt_inv; lra).
  assert (d + e - 1 < 1023)%Z by (apply bpow_lt_inv; lra).
  destruct (binary_round_spec sx p e) as (m' & e' & ez & pz & Hr & Hb & Hz1 & Hz2 & Hpz & Herr & Hd & Hex);
    fold d; try lia.
  fold d in Herr, Hd, Hex.
  exists m', e'. split; [exact Hr|]. split; [exact Hb|].
  assert (Exact : (d <= 53)%Z \/ (exists q, Zpos p = (q * 2 ^ (d - 53))%Z) ->
                  F2R (Zpos m') e' = F2R (Zpos p) e).
  { intros Hc. rewrite <- (F2R_shift (Zpos m') e' ez), <- (F2R_shift (Zpos p) e ez), <- Hpz by lia.
    f_equal. apply Hex, Hc. }
  split; [|split].
  - rewrite <- (F2R_shift (Zpos p) e ez), <- Hpz by lia.
    apply (half_ulp_R m' pz e' ez (d + e - ez)); try assumption.
    rewrite Hpz. replace (d + e - ez - 1)%Z with (d - 1 + (e - ez))%Z by lia.
    rewrite Z.pow_add_r by (unfold d; lia).
    assert (0 < 2 ^ (e - ez))%Z by (apply Z.pow_pos_nonneg; lia). nia.
  - intros Hd53. apply Exact. left. exact Hd53.
  - intros m0 e0 Hb0 Hv0.
    destruct (Z_le_gt_dec d 53) as [Hle | Hgt]; [apply Exact; left; exact Hle|].
    apply Exact. right.
    assert (D0 : Zpos (digits2_pos m0) = 53%Z)
      by (apply (bounded_normal m0 e0 Hb0); rewrite Hv0; exact Hlo).
    pose proof (F2R_digits m0 e0) as M0. rewrite D0, Hv0 in M0.
    assert (He0 : (53 + e0 = d + e)%Z).
    { apply (magnitude_unique (F2R (Zpos p) e)); [exact M0 | split; assumption]. }
    exists (Zpos m0).
    apply (F2R_inj _ _ e). rewrite <- Hv0.
    replace (d - 53)%Z with (e0 - e)%Z by lia.
    symmetry. apply F2R_shift. lia.
Qed.

(** ** Positive doubles *)

Lemma is_pos_gt_0 (f : float) (v : R) : is_pos f v -> 0 < v.
Proof. intros (m & e & _ & <-). apply F2R_pos. Qed.

Lemma Prim2SF_bounded (f : float) (s : bool) (m : positive) (e : Z) :
  Prim2SF f = S754_finite s m e -> SpecFloat.bounded prec emax m e = true.
Proof. intros H. pose proof (Prim2SF_valid f) as Hv. rewrite H in Hv. exact Hv. Qed.

Lemma is_pos_of_SF (sf : spec_float) (m : positive) (e : Z) :
  sf = S754_finite false m e -> SpecFloat.bounded prec emax m e = true ->
  is_pos (SF2Prim sf) (F2R (Zpos m) e).
Proof.
  intros -> Hb. exists m, e. split; [|reflexivity].
  apply Prim2SF_SF2Prim. exact Hb.
Qed.

Lemma is_pos_normal (f : float) (v : R) (m : positive) (e : Z) :
  Prim2SF f = S754_finite false m e -> F2R (Zpos m) e = v -> bpow (-500) <= v <= bpow 500 ->
  Zpos (digits2_pos m) = 53%Z /\ (-553 <= e <= 448)%Z.
Proof.
  intros Hf Hv [Hlo Hhi].
  pose proof (Prim2SF_bounded _ _ _ _ Hf) as Hb.
  assert (D : Zpos (digits2_pos m) = 53%Z).
  { apply (bounded_normal m e Hb). rewrite Hv.
    pose proof (bpow_le (-1021) (-500) ltac:(lia)). lra. }
  split; [exact D|].
  pose proof (F2R_digits m e) as [Lo Hi]. rewrite D, Hv in Lo, Hi.
  assert (-500 < 53 + e)%Z by (apply bpow_lt_inv; lra).
  assert (53 + e - 1 < 500 + 1)%Z.
  { apply bpow_lt_inv. pose proof (bpow_lt 500 (500 + 1) ltac:(lia)). lra. }
  lia.
Qed.

(** Two positive doubles with the same value are the same double. *)
Lemma is_pos_unique (f g : float) (v : R) :
  is_pos f v -> is_pos g v -> bpow (-500) <= v <= bpow 500 -> f = g.
Proof.
  intros (mf & ef & Hf & Vf) (mg & eg & Hg & Vg) W.
  destruct (is_pos_normal f v mf ef Hf Vf W) as [Df _].
  destruct (is_pos_normal g v mg eg Hg Vg W) as [Dg _].
  pose proof (F2R_digits mf ef) as Mf. rewrite Df, Vf in Mf.
  pose proof (F2R_digits mg eg) as Mg. rewrite Dg, Vg in Mg.
  assert (E : (53 + ef = 53 + eg)%Z) by (apply (magnitude_unique v); assumption).
  assert (ef = eg) by lia. subst eg.
  assert (Zpos mf = Zpos mg) by (apply (F2R_inj _ _ ef); congruence).
  apply Prim2SF_inj. rewrite Hf, Hg. congruence.
Qed.

Lemma shl_align_fst (m : positive) (e ez : Z) :
  (ez <= e)%Z -> Zpos (fst (shl_align m e ez)) = (Zpos m * 2 ^ (e - ez))%Z.
Proof.
  intros H. unfold shl_align. destruct (ez - e)%Z as [|k|k] eqn:Ek; cbn [fst].
  - replace (e - ez)%Z with 0%Z by lia. lia.
  - lia.
  - rewrite iter_xO_mul. f_equal. f_equal. lia.
Qed.

(** ** Multiplication *)

(** ** Multiplication *)
Lemma mul_pos (x y : float) (vx vy : R) :
  is_pos x vx -> is_pos y vy ->
  bpow (-500) <= vx <= bpow 500 -> bpow (-500) <= vy <= bpow 500 ->
  exists vz, is_pos (x * y) vz /\ Rabs (vz - vx * vy) <= vx * vy * bpow (-53).
Proof.
  intros (mx & ex & Hx & Vx) (my & ey & Hy & Vy) Wx Wy.
  pose proof (Prim2SF_bounded _ _ _ _ Hx) as Bx.
  pose proof (Prim2SF_bounded _ _ _ _ Hy) as By.
  pose proof bpow_500_1023. pose proof bpow_m500_m1021.
  pose proof (bpow_pos (-500)).
  assert (Dx : Zpos (digits2_pos mx) = 53%Z).
  { apply (bounded_normal mx ex Bx). rewrite Vx.
    pose proof (bpow_le (-1021) (-500) ltac:(lia)). lra. }
  assert (Dy : Zpos (digits2_pos my) = 53%Z).
  { apply (bounded_normal my ey By). rewrite Vy.
    pose proof (bpow_le (-1021) (-500) ltac:(lia)). lra. }
  assert (Vxy : F2R (Zpos (mx * my)) (ex + ey) = vx * vy).
  { rewrite <- Vx, <- Vy. unfold F2R. rewrite Pos2Z.inj_mul, mult_IZR, bpow_add. ring. }
  destruct (binary_round_aux_R false (mx * my) (ex + ey)) as (m' & e' & Hr & Hb & Herr & _).
  - pose proof (digits2_pos_bounds mx) as [Lx _].
    pose proof (digits2_pos_bounds my) as [Ly _].
    pose proof (digits2_pos_bounds (mx * my)) as [_ Hxy].
    rewrite Dx in Lx. rewrite Dy in Ly.
    assert (104 < Zpos (digits2_pos (mx * my)))%Z; [|lia].
    apply pow2_lt_inv; [lia|].
    change (2 ^ 104)%Z with (2 ^ 52 * 2 ^ 52)%Z.
    change (2 ^ (53 - 1))%Z with (2 ^ 52)%Z in Lx, Ly.
    rewrite Pos2Z.inj_mul in Hxy. nia.
  - rewrite Vxy. split; nra.
  - exists (F2R (Zpos m') e'). split.
    + exists m', e'. split; [|reflexivity].
      rewrite mul_spec. unfold SF64mul, SFmul. rewrite Hx, Hy. exact Hr.
    + rewrite <- Vxy. exact Herr.
Qed.

(** ** Addition *)

(** ** Addition *)
Lemma add_pos (x y : float) (vx vy : R) :
  is_pos x vx -> is_pos y vy ->
  bpow (-500) <= vx <= bpow 500 -> bpow (-500) <= vy <= bpow 500 ->
  exists vz, is_pos (x + y) vz /\
             Rabs (vz - (vx + vy)) <= (vx + vy) * bpow (-53) /\
             (forall g, is_pos g (vx + vy) -> vz = vx + vy).
Proof.
  intros (mx & ex & Hx & Vx) (my & ey & Hy & Vy) Wx Wy.
  pose proof bpow_500_1023. pose proof (bpow_pos (-500)).
  pose proof (bpow_le (-1021) (-500) ltac:(lia)).
  pose proof (bpow_ge_1 500 ltac:(lia)).
  set (ez := Z.min ex ey).
  assert (Hzx : (ez <= ex)%Z) by (unfold ez; lia).
  assert (Hzy : (ez <= ey)%Z) by (unfold ez; lia).
  assert (Hzm : (ez = ex \/ ez = ey)%Z) by (unfold ez; lia).
  pose proof (shl_align_fst mx ex ez Hzx) as Ax.
  pose proof (shl_align_fst my ey ez Hzy) as Ay.
  set (ax := fst (shl_align mx ex ez)) in *.
  set (ay := fst (shl_align my ey ez)) in *.
  assert (Vz : F2R (Zpos (ax + ay)) ez = vx + vy).
  { rewrite <- Vx, <- Vy, <- (F2R_shift (Zpos mx) ex ez), <- (F2R_shift (Zpos my) ey ez) by lia.
    rewrite <- Ax, <- Ay. unfold F2R. rewrite Pos2Z.inj_add, plus_IZR. ring. }
  destruct (binary_round_R false (ax + ay) ez) as (m' & e' & Hr & Hb & Herr & _ & Hrep).
  { rewrite Vz. pose proof bpow_500_twice. split; lra. }
  exists (F2R (Zpos m') e'). split; [|split].
  - exists m', e'. split; [|reflexivity].
    rewrite add_spec. unfold SF64add, SFadd. rewrite Hx, Hy.
    cbn [cond_Zopp]. fold ez. fold ax ay. exact Hr.
  - rewrite <- Vz. exact Herr.
  - intros g (mg & eg & Hg & Vg). rewrite <- Vz. apply (Hrep mg eg).
    + apply (Prim2SF_bounded _ _ _ _ Hg).
    + rewrite Vz. exact Vg.
Qed.

(** ** Subtraction; it is exact when the operands are within a factor two *)

(** ** Subtraction; it is exact when the operands are within a factor two *)
Lemma sub_pos (x y : float) (vx vy : R) :
  is_pos x vx -> is_pos y vy ->
  bpow (-500) <= vx <= bpow 500 -> bpow (-500) <= vy <= bpow 500 ->
  vy < vx ->
  exists vz, is_pos (x - y) vz /\
             Rabs (vz - (vx - vy)) <= (vx - vy) * bpow (-53) /\
             (vx <= 2 * vy -> vz = vx - vy).
Proof.
  intros (mx & ex & Hx & Vx) (my & ey & Hy & Vy) Wx Wy Hlt.
  pose proof bpow_500_1023. pose proof (bpow_pos (-500)).
  pose proof (bpow_ge_1 500 ltac:(lia)).
  destruct (is_pos_normal x vx mx ex Hx Vx Wx) as [Dx Ex].
  destruct (is_pos_normal y vy my ey Hy Vy Wy) as [Dy Ey].
  set (ez := Z.min ex ey).
  assert (Hzx : (ez <= ex)%Z) by (unfold ez; lia).
  assert (Hzy : (ez <= ey)%Z) by (unfold ez; lia).
  assert (Hzm : (ez = ex \/ ez = ey)%Z) by (unfold ez; lia).
  pose proof (shl_align_fst mx ex ez Hzx) as Ax.
  pose proof (shl_align_fst my ey ez Hzy) as Ay.
  set (ax := fst (shl_align mx ex ez)) in *.
  set (ay := fst (shl_align my ey ez)) in *.
  assert (Vax : F2R (Zpos ax) ez = vx)
    by (rewrite Ax, F2R_shift by lia; exact Vx).
  assert (Vay : F2R (Zpos ay) ez = vy)
    by (rewrite Ay, F2R_shift by lia; exact Vy).
  assert (Hn : (Zpos ay < Zpos ax)%Z).
  { apply lt_IZR. unfold F2R in Vax, Vay. pose proof (bpow_pos ez). nra. }
  destruct (Zpos ax - Zpos ay)%Z as [|n|n] eqn:En; try lia.
  assert (Vz : F2R (Zpos n) ez = vx - vy).
  { rewrite <- En, <- Vax, <- Vay. unfold F2R. rewrite minus_IZR. ring. }
  pose proof (F2R_pos n ez) as Pn. 
  destruct (binary_round_R false n ez) as (m' & e' & Hr & Hb & Herr & Hex & _).
  { rewrite Vz. split; [|pose proof bpow_500_twice; lra].
    apply Rle_trans with (bpow ez); [apply bpow_le; lia|].
    rewrite <- Vz. unfold F2R.
    assert (1 <= IZR (Zpos n)) by (apply IZR_le; lia).
    pose proof (bpow_pos ez). nra. }
  exists (F2R (Zpos m') e'). split; [|split].
  - exists m', e'. split; [|reflexivity].
    rewrite sub_spec. unfold SF64sub, SFsub. rewrite Hx, Hy.
    cbn [cond_Zopp]. fold ez. fold ax ay. rewrite En. exact Hr.
  - rewrite <- Vz. exact Herr.
  - intros Hclose. rewrite <- Vz. apply Hex.
    (* the difference fits in 53 bits *)
    assert (Hsmall : (Zpos n < 2 ^ 53)%Z).
    { pose proof (digits2_pos_bounds mx) as [_ Ux]. rewrite Dx in Ux.
      pose proof (digits2_pos_bounds my) as [_ Uy]. rewrite Dy in Uy.
      destruct (Z.le_ge_cases ex ey) as [Hc | Hc].
      - (* aligned on x: n < mx *)
        assert (Ez : ez = ex) by (unfold ez; lia).
        assert (Zpos ax = Zpos mx) by (rewrite Ax; replace (ex - ez)%Z with 0%Z by lia; lia).
        lia.
      - (* aligned on y: n <= my *)
        assert (Ez : ez = ey) by (unfold ez; lia).
        assert (Eay : Zpos ay = Zpos my) by (rewrite Ay; replace (ey - ez)%Z with 0%Z by lia; lia).
        assert (Zpos n <= Zpos my)%Z; [|lia].
        apply le_IZR. unfold F2R in Vz, Vay. pose proof (bpow_pos ez).
        rewrite <- Eay. nra. }
    pose proof (digits2_pos_bounds n) as [Ln _].
    assert (Zpos (digits2_pos n) - 1 < 53)%Z by (apply pow2_lt_inv; lia).
    lia.
Qed.

(** ** Conversion from [int]: exact below [2^53] *)

(** ** Conversion from [int]: exact below [2^53] *)
Lemma float_of_int_pos (z : Z) :
  (0 < z < 2 ^ 53)%Z ->
  exists f, Py.float_of_int z = Ok f /\ is_pos f (IZR z).
Proof.
  intros [Hz0 Hz1]. destruct z as [|p|p]; try lia.
  unfold Py.float_of_int. cbn [binary_normalize].
  assert (Vp : F2R (Zpos p) 0 = IZR (Zpos p)) by (unfold F2R, bpow; cbn [powerRZ]; ring).
  pose proof (digits2_pos_bounds p) as [Ln _].
  assert (Hd : (Zpos (digits2_pos p) <= 53)%Z).
  { assert (Zpos (digits2_pos p) - 1 < 53)%Z by (apply pow2_lt_inv; lia). lia. }
  destruct (binary_round_R false p 0) as (m' & e' & Hr & Hb & _ & Hex & _).
  { rewrite Vp. split.
    - apply Rle_trans with (bpow 0); [apply bpow_le; lia|].
      change (bpow 0) with 1. apply IZR_le. lia.
    - apply Rlt_trans with (bpow 53); [|apply bpow_lt; lia].
      rewrite bpow_IZR by lia. apply IZR_lt. exact Hz1. }
  rewrite Hr. eexists. split; [reflexivity|].
  rewrite <- Vp, <- (Hex Hd). apply is_pos_of_SF; [reflexivity | exact Hb].
Qed.

(** ** Comparison *)

(** ** Comparison *)
Lemma ltb_pos (x y : float) (vx vy : R) :
  is_pos x vx -> is_pos y vy ->
  bpow (-500) <= vx <= bpow 500 -> bpow (-500) <= vy <= bpow 500 ->
  vx < vy -> (x <? y)%float = true.
Proof.
  intros (mx & ex & Hx & Vx) (my & ey & Hy & Vy) Wx Wy Hlt.
  destruct (is_pos_normal x vx mx ex Hx Vx Wx) as [Dx _].
  destruct (is_pos_normal y vy my ey Hy Vy Wy) as [Dy _].
  pose proof (F2R_digits mx ex) as Mx. rewrite Dx, Vx in Mx.
  pose proof (F2R_digits my ey) as My. rewrite Dy, Vy in My.
  rewrite ltb_spec. unfold SFltb, SFcompare. rewrite Hx, Hy.
  destruct (Z.compare_spec ex ey) as [E | L | G].
  - subst ey. rewrite Pos.compare_cont_spec. cbn [Pos.switch_Eq].
    replace (mx ?= my)%positive with Lt; [reflexivity|].
    symmetry. rewrite Pos2Z.inj_compare. apply Z.compare_lt_iff, lt_IZR.
    rewrite <- Vx, <- Vy in Hlt. unfold F2R in Hlt. pose proof (bpow_pos ex). nra.
  - reflexivity.
  - exfalso.
    assert (bpow (53 + ey) <= bpow (53 + ex - 1)) by (apply bpow_le; lia).
    lra.
Qed.

(** ** [round(x, 0)] *)

(** ** [round(x, 0)] *)
Lemma round_half_even_spec (n e : Z) :
  (0 <= n)%Z ->
  (0 <= Py.round_half_even n e)%Z /\
  Rabs (IZR (Py.round_half_even n e) - F2R n e) <= / 2.
Proof.
  intros Hn. unfold Py.round_half_even.
  destruct e as [|p|p].
  - rewrite Z.pow_0_r, Z.mul_1_r. split; [exact Hn|].
    unfold F2R. change (bpow 0) with 1. rewrite Rmult_1_r, Rminus_diag, Rabs_R0. lra.
  - assert (0 < 2 ^ Zpos p)%Z by (apply Z.pow_pos_nonneg; lia).
    split; [nia|].
    unfold F2R. rewrite bpow_IZR, <- mult_IZR, Rminus_diag, Rabs_R0 by lia. lra.
  - change (Z.pow_pos 2 p) with (2 ^ Zpos p)%Z.
    set (d := (2 ^ Zpos p)%Z).
    assert (Hd : (0 < d)%Z) by (apply Z.pow_pos_nonneg; lia).
    pose proof (Z.div_mod n d ltac:(lia)) as Hdm.
    pose proof (Z.mod_pos_bound n d Hd) as Hr.
    assert (Hq : (0 <= n / d)%Z) by (apply Z.div_pos; lia).
    set (q := (n / d)%Z) in *. set (r := (n mod d)%Z) in *.
    assert (Hv : F2R n (Zneg p) = IZR q + IZR r / IZR d).
    { unfold F2R. change (Zneg p) with (- Zpos p)%Z. rewrite bpow_opp, bpow_IZR by lia.
      fold d. rewrite Hdm, plus_IZR, mult_IZR. field.
      apply not_0_IZR. lia. }
    assert (HdR : 0 < IZR d) by (apply IZR_lt; lia).
    assert (HrR : 0 <= IZR r < IZR d) by (split; [apply IZR_le | apply IZR_lt]; lia).
    assert (Hfrac : 0 <= IZR r / IZR d < 1).
    { split; [apply Rmult_le_pos; [lra | apply Rlt_le, Rinv_0_lt_compat; lra]|].
      apply (Rmult_lt_reg_r (IZR d)); [lra|]. unfold Rdiv.
      rewrite Rmult_assoc, Rinv_l by lra. lra. }
    rewrite Hv.
    assert (Hhalf : forall c, (2 * r ?= d)%Z = c ->
              match c with
              | Lt => IZR r / IZR d < / 2
              | Eq => IZR r / IZR d = / 2
              | Gt => / 2 < IZR r / IZR d
              end).
    { intros c Hc. destruct c.
      - apply Z.compare_eq in Hc. apply (f_equal IZR) in Hc. rewrite mult_IZR in Hc.
        apply (Rmult_eq_reg_r (IZR d)); [|lra]. unfold Rdiv.
        rewrite Rmult_assoc, Rinv_l by lra. lra.
      - apply Z.compare_lt_iff in Hc. apply IZR_lt in Hc. rewrite mult_IZR in Hc.
        apply (Rmult_lt_reg_r (IZR d)); [lra|]. unfold Rdiv.
        rewrite Rmult_assoc, Rinv_l by lra. lra.
      - apply Z.compare_gt_iff in Hc. apply IZR_lt in Hc. rewrite mult_IZR in Hc.
        apply (Rmult_lt_reg_r (IZR d)); [lra|]. unfold Rdiv.
        rewrite Rmult_assoc, Rinv_l by lra. lra. }
    specialize (Hhalf _ eq_refl).
    destruct (2 * r ?= d)%Z.
    + destruct (Z.even q); split; try lia; rewrite ?plus_IZR; apply Rabs_le; lra.
    + split; [lia|]. apply Rabs_le; lra.
    + split; [lia|]. rewrite plus_IZR. apply Rabs_le; lra.
Qed.

Lemma div_eucl_1 (a : Z) : Z.div_eucl a 1 = (a, 0%Z).
Proof.
  pose proof (Z.div_1_r a) as Hq. pose proof (Z.mod_1_r a) as Hr.
  unfold Z.div, Z.modulo in Hq, Hr. destruct (Z.div_eucl a 1) as [q r].
  cbn in Hq, Hr. congruence.
Qed.

(** Dividing an integer below [2^53] by one gives that integer. *)
Lemma SFdiv_by_one (k : positive) :
  (Zpos k < 2 ^ 53)%Z ->
  exists m' e',
    SFdiv prec emax (S754_finite false k 0) (S754_finite false 1 0) = S754_finite false m' e' /\
    SpecFloat.bounded prec emax m' e' = true /\
    F2R (Zpos m') e' = IZR (Zpos k).
Proof.
  intros Hk.
  pose proof (digits2_pos_bounds k) as [Lk Uk].
  set (d := Zpos (digits2_pos k)) in *.
  assert (Hd : (1 <= d <= 53)%Z).
  { assert (d - 1 < 53)%Z by (apply pow2_lt_inv; lia). unfold d in *. lia. }
  unfold SFdiv, SFdiv_core_binary. cbn [Zdigits2 digits2_pos xorb]. fold d.
  replace (d + 0 - (1 + 0))%Z with (d - 1)%Z by lia.
  rewrite fexp_normal by lia.
  change (IntDef.Z.min (d - 1 - 53) (0 - 0)) with (Z.min (d - 1 - 53) (0 - 0)).
  replace (Z.min (d - 1 - 53) (0 - 0)) with (d - 54)%Z by lia.
  replace (0 - 0 - (d - 54))%Z with (54 - d)%Z by lia.
  destruct (54 - d)%Z as [|s|s] eqn:Es; try lia.
  change (IntDef.Z.shiftl (Zpos k) (Zpos s)) with (Z.shiftl (Zpos k) (Zpos s)).
  rewrite Z.shiftl_mul_pow2 by lia.
  change (IntDef.Z.div_eucl ?a 1) with (Z.div_eucl a 1).
  rewrite div_eucl_1.
  change (new_location 1 0) with loc_Exact.
  assert (Hp : (0 < 2 ^ (Zpos s - 1))%Z) by (apply Z.pow_pos_nonneg; lia).
  assert (Hs : (2 ^ Zpos s = 2 ^ (Zpos s - 1) * 2)%Z).
  { rewrite <- (Z.pow_1_r 2) at 3. rewrite <- Z.pow_add_r by lia. f_equal. lia. }
  destruct (Zpos k * 2 ^ Zpos s)%Z as [|p|p] eqn:Ep; try lia.
  assert (Dp : Zpos (digits2_pos p) = 54%Z).
  { replace 54%Z with (d + Zpos s)%Z by lia.
    apply (digits2_pos_shift k p (Zpos s)); [lia | symmetry; exact Ep]. }
  assert (Vp : F2R (Zpos p) (d - 54) = IZR (Zpos k)).
  { rewrite <- Ep. replace (Zpos s) with (0 - (d - 54))%Z by lia.
    rewrite F2R_shift by lia. unfold F2R. change (bpow 0) with 1. ring. }
  destruct (binary_round_aux_R false p (d - 54)) as (m' & e' & Hr & Hb & _ & Hex).
  - lia.
  - rewrite Vp. split.
    + apply Rle_trans with (bpow 0); [apply bpow_le; lia|].
      change (bpow 0) with 1. apply IZR_le. lia.
    + apply Rlt_trans with (bpow 53); [|apply bpow_lt; lia].
      rewrite bpow_IZR by lia. apply IZR_lt. exact Hk.
  - exists m', e'. split; [exact Hr|]. split; [exact Hb|].
    rewrite <- Vp. apply (Hex (Zpos k * 2 ^ (Zpos s - 1))%Z).
    rewrite Dp. change (2 ^ (54 - 53))%Z with 2%Z. rewrite <- Ep, Hs. ring.
Qed.

Lemma round0_pos (x : float) (v : R) :
  is_pos x v -> / 2 < v -> v <= bpow 52 ->
  exists k, (0 < k)%Z /\ is_pos (Py.round x 0) (IZR k) /\ Rabs (IZR k - v) <= / 2.
Proof.
  intros (m & e & Hx & Vx) Hlo Hhi.
  destruct (round_half_even_spec (Zpos m) e ltac:(lia)) as [K0 Kerr].
  rewrite Vx in Kerr.
  unfold Py.round. rewrite Hx.
  change (10 ^ 0)%Z with 1%Z. rewrite Z.mul_1_r.
  set (k := Py.round_half_even (Zpos m) e) in *.
  apply Rabs_le_inv in Kerr.
  assert (Kpos : (0 < k)%Z).
  { apply lt_IZR. lra. }
  assert (Ksmall : (k < 2 ^ 53)%Z).
  { apply lt_IZR. change (2 ^ 53)%Z with 9007199254740992%Z.
    rewrite bpow_52 in Hhi. lra. }
  exists k. split; [exact Kpos|]. split; [|apply Rabs_le; lra].
  destruct k as [|kp|kp]; try lia.
  destruct (SFdiv_by_one kp Ksmall) as (m' & e' & Hd & Hb & Hv).
  rewrite <- Hv. unfold Py.decimal. change (Z.to_pos (10 ^ 0)) with 1%positive.
  apply is_pos_of_SF; assumption.
Qed.

Local Open Scope Z_scope.

(** ** Literals, bounds and integer values *)

Lemma window_intro (v : R) :
  (/ 1024 <= v <= 1152921504606846976)%R -> (bpow (-500) <= v <= bpow 500)%R.
Proof.
  intros [Hlo Hhi].
  assert (E1 : bpow (-10) = (/ 1024)%R).
  { change (-10) with (- (10)). rewrite bpow_opp, bpow_IZR by lia. reflexivity. }
  assert (E2 : bpow 60 = 1152921504606846976%R) by (rewrite bpow_IZR by lia; reflexivity).
  pose proof (bpow_le (-500) (-10) ltac:(lia)).
  pose proof (bpow_le 60 500 ltac:(lia)).
  lra.
Qed.

Lemma is_pos_literal (f : float) (m p : positive) :
  Prim2SF f = S754_finite false m (Zneg p) ->
  is_pos f (IZR (Zpos m) / IZR (Z.pow_pos 2 p))%R.
Proof.
  intros H. exists m, (Zneg p). split; [exact H|].
  unfold F2R. change (Zneg p) with (- Zpos p). rewrite bpow_opp, bpow_IZR by lia.
  reflexivity.
Qed.

Lemma pos_between_spec (lo hi : Z) (f : float) :
  pos_between lo hi f = true ->
  exists v, is_pos f v /\ (IZR lo <= v <= IZR hi)%R.
Proof.
  unfold pos_between. destruct (Prim2SF f) as [| | |s m e] eqn:Hf; try discriminate.
  destruct s; [discriminate|]. intros H.
  exists (F2R (Zpos m) e). split; [exists m, e; split; [exact Hf | reflexivity]|].
  destruct e as [|p|p]; apply andb_prop in H; destruct H as [H1 H2];
    apply Z.leb_le in H1, H2.
  - rewrite Z.pow_0_r, Z.mul_1_r in H1, H2. unfold F2R. change (bpow 0) with 1%R.
    rewrite Rmult_1_r. split; apply IZR_le; assumption.
  - unfold F2R. rewrite bpow_IZR, <- mult_IZR by lia. split; apply IZR_le; assumption.
  - change (Z.pow_pos 2 p) with (2 ^ Zpos p) in H1, H2.
    assert (Hp : 0 < 2 ^ Zpos p) by (apply Z.pow_pos_nonneg; lia).
    unfold F2R. change (Zneg p) with (- Zpos p). rewrite bpow_opp, bpow_IZR by lia.
    apply IZR_le in H1, H2. rewrite mult_IZR in H1, H2. apply IZR_lt in Hp.
    set (d := IZR (2 ^ Zpos p)) in *.
    assert (Hd : (/ d * d = 1)%R) by (apply Rinv_l; lra).
    assert (Hi : (0 < / d)%R) by (apply Rinv_0_lt_compat; lra).
    clearbody d.
    split; apply (Rmult_le_reg_r d); try exact Hp; rewrite ?Rmult_assoc, ?Hd; lra.
Qed.

Lemma int_of_float_pos (f : float) (z : Z) : is_pos f (IZR z) -> int_of_float f = z.
Proof.
  intros (m & e & Hf & Hv). unfold int_of_float. rewrite Hf.
  destruct e as [|p|p].
  - rewrite Z.pow_0_r, Z.mul_1_r. apply eq_IZR. rewrite <- Hv.
    unfold F2R. change (bpow 0) with 1%R. ring.
  - apply eq_IZR. rewrite <- Hv. unfold F2R. rewrite bpow_IZR, <- mult_IZR by lia. reflexivity.
  - change (Z.pow_pos 2 p) with (2 ^ Zpos p).
    assert (Hp : 0 < 2 ^ Zpos p) by (apply Z.pow_pos_nonneg; lia).
    assert (E : Zpos m = z * 2 ^ Zpos p).
    { apply eq_IZR. rewrite mult_IZR, <- Hv. unfold F2R.
      change (Zneg p) with (- Zpos p). rewrite bpow_opp, bpow_IZR by lia.
      field. apply not_0_IZR. lia. }
    rewrite E. apply Z.div_mul. lia.
Qed.

(** ** Division *)

(** Round-off of [binary_round_aux] on a mantissa followed by a fraction. *)
Lemma binary_round_aux_loc_R (sx : bool) (p : positive) (e c r : Z) :
  0 < c -> 0 <= r < c ->
  53 <= Zpos (digits2_pos p) -> -1021 <= Zpos (digits2_pos p) + e <= 1023 ->
  exists m' e',
    binary_round_aux prec emax sx (Zpos p) e (new_location c r) = S754_finite sx m' e' /\
    SpecFloat.bounded prec emax m' e' = true /\
    (Rabs (F2R (Zpos m') e' - (IZR (Zpos p) + IZR r / IZR c) * bpow e)
     <= (IZR (Zpos p) + IZR r / IZR c) * bpow e * bpow (-53))%R.
Proof.
  intros Hc Hr Hd He.
  destruct (binary_round_aux_loc_spec sx p e c r Hc Hr Hd He)
    as (m' & e' & Hbra & Hb & Hle & Herr & _).
  pose proof (digits2_pos_bounds p) as [Plo _].
  set (d := Zpos (digits2_pos p)) in *.
  exists m', e'. split; [exact Hbra|]. split; [exact Hb|].
  rewrite <- (F2R_shift (Zpos m') e' e) by lia. unfold F2R.
  rewrite <- Rmult_minus_distr_r, Rabs_mult.
  rewrite (Rabs_pos_eq (bpow e)) by (apply Rlt_le, bpow_pos).
  assert (HcR : (0 < IZR c)%R) by (apply IZR_lt; lia).
  assert (HrR : (0 <= IZR r)%R) by (apply IZR_le; lia).
  assert (Hfrac : (0 <= IZR r / IZR c)%R).
  { apply Rmult_le_pos; [lra | apply Rlt_le, Rinv_0_lt_compat; lra]. }
  set (M := (Zpos m' * 2 ^ (e' - e))%Z) in *.
  (* the integer bound, divided by c *)
  apply IZR_le in Herr. rewrite mult_IZR, abs_IZR, minus_IZR, !mult_IZR, plus_IZR, mult_IZR in Herr.
  rewrite <- bpow_IZR in Herr by lia.
  assert (Hx : (IZR M * IZR c - (IZR (Zpos p) * IZR c + IZR r)
                = (IZR M - (IZR (Zpos p) + IZR r / IZR c)) * IZR c)%R)
    by (field; lra).
  rewrite Hx, Rabs_mult, (Rabs_pos_eq (IZR c)) in Herr by lra.
  assert (Herr' : (2 * Rabs (IZR M - (IZR (Zpos p) + IZR r / IZR c)) <= bpow (d - 53))%R).
  { apply (Rmult_le_reg_r (IZR c)); [exact HcR|]. lra. }
  apply IZR_le in Plo. rewrite <- bpow_IZR in Plo by lia.
  replace (d - 1) with (d - 53 + 52) in Plo by lia.
  rewrite bpow_add, bpow_52 in Plo. rewrite bpow_m53.
  pose proof (bpow_pos e). pose proof (bpow_pos (d - 53)).
  set (E := Rabs (IZR M - (IZR (Zpos p) + IZR r / IZR c))) in *.
  assert (0 <= E)%R by (unfold E; apply Rabs_pos).
  assert (E <= (IZR (Zpos p) + IZR r / IZR c) / 9007199254740992)%R by lra.
  nra.
Qed.

(** The quotient of two normal doubles is the nearest double to the real
    quotient. *)
Lemma div_pos (x y : float) (vx vy : R) :
  is_pos x vx -> is_pos y vy ->
  (bpow (-500) <= vx <= bpow 500)%R -> (bpow (-500) <= vy <= bpow 500)%R ->
  exists vz, is_pos (x / y) vz /\ (Rabs (vz - vx / vy) <= vx / vy * bpow (-53))%R.
Proof.
  intros (mx & ex & Hx & Vx) (my & ey & Hy & Vy) Wx Wy.
  destruct (is_pos_normal x vx mx ex Hx Vx Wx) as [Dx Ex].
  destruct (is_pos_normal y vy my ey Hy Vy Wy) as [Dy Ey].
  pose proof (digits2_pos_bounds mx) as [Lx Ux]. rewrite Dx in Lx, Ux.
  pose proof (digits2_pos_bounds my) as [Ly Uy]. rewrite Dy in Ly, Uy.
  change (2 ^ (53 - 1)) with 4503599627370496 in Lx, Ly.
  change (2 ^ 53) with 9007199254740992 in Ux, Uy.
  set (N := Zpos mx * 2 ^ 53).
  assert (Hcore : SFdiv_core_binary prec emax (Zpos mx) ex (Zpos my) ey
                  = (N / Zpos my, ex - ey - 53, new_location (Zpos my) (N mod Zpos my))).
  { unfold SFdiv_core_binary. cbn [Zdigits2]. rewrite Dx, Dy.
    replace (53 + ex - (53 + ey)) with (ex - ey) by lia.
    rewrite fexp_normal by lia.
    change (IntDef.Z.min (ex - ey - 53) (ex - ey)) with (Z.min (ex - ey - 53) (ex - ey)).
    replace (Z.min (ex - ey - 53) (ex - ey)) with (ex - ey - 53) by lia.
    replace (ex - ey - (ex - ey - 53)) with 53 by lia.
    change (IntDef.Z.shiftl (Zpos mx) 53) with (Z.shiftl (Zpos mx) 53).
    rewrite Z.shiftl_mul_pow2 by lia. fold N.
    change (IntDef.Z.div_eucl N (Zpos my)) with (Z.div_eucl N (Zpos my)).
    unfold Z.div, Z.modulo. destruct (Z.div_eucl N (Zpos my)). reflexivity. }
  pose proof (Z.div_mod N (Zpos my) ltac:(lia)) as Hdm.
  pose proof (Z.mod_pos_bound N (Zpos my) ltac:(lia)) as Hmod.
  set (q := N / Zpos my) in *. set (r := N mod Zpos my) in *.
  assert (HN : N = Zpos mx * 9007199254740992) by reflexivity.
  assert (Hq : 2 ^ 52 <= q < 2 ^ 54).
  { change (2 ^ 52) with 4503599627370496. change (2 ^ 54) with 18014398509481984.
    split; nia. }
  destruct q as [|qp|qp] eqn:Eq; try lia.
  assert (Dq : 53 <= Zpos (digits2_pos qp) <= 54).
  { pose proof (digits2_pos_bounds qp) as [Lq Uq].
    assert (52 < Zpos (digits2_pos qp)) by (apply pow2_lt_inv; lia).
    assert (Zpos (digits2_pos qp) - 1 < 54) by (apply pow2_lt_inv; lia).
    lia. }
  destruct (binary_round_aux_loc_R false qp (ex - ey - 53) (Zpos my) r)
    as (m' & e' & Hbra & Hb & Herr); try lia.
  assert (Hval : ((IZR (Zpos qp) + IZR r / IZR (Zpos my)) * bpow (ex - ey - 53) = vx / vy)%R).
  { rewrite <- Vx, <- Vy. unfold F2R.
    assert (HmyR : (0 < IZR (Zpos my))%R) by (apply IZR_lt; lia).
    assert (E1 : (IZR (Zpos qp) + IZR r / IZR (Zpos my)
                  = IZR (Zpos mx) * bpow 53 / IZR (Zpos my))%R).
    { rewrite bpow_IZR, <- mult_IZR by lia. fold N. rewrite Hdm, plus_IZR, mult_IZR.
      field. lra. }
    rewrite E1.
    replace (ex - ey - 53) with (ex + (- ey) + (- (53))) by lia.
    rewrite !bpow_add, !bpow_opp.
    pose proof (bpow_pos ey). pose proof (bpow_pos 53).
    field. split; lra. }
  rewrite Hval in Herr.
  exists (F2R (Zpos m') e'). split; [|exact Herr].
  exists m', e'. split; [|reflexivity].
  rewrite div_spec. unfold SF64div, SFdiv. rewrite Hx, Hy, Hcore. exact Hbra.
Qed.

(** ** [round(x, 2)] *)

(** [round(x, 2)] of a double of value at least one: the double nearest to a
    whole number of hundredths that is within half a hundredth of [x]. *)
Lemma round2_cents (x : float) (v : R) :
  is_pos x v -> (1 <= v)%R ->
  exists k : positive,
    Py.round x 2 = Py.decimal false k 2 /\
    (Rabs (IZR (Zpos k) - 100 * v) <= / 2)%R.
Proof.
  intros (m & e & Hx & Vx) Hv.
  destruct (round_half_even_spec (Zpos m * 100) e ltac:(lia)) as [K0 Kerr].
  assert (E : F2R (Zpos m * 100) e = (100 * v)%R).
  { rewrite <- Vx. unfold F2R. rewrite mult_IZR. ring. }
  rewrite E in Kerr.
  unfold Py.round. rewrite Hx. change (10 ^ 2) with 100.
  set (k := Py.round_half_even (Zpos m * 100) e) in *.
  assert (Kpos : 0 < k).
  { apply lt_IZR. apply Rabs_le_inv in Kerr. lra. }
  destruct k as [|kp|kp]; try lia.
  exists kp. split; [reflexivity | exact Kerr].
Qed.

End Binary64.

Import Binary64.

(** * Facts about the computation *)

Lemma unchecked_bounds (cl : list (string * bool)) :
  0 <= unchecked cl <= Z.of_nat (List.length cl).
Proof.
  induction cl as [|[k v] cl IH]; cbn [unchecked List.length].
  - lia.
  - destruct v; cbn [negb]; lia.
Qed.

Lemma valid_unchecked (scn : Scenario) :
  valid_scenario scn -> 0 <= unchecked (checklist scn) <= 7.
Proof.
  intros (_ & _ & _ & _ & _ & _ & Hc).
  pose proof (unchecked_bounds (checklist scn)) as Hb.
  apply (f_equal (@List.length string)) in Hc. rewrite List.length_map in Hc.
  cbn in Hc. lia.
Qed.

(** The unit price [unit_cost_base + adders] of every valid scenario is a
    positive double between 379 and 841 (all 864 cases are evaluated). *)
Lemma price_valid (scn : Scenario) : valid_scenario scn -> price_ok scn = true.
Proof.
  destruct scn as [pj pt area ss env q reg o cl sent].
  unfold valid_scenario, PROJECT_TYPES, STRUCTURAL_SYSTEMS, ENVELOPES, QUALITIES, REGIONS.
  cbn [project_type structural_system envelope quality region In].
  intros (Hpt & Hss & Henv & Hq & Hreg & _ & _).
  destruct o as [[] [] []];
  destruct Hpt as [<- | [<- | [<- | []]]];
  destruct Hss as [<- | [<- | []]];
  destruct Henv as [<- | [<- | []]];
  destruct Hq as [<- | [<- | [<- | []]]];
  destruct Hreg as [<- | [<- | [<- | []]]];
  vm_compute; reflexivity.
Qed.

(** With at most seven unchecked items the factor [1 + contingency_pct] is a
    double between 1 and 2. *)
Lemma factor_valid (u : Z) : 0 <= u <= 7 -> factor_ok u = true.
Proof.
  intros Hu.
  assert (Hcases : u = 0 \/ u = 1 \/ u = 2 \/ u = 3 \/ u = 4 \/ u = 5 \/ u = 6 \/ u = 7) by lia.
  repeat (destruct Hcases as [-> | Hcases]; [vm_compute; reflexivity|]).
  subst u. vm_compute. reflexivity.
Qed.

Lemma quantities_ok (scn : Scenario) (A : float) :
  Py.float_of_int (area_m2 scn) = Ok A ->
  quantities scn = Ok (quantities_at scn A).
Proof.
  intros HA. unfold quantities, quantities_at, Py.int_mul. rewrite HA. cbn [bind].
  destruct (String.eqb (structural_system scn) "Steel"); reflexivity.
Qed.

Lemma unit_cost_total_ok (t A : float) (area : Z) :
  Py.float_of_int area = Ok A ->
  unit_cost_total t area = Ok (if area =? 0 then PyInt 0 else PyFloat (t / A)%float).
Proof.
  intros HA. unfold unit_cost_total, Py.div_int. rewrite HA. cbn [bind].
  destruct (area =? 0); reflexivity.
Qed.

(** The run of a scenario whose lookups and conversions succeed. *)
Lemma run_ok (scn : Scenario) (ucb u c k A : float) :
  unit_cost_base scn = Ok ucb ->
  Py.add_int ucb (adders (opts scn)) = Ok u ->
  contingency (unchecked (checklist scn)) = Ok c ->
  Py.int_add 1 c = Ok k ->
  Py.float_of_int (area_m2 scn) = Ok A ->
  run scn = Ok (locals_at scn ucb u c k A).
Proof.
  intros Hucb Hu Hc Hk HA. unfold run, locals_at.
  rewrite Hucb. cbn [bind]. rewrite Hc. cbn [bind]. rewrite Hu. cbn [bind].
  unfold Py.int_mul at 1. rewrite HA. cbn [bind]. rewrite Hk. cbn [bind].
  rewrite (quantities_ok scn A HA). cbn [bind].
  destruct (quantities_at scn A) as [[[steel conc] co2] weeks].
  rewrite (unit_cost_total_ok _ A _ HA). cbn [bind]. reflexivity.
Qed.

Lemma returned_ok (l : Locals) :
  returned l =
  Ok {| unit_cost := Py.round_num (l_unit_cost_total l) 2;
        total_cost := Py.round (l_total l) 0;
        contingency_pct := Py.round (l_contingency_pct l * 100)%float 1;
        steel_t := l_steel_t l;
        concrete_m3 := l_conc_m3 l;
        co2_tons := l_co2 l;
        lead_time_wks := l_lead_weeks l;
        cost_buckets := round_buckets (l_shares l);
        subtotal_no_cont := Py.round (l_subtotal l) 0;
        adders_per_m2 := l_adders l |}.
Proof. reflexivity. Qed.

Lemma locals_at_total (scn : Scenario) (ucb u c k A : float) :
  l_total (locals_at scn ucb u c k A) = (A * u * k)%float /\
  l_shares (locals_at scn ucb u c k A) = shares (A * u * k)%float /\
  l_subtotal (locals_at scn ucb u c k A) = (A * u)%float.
Proof.
  unfold locals_at. destruct (quantities_at scn A) as [[[? ?] ?] ?].
  repeat split.
Qed.

(** The area of a valid scenario converts exactly. *)
Lemma area_valid (scn : Scenario) :
  valid_scenario scn ->
  exists A, Py.float_of_int (area_m2 scn) = Ok A /\ is_pos A (IZR (area_m2 scn)).
Proof.
  intros (_ & _ & _ & _ & _ & Ha & _).
  apply float_of_int_pos. change (2 ^ 53) with 9007199254740992. lia.
Qed.

(** Every valid scenario runs to its [return]. *)
Lemma run_valid (scn : Scenario) :
  valid_scenario scn ->
  exists ucb u c k A,
    unit_cost_base scn = Ok ucb /\
    Py.add_int ucb (adders (opts scn)) = Ok u /\
    contingency (unchecked (checklist scn)) = Ok c /\
    Py.int_add 1 c = Ok k /\
    Py.float_of_int (area_m2 scn) = Ok A /\
    pos_between 379 841 u = true /\
    pos_between 1 2 k = true /\
    is_pos A (IZR (area_m2 scn)) /\
    run scn = Ok (locals_at scn ucb u c k A).
Proof.
  intros Hv.
  pose proof (price_valid scn Hv) as Hp. unfold price_ok in Hp.
  destruct (unit_cost_base scn) as [ucb|] eqn:Hucb; [|discriminate].
  destruct (Py.add_int ucb (adders (opts scn))) as [u|] eqn:Hu; [|discriminate].
  pose proof (factor_valid _ (valid_unchecked scn Hv)) as Hf. unfold factor_ok in Hf.
  destruct (contingency (unchecked (checklist scn))) as [c|] eqn:Hc; [|discriminate].
  destruct (Py.int_add 1 c) as [k|] eqn:Hk; [|discriminate].
  destruct (area_valid scn Hv) as (A & HA & PA).
  exists ucb, u, c, k, A. repeat split; try assumption; try reflexivity.
  apply run_ok; assumption.
Qed.

(** Every valid scenario gets an estimate. *)
Lemma valid_returns (scn : Scenario) :
  valid_scenario scn -> exists est, compute_simulation scn = Ok est.
Proof.
  intros Hv.
  destruct (run_valid scn Hv) as (ucb & u & c & k & A & _ & _ & _ & _ & _ & _ & _ & _ & Hrun).
  unfold compute_simulation. rewrite Hrun. cbn [bind]. rewrite returned_ok.
  eexists. reflexivity.
Qed.

Lemma valid_warehouse_steel : valid_scenario scn_warehouse_steel.
Proof.
  unfold valid_scenario, scn_warehouse_steel; cbn.
  repeat split; auto; lia.
Defined.

(** The estimate reads eight fields of the scenario and nothing else. *)
Lemma compute_simulation_inputs (s1 s2 : Scenario) :
  project_type s1 = project_type s2 ->
  area_m2 s1 = area_m2 s2 ->
  structural_system s1 = structural_system s2 ->
  envelope s1 = envelope s2 ->
  quality s1 = quality s2 ->
  region s1 = region s2 ->
  opts s1 = opts s2 ->
  unchecked (checklist s1) = unchecked (checklist s2) ->
  compute_simulation s1 = compute_simulation s2.
Proof.
  destruct s1 as [pj1 pt1 a1 ss1 env1 q1 reg1 o1 cl1 sent1].
  destruct s2 as [pj2 pt2 a2 ss2 env2 q2 reg2 o2 cl2 sent2].
  cbn [project_type area_m2 structural_system envelope quality region opts checklist].
  intros -> -> -> -> -> -> -> Hu.
  unfold compute_simulation, run, unit_cost_base, quantities, lead_weeks.
  cbn [project_type area_m2 structural_system envelope quality region opts checklist].
  rewrite Hu. reflexivity.
Qed.

Lemma unit_cost_base_with_area (scn : Scenario) (a : Z) :
  unit_cost_base (with_area scn a) = unit_cost_base scn.
Proof. reflexivity. Qed.

(** ** Which exceptions a step can raise *)

Lemma getitem_raise {V} (tbl : list (string * V)) (k : string) (e : exn) :
  getitem tbl k = Raise e -> e = KeyError (KStr k).
Proof. unfold getitem. destruct (assoc tbl k); congruence. Qed.

Lemma float_of_int_raise (z : Z) (e : exn) :
  Py.float_of_int z = Raise e -> e = OverflowError.
Proof.
  unfold Py.float_of_int. destruct (binary_normalize prec emax z 0 false); congruence.
Qed.

Lemma int_op_raise (f : float -> float) (z : Z) (e : exn) :
  (x <- Py.float_of_int z ;; Ok (f x)) = Raise e -> e = OverflowError.
Proof.
  destruct (Py.float_of_int z) eqn:H; cbn [bind]; [discriminate|].
  intros E. injection E as <-. exact (float_of_int_raise _ _ H).
Qed.

Lemma quantities_raise (scn : Scenario) (e : exn) :
  quantities scn = Raise e -> e = OverflowError.
Proof.
  unfold quantities, Py.int_mul.
  destruct (Py.float_of_int (area_m2 scn)) eqn:H; cbn [bind].
  - destruct (String.eqb (structural_system scn) "Steel"); discriminate.
  - apply float_of_int_raise in H. subst.
    destruct (String.eqb (structural_system scn) "Steel"); congruence.
Qed.

Lemma unit_cost_total_raise (t : float) (area : Z) (e : exn) :
  unit_cost_total t area = Raise e -> e = OverflowError.
Proof.
  unfold unit_cost_total, Py.div_int. destruct (area =? 0) eqn:Ha; [discriminate|].
  destruct (Py.float_of_int area) eqn:H; cbn [bind].
  - discriminate.
  - apply float_of_int_raise in H. congruence.
Qed.

Lemma contingency_raise (u : Z) (e : exn) :
  contingency u = Raise e -> e = OverflowError.
Proof.
  unfold contingency, Py.int_mul.
  destruct (Py.float_of_int u) eqn:H; cbn [bind]; [discriminate|].
  apply float_of_int_raise in H. congruence.
Qed.

Lemma unit_cost_base_pair_error (scn : Scenario) (e : exn) :
  unit_cost_base scn = Raise e -> is_pair_error e = true ->
  assoc2 base_table (project_type scn) (structural_system scn) = None.
Proof.
  unfold unit_cost_base, getitem2.
  destruct (assoc2 base_table (project_type scn) (structural_system scn)) as [base|];
    [|reflexivity].
  cbn [bind]. intros Hrun Hpair. exfalso.
  destruct (getitem region_table (region scn)) as [r|e1] eqn:E1; cbn [bind] in Hrun;
    [|apply getitem_raise in E1; injection Hrun as <-; subst; discriminate].
  destruct (getitem envelope_table (envelope scn)) as [v|e2] eqn:E2; cbn [bind] in Hrun;
    [|apply getitem_raise in E2; injection Hrun as <-; subst; discriminate].
  destruct (getitem quality_table (quality scn)) as [q|e3] eqn:E3; cbn [bind] in Hrun;
    [|apply getitem_raise in E3; injection Hrun as <-; subst; discriminate].
  destruct (Py.int_mul base r) as [b|e4] eqn:E4; cbn [bind] in Hrun; [discriminate|].
  apply (int_op_raise (fun x => (x * r)%float)) in E4.
  injection Hrun as <-. subst. discriminate.
Qed.

Lemma run_pair_error (scn : Scenario) (e : exn) :
  run scn = Raise e -> is_pair_error e = true ->
  assoc2 base_table (project_type scn) (structural_system scn) = None.
Proof.
  unfold run. intros Hrun Hpair.
  destruct (unit_cost_base scn) as [ucb|e0] eqn:E0; cbn [bind] in Hrun;
    [|injection Hrun as <-; exact (unit_cost_base_pair_error scn e0 E0 Hpair)].
  exfalso.
  destruct (contingency (unchecked (checklist scn))) as [c|e1] eqn:E1; cbn [bind] in Hrun;
    [|apply contingency_raise in E1; injection Hrun as <-; subst; discriminate].
  destruct (Py.add_int ucb (adders (opts scn))) as [u|e2] eqn:E2; cbn [bind] in Hrun;
    [|apply (int_op_raise (fun x => (ucb + x)%float)) in E2;
      injection Hrun as <-; subst; discriminate].
  destruct (Py.int_mul (area_m2 scn) u) as [st|e3] eqn:E3; cbn [bind] in Hrun;
    [|apply (int_op_raise (fun x => (x * u)%float)) in E3;
      injection Hrun as <-; subst; discriminate].
  destruct (Py.int_add 1 c) as [k|e4] eqn:E4; cbn [bind] in Hrun;
    [|apply (int_op_raise (fun x => (x + c)%float)) in E4;
      injection Hrun as <-; subst; discriminate].
  destruct (quantities scn) as [[[[steel conc] co2] weeks]|e5] eqn:E5; cbn [bind] in Hrun;
    [|apply quantities_raise in E5; injection Hrun as <-; subst; discriminate].
  destruct (unit_cost_total (st * k) (area_m2 scn)) as [uct|e6] eqn:E6; cbn [bind] in Hrun;
    [discriminate|].
  apply unit_cost_total_raise in E6. injection Hrun as <-. subst. discriminate.
Qed.

Lemma base_table_domain (a b : string) :
  assoc2 base_table a b <> None <-> In a PROJECT_TYPES /\ In b STRUCTURAL_SYSTEMS.
Proof.
  unfold base_table, PROJECT_TYPES, STRUCTURAL_SYSTEMS. cbn [assoc2 In]. split.
  - repeat match goal with
           | |- context [String.eqb ?x ?y] =>
               destruct (String.eqb_spec x y); cbn [andb]
           end; subst; intros H; try (exfalso; apply H; reflexivity); tauto.
  - intros [[<- | [<- | [<- | []]]] [<- | [<- | []]]]; cbn; discriminate.
Qed.

(** ** The contingency of zero to seven unchecked items *)

(** The contingency of [u] unchecked items, for [u] from 0 to 7: the cap of
    [min] is not reached, and the percentage returned is [u / 2]. *)
Lemma contingency_table (u : Z) :
  0 <= u <= 7 ->
  exists U,
    Py.float_of_int u = Ok U /\
    contingency u = Ok (Py.min (U * 0.005) 0.05)%float /\
    Py.min (U * 0.005) 0.05 = (U * 0.005)%float /\
    (U * 0.005 <? 0.05)%float = true /\
    Py.round (U * 0.005 * 100)%float 1 = (U * 0.5)%float /\
    (U * 0.5 <=? 3.5)%float = true /\
    (u = 7 -> (U * 0.5)%float = 3.5%float).
Proof.
  intros Hu.
  assert (Hcases : u = 0 \/ u = 1 \/ u = 2 \/ u = 3 \/ u = 4 \/ u = 5 \/ u = 6 \/ u = 7) by lia.
  repeat (destruct Hcases as [-> | Hcases];
          [eexists; split; [vm_compute; reflexivity|]; vm_compute; repeat split; discriminate|]).
  subst u. eexists; split; [vm_compute; reflexivity|]; vm_compute; repeat split.
Qed.

Lemma contingency_monotone (u1 u2 : Z) :
  0 <= u1 <= u2 -> u2 <= 7 ->
  exists c1 c2,
    contingency u1 = Ok c1 /\ contingency u2 = Ok c2 /\
    (c1 <=? c2)%float = true /\
    (Py.round (c1 * 100) 1 <=? Py.round (c2 * 100) 1)%float = true.
Proof.
  intros H1 H2.
  assert (C1 : u1 = 0 \/ u1 = 1 \/ u1 = 2 \/ u1 = 3 \/ u1 = 4 \/ u1 = 5 \/ u1 = 6 \/ u1 = 7) by lia.
  assert (C2 : u2 = 0 \/ u2 = 1 \/ u2 = 2 \/ u2 = 3 \/ u2 = 4 \/ u2 = 5 \/ u2 = 6 \/ u2 = 7) by lia.
  repeat (destruct C1 as [-> | C1]); try subst u1;
  repeat (destruct C2 as [-> | C2]); try subst u2; try lia;
  eexists; eexists;
  (split; [vm_compute; reflexivity|]); (split; [vm_compute; reflexivity|]);
  vm_compute; split; reflexivity.
Qed.

(** ** Round-off of the total and of the unit cost *)

(** The total [area * unit price * factor] in real numbers: the two
    multiplications lose at most a relative [2^-53] each. *)
Lemma total_value (A u k : float) (a : Z) (vu vk : R) :
  is_pos A (IZR a) -> 500 <= a <= 50000 ->
  is_pos u vu -> (379 <= vu <= 841)%R ->
  is_pos k vk -> (1 <= vk <= 2)%R ->
  exists vT,
    is_pos (A * u * k) vT /\
    (IZR a * (vu * vk) * (1 - bpow (-53)) * (1 - bpow (-53)) <= vT
     <= IZR a * (vu * vk) * (1 + bpow (-53)) * (1 + bpow (-53)))%R.
Proof.
  intros PA Ha Pu Hu Pk Hk.
  assert (HaR : (500 <= IZR a <= 50000)%R) by (split; apply IZR_le; lia).
  destruct (mul_pos A u (IZR a) vu PA Pu) as (vS & PS & ES);
    try (apply window_intro; lra).
  rewrite bpow_m53 in *. apply Rabs_le_inv in ES.
  set (Q := (IZR a * vu)%R) in *.
  assert (HQ : (500 * 379 <= Q <= 50000 * 841)%R) by (unfold Q; split; nra).
  destruct (mul_pos (A * u) k vS vk PS Pk) as (vT & PT & ET);
    try (apply window_intro; lra).
  rewrite bpow_m53 in *. apply Rabs_le_inv in ET.
  exists vT. split; [exact PT|].
  set (W := (vS * vk)%R) in *.
  replace (IZR a * (vu * vk))%R with (Q * vk)%R by (unfold Q; ring).
  set (P := (Q * vk)%R).
  assert (HW : (P * (1 - / 9007199254740992) <= W <= P * (1 + / 9007199254740992))%R).
  { unfold W, P. split; nra. }
  split; lra.
Qed.

(** The rounded totals of two areas, all else equal: the larger area has the
    strictly larger one. *)
Lemma rounded_total_increasing (A1 A2 u k : float) (a1 a2 : Z) (vu vk : R) :
  is_pos A1 (IZR a1) -> is_pos A2 (IZR a2) ->
  500 <= a1 -> a1 < a2 -> a2 <= 50000 ->
  is_pos u vu -> (379 <= vu <= 841)%R ->
  is_pos k vk -> (1 <= vk <= 2)%R ->
  (Py.round (A1 * u * k) 0 <? Py.round (A2 * u * k) 0)%float = true.
Proof.
  intros P1 P2 H1 H12 H2 Pu Hu Pk Hk.
  destruct (total_value A1 u k a1 vu vk P1 ltac:(lia) Pu Hu Pk Hk) as (vT1 & PT1 & B1).
  destruct (total_value A2 u k a2 vu vk P2 ltac:(lia) Pu Hu Pk Hk) as (vT2 & PT2 & B2).
  rewrite bpow_m53 in *.
  assert (Ha1 : (500 <= IZR a1 <= 50000)%R) by (split; apply IZR_le; lia).
  assert (Ha2 : (500 <= IZR a2 <= 50000)%R) by (split; apply IZR_le; lia).
  assert (Hstep : (IZR a1 + 1 <= IZR a2)%R).
  { rewrite <- plus_IZR. apply IZR_le. lia. }
  set (p := (vu * vk)%R) in *.
  assert (Hp : (379 <= p <= 1682)%R) by (unfold p; split; nra).
  set (Q1 := (IZR a1 * p)%R) in *. set (Q2 := (IZR a2 * p)%R) in *.
  assert (HQ1 : (500 * 379 <= Q1 <= 50000 * 1682)%R) by (unfold Q1; split; nra).
  assert (HQ2 : (500 * 379 <= Q2 <= 50000 * 1682)%R) by (unfold Q2; split; nra).
  assert (Hgap : (Q1 + 379 <= Q2)%R) by (unfold Q1, Q2; nra).
  assert (HT1 : (189000 <= vT1 <= 84200000)%R) by lra.
  assert (HT2 : (189000 <= vT2 <= 84200000)%R) by lra.
  assert (Hd : (vT1 + 378 <= vT2)%R) by lra.
  destruct (round0_pos _ vT1 PT1) as (z1 & Z1 & R1 & E1); try lra.
  { rewrite bpow_52. lra. }
  destruct (round0_pos _ vT2 PT2) as (z2 & Z2 & R2 & E2); try lra.
  { rewrite bpow_52. lra. }
  apply Rabs_le_inv in E1, E2.
  apply (ltb_pos _ _ (IZR z1) (IZR z2) R1 R2); try (apply window_intro; lra).
  lra.
Qed.

(** The unit cost [total / area] in real numbers: the unit price times the
    factor, up to three roundings. *)
Lemma unit_cost_value (A u k : float) (a : Z) (vu vk : R) :
  is_pos A (IZR a) -> 500 <= a <= 50000 ->
  is_pos u vu -> (379 <= vu <= 841)%R ->
  is_pos k vk -> (1 <= vk <= 2)%R ->
  exists vq,
    is_pos (A * u * k / A) vq /\
    (vu * vk * (1 - bpow (-53)) * (1 - bpow (-53)) * (1 - bpow (-53)) <= vq
     <= vu * vk * (1 + bpow (-53)) * (1 + bpow (-53)) * (1 + bpow (-53)))%R.
Proof.
  intros PA Ha Pu Hu Pk Hk.
  destruct (total_value A u k a vu vk PA Ha Pu Hu Pk Hk) as (vT & PT & BT).
  assert (HaR : (500 <= IZR a <= 50000)%R) by (split; apply IZR_le; lia).
  set (p := (vu * vk)%R) in *.
  assert (Hp : (379 <= p <= 1682)%R) by (unfold p; split; nra).
  rewrite bpow_m53 in *.
  set (L := (1 - / 9007199254740992)%R) in *.
  set (U := (1 + / 9007199254740992)%R) in *.
  assert (HL : (0 < L <= 1)%R) by (unfold L; lra).
  assert (HU : (1 <= U <= 2)%R) by (unfold U; lra).
  set (Q := (IZR a * p)%R) in *.
  assert (HQ : (500 * 379 <= Q <= 50000 * 1682)%R) by (unfold Q; split; nra).
  assert (HT : (189000 <= vT <= 84200000)%R) by (unfold L, U in *; lra).
  destruct (div_pos (A * u * k) A vT (IZR a) PT PA) as (vq & Pq & Eq);
    try (apply window_intro; lra).
  rewrite bpow_m53 in Eq. apply Rabs_le_inv in Eq.
  exists vq. split; [exact Pq|].
  set (w := (vT / IZR a)%R) in *.
  assert (Hw : (p * L * L <= w <= p * U * U)%R).
  { assert (Hwa : (w * IZR a = vT)%R) by (unfold w; field; lra).
    split; apply (Rmult_le_reg_r (IZR a)); try lra; rewrite Hwa.
    - replace (p * L * L * IZR a)%R with (Q * L * L)%R by (unfold Q; ring). lra.
    - replace (p * U * U * IZR a)%R with (Q * U * U)%R by (unfold Q; ring). lra. }
  assert (Hw0 : (0 < w)%R) by nra.
  fold L in Eq. fold U.
  replace (w - w * / 9007199254740992)%R with (w * L)%R in * by (unfold L; ring).
  split.
  - apply Rle_trans with (w * L)%R; [|unfold L in *; lra].
    apply Rmult_le_compat_r; lra.
  - apply Rle_trans with (w * U)%R; [unfold U in *; lra|].
    apply Rmult_le_compat_r; lra.
Qed.

(** The unit costs of two areas, all else equal, are the doubles nearest to
    whole numbers of cents that differ by at most one. *)
Lemma unit_costs_close (A1 A2 u k : float) (a1 a2 : Z) (vu vk : R) :
  is_pos A1 (IZR a1) -> is_pos A2 (IZR a2) ->
  500 <= a1 <= 50000 -> 500 <= a2 <= 50000 ->
  is_pos u vu -> (379 <= vu <= 841)%R ->
  is_pos k vk -> (1 <= vk <= 2)%R ->
  exists k1 k2 : positive,
    Py.round (A1 * u * k / A1) 2 = Py.decimal false k1 2 /\
    Py.round (A2 * u * k / A2) 2 = Py.decimal false k2 2 /\
    -1 <= Zpos k1 - Zpos k2 <= 1.
Proof.
  intros P1 P2 H1 H2 Pu Hu Pk Hk.
  destruct (unit_cost_value A1 u k a1 vu vk P1 H1 Pu Hu Pk Hk) as (q1 & Pq1 & B1).
  destruct (unit_cost_value A2 u k a2 vu vk P2 H2 Pu Hu Pk Hk) as (q2 & Pq2 & B2).
  rewrite bpow_m53 in *.
  set (p := (vu * vk)%R) in *.
  assert (Hp : (379 <= p <= 1682)%R) by (unfold p; split; nra).
  destruct (round2_cents _ q1 Pq1) as (k1 & R1 & E1); [lra|].
  destruct (round2_cents _ q2 Pq2) as (k2 & R2 & E2); [lra|].
  apply Rabs_le_inv in E1, E2.
  exists k1, k2. split; [exact R1|]. split; [exact R2|].
  assert (Hlo : (-2 < IZR (Zpos k1 - Zpos k2))%R) by (rewrite minus_IZR; lra).
  assert (Hhi : (IZR (Zpos k1 - Zpos k2) < 2)%R) by (rewrite minus_IZR; lra).
  apply lt_IZR in Hlo, Hhi. lia.
Qed.

(** ** Round-off of the cost buckets *)

(** The shares of a total between 189,000 and 84,200,000: their sum in
    floating point is the total again, and after each is rounded to a whole
    number the sum is within 2 of the rounded total. *)
Lemma shares_round_off (T : float) (vT : R) :
  is_pos T vT -> (189000 <= vT <= 84200000)%R ->
  bucket_fsum (shares T) = T /\
  -2 <= bucket_sum (round_buckets (shares T)) - int_of_float (Py.round T 0) <= 2.
Proof.
  intros PT HT.
  assert (P35 : is_pos 0.35 (6305039478318694 / 18014398509481984)%R)
    by (apply (is_pos_literal 0.35 6305039478318694 54); reflexivity).
  assert (P18 : is_pos 0.18 (6485183463413514 / 36028797018963968)%R)
    by (apply (is_pos_literal 0.18 6485183463413514 55); reflexivity).
  assert (P20 : is_pos 0.20 (7205759403792794 / 36028797018963968)%R)
    by (apply (is_pos_literal 0.20 7205759403792794 55); reflexivity).
  assert (P22 : is_pos 0.22 (7926335344172073 / 36028797018963968)%R)
    by (apply (is_pos_literal 0.22 7926335344172073 55); reflexivity).
  (* the four products *)
  destruct (mul_pos T 0.35 _ _ PT P35) as (v1 & Pb1 & E1); try (apply window_intro; lra).
  destruct (mul_pos T 0.18 _ _ PT P18) as (v2 & Pb2 & E2); try (apply window_intro; lra).
  destruct (mul_pos T 0.20 _ _ PT P20) as (v3 & Pb3 & E3); try (apply window_intro; lra).
  destruct (mul_pos T 0.22 _ _ PT P22) as (v4 & Pb4 & E4); try (apply window_intro; lra).
  rewrite bpow_m53 in *. apply Rabs_le_inv in E1, E2, E3, E4.
  (* the three additions *)
  destruct (add_pos _ _ v1 v2 Pb1 Pb2) as (s1 & Ps1 & F1 & _); try (apply window_intro; lra).
  rewrite bpow_m53 in *. apply Rabs_le_inv in F1.
  destruct (add_pos _ _ s1 v3 Ps1 Pb3) as (s2 & Ps2 & F2 & _); try (apply window_intro; lra).
  rewrite bpow_m53 in *. apply Rabs_le_inv in F2.
  destruct (add_pos _ _ s2 v4 Ps2 Pb4) as (s3 & Ps3 & F3 & _); try (apply window_intro; lra).
  rewrite bpow_m53 in *. apply Rabs_le_inv in F3.
  (* the remainder is exact *)
  destruct (sub_pos T _ vT s3 PT Ps3) as (vc & Pc & _ & Ec); try (apply window_intro; lra);
    try lra.
  specialize (Ec ltac:(lra)).
  (* and adding it back gives the total *)
  destruct (add_pos _ _ s3 vc Ps3 Pc) as (vs & Psum & _ & Eback); try (apply window_intro; lra).
  assert (Hback : (s3 + vc = vT)%R) by lra.
  rewrite Hback in Eback. specialize (Eback T PT). subst vs.
  split.
  { unfold bucket_fsum, shares. cbn [Structure Envelope MEP Finishes Contingency].
    apply (is_pos_unique _ _ vT Psum PT). apply window_intro. lra. }
  (* the six roundings *)
  destruct (round0_pos _ v1 Pb1) as (z1 & _ & R1 & G1); try lra; [rewrite bpow_52; lra|].
  destruct (round0_pos _ v2 Pb2) as (z2 & _ & R2 & G2); try lra; [rewrite bpow_52; lra|].
  destruct (round0_pos _ v3 Pb3) as (z3 & _ & R3 & G3); try lra; [rewrite bpow_52; lra|].
  destruct (round0_pos _ v4 Pb4) as (z4 & _ & R4 & G4); try lra; [rewrite bpow_52; lra|].
  destruct (round0_pos _ vc Pc) as (zc & _ & Rc & Gc); try lra; [rewrite bpow_52; lra|].
  destruct (round0_pos _ vT PT) as (zT & _ & RT & GT); try lra; [rewrite bpow_52; lra|].
  apply Rabs_le_inv in G1, G2, G3, G4, Gc, GT.
  unfold bucket_sum, round_buckets, shares.
  cbn [Structure Envelope MEP Finishes Contingency].
  rewrite (int_of_float_pos _ z1 R1), (int_of_float_pos _ z2 R2),
          (int_of_float_pos _ z3 R3), (int_of_float_pos _ z4 R4),
          (int_of_float_pos _ zc Rc), (int_of_float_pos _ zT RT).
  (* within 3 by the six half units; 3 itself would put 20 zc - zT strictly
     between two integers *)
  assert (HD : (-3 - / 1000 <= IZR (z1 + z2 + z3 + z4 + zc - zT) <= 3 + / 1000)%R).
  { rewrite minus_IZR, !plus_IZR. split; lra. }
  destruct (Z_le_gt_dec (z1 + z2 + z3 + z4 + zc - zT) 2) as [Hle | Hgt];
    [destruct (Z_le_gt_dec (-2) (z1 + z2 + z3 + z4 + zc - zT)) as [Hge | Hlt]; [lia|] |];
    exfalso.
  - assert (Hm : (IZR (z1 + z2 + z3 + z4 + zc - zT) <= -3)%R) by (apply IZR_le; lia).
    rewrite minus_IZR, !plus_IZR in Hm.
    assert (H1 : (-11 < IZR (20 * zc - zT))%R) by (rewrite minus_IZR, mult_IZR; lra).
    assert (H2 : (IZR (20 * zc - zT) < -10)%R) by (rewrite minus_IZR, mult_IZR; lra).
    apply lt_IZR in H1, H2. lia.
  - assert (Hm : (3 <= IZR (z1 + z2 + z3 + z4 + zc - zT))%R) by (apply IZR_le; lia).
    rewrite minus_IZR, !plus_IZR in Hm.
    assert (H1 : (10 < IZR (20 * zc - zT))%R) by (rewrite minus_IZR, mult_IZR; lra).
    assert (H2 : (IZR (20 * zc - zT) < 11)%R) by (rewrite minus_IZR, mult_IZR; lra).
    apply lt_IZR in H1, H2. lia.
Qed.

(** ** Evaluating closed scenarios *)

Ltac float_neq :=
  let H := fresh in
  intro H; apply (f_equal Prim2SF) in H; vm_compute in H; discriminate.

(** Evaluate the left-hand side of an equation between closed results. *)
Ltac evaluate_in H :=
  match type of H with
  | ?lhs = _ =>
      let v := eval vm_compute in lhs in
      let E := fresh "E" in
      assert (E : lhs = v) by (vm_compute; reflexivity);
      rewrite E in H; clear E
  end.

(** Rounding first matters: at 502 m2 of Steel the carbon is 20.5, where the
    formula on the unrounded products would round to 20.6. *)
Example carbon_raw_differs :
  exists est,
    compute_simulation (with_area scn_warehouse_steel 502) = Ok est /\
    co2_tons est = 20.5%float /\
    Py.round (502 * 0.02 * 1.8 + 502 * 0.05 * 0.1)%float 1 = 20.6%float.
Proof.
  eexists. split; [vm_compute; reflexivity|]. vm_compute. split; reflexivity.
Qed.

(** * The stated properties *)

(** C1, as stated, fails: for Warehouse / 500 m2 / Steel / Standard / Basic /
    North with no option and nothing unchecked the five returned buckets
    (66334, 34114, 37905, 41695 and 9476) sum to 189,524, as floats or as
    integers, while the total cost is 189,525. *)
Lemma C1_counterexample :
  ~ (exists est,
       compute_simulation (with_area scn_warehouse_steel 500) = Ok est /\
       (bucket_fsum (cost_buckets est) = total_cost est \/
        bucket_sum (cost_buckets est) = int_of_float (total_cost est))).
Proof.
  intros (est & Hc & Hsum).
  evaluate_in Hc. injection Hc as <-. destruct Hsum as [Hf | Hs].
  - revert Hf. cbn [cost_buckets total_cost]. float_neq.
  - revert Hs. vm_compute. discriminate.
Qed.

(** C1: the code departs from the stated sum.  It takes the Contingency
    share as what the four other shares leave of the total, and then rounds
    each of the five shares on its own.  For Warehouse / 500 m2 / Steel /
    Standard / Basic / North with no option and nothing unchecked, which is
    a valid scenario, the returned buckets are 66334, 34114, 37905, 41695
    and 9476: they sum to 189,524 and the returned total cost is 189,525.
    With the Contingency bucket as the remainder of the returned total over
    the four other returned buckets it would be 9477 and the five would sum
    to the total cost. *)
Theorem C1_buckets_diverge :
  valid_scenario scn_warehouse_500 /\
  exists l est,
    run scn_warehouse_500 = Ok l /\
    compute_simulation scn_warehouse_500 = Ok est /\
    Contingency (l_shares l)
    = (l_total l - (Structure (l_shares l) + Envelope (l_shares l)
                    + MEP (l_shares l) + Finishes (l_shares l)))%float /\
    cost_buckets est = round_buckets (l_shares l) /\
    cost_buckets est
    = {| Structure := 66334; Envelope := 34114; MEP := 37905;
         Finishes := 41695; Contingency := 9476 |} /\
    total_cost est = 189525%float /\
    bucket_sum (cost_buckets est) = 189524 /\
    int_of_float (total_cost est) = 189525 /\
    Contingency (spec_cost_buckets est) = 9477%float /\
    bucket_sum (spec_cost_buckets est) = int_of_float (total_cost est).
Proof.
  split.
  { unfold valid_scenario, scn_warehouse_500, scn_warehouse_steel; cbn.
    repeat split; auto; lia. }
  eexists. eexists.
  split; [vm_compute; reflexivity|].
  split; [vm_compute; reflexivity|].
  vm_compute. repeat split.
Qed.

(** C2: [compute_simulation] fails with the [KeyError] of the base-cost
    lookup (the specification's UnsupportedCombination) exactly when the pair
    (project type, structural system) has no entry in [base_table]; the
    entries are the six pairs {Warehouse, Office, Retail} x {Steel,
    Concrete}; and on a valid scenario no step fails: an estimate is
    returned. *)
Theorem C2_unsupported_combination (scn : Scenario) :
  (compute_simulation scn
     = Raise (KeyError (KPair (project_type scn) (structural_system scn)))
   <-> assoc2 base_table (project_type scn) (structural_system scn) = None) /\
  (assoc2 base_table (project_type scn) (structural_system scn) <> None
   <-> In (project_type scn) PROJECT_TYPES /\
       In (structural_system scn) STRUCTURAL_SYSTEMS) /\
  (valid_scenario scn -> exists est, compute_simulation scn = Ok est).
Proof.
  split; [|split].
  - split.
    + intros H. unfold compute_simulation in H.
      destruct (run scn) as [l|e] eqn:Hrun; cbn [bind] in H.
      * rewrite returned_ok in H. discriminate.
      * injection H as ->. apply (run_pair_error scn _ Hrun). reflexivity.
    + intros H. unfold compute_simulation, run, unit_cost_base, getitem2.
      rewrite H. reflexivity.
  - apply base_table_domain.
  - apply valid_returns.
Qed.

Lemma C2_witness :
  valid_scenario scn_warehouse_steel /\
  exists est, compute_simulation scn_warehouse_steel = Ok est.
Proof.
  split; [exact valid_warehouse_steel|].
  exact (proj2 (proj2 (C2_unsupported_combination scn_warehouse_steel)) valid_warehouse_steel).
Defined.

(** The counter of [compute_simulation] counts the entries of the checklist
    whose value is false. *)
Lemma unchecked_count (cl : list (string * bool)) :
  unchecked cl = count_unchecked cl.
Proof.
  unfold count_unchecked.
  induction cl as [|[k v] cl IH]; [reflexivity|].
  cbn [unchecked filter snd]. destruct v; cbn [negb List.length].
  - exact IH.
  - rewrite IH, Nat2Z.inj_succ. lia.
Qed.

(** The contingency of a valid scenario, from the number of false entries of
    its checklist. *)
Lemma contingency_of_valid (scn : Scenario) :
  valid_scenario scn ->
  exists l est U,
    run scn = Ok l /\ compute_simulation scn = Ok est /\
    l_unchecked l = count_unchecked (checklist scn) /\
    Py.float_of_int (count_unchecked (checklist scn)) = Ok U /\
    l_contingency_pct l = Py.min (U * 0.005) 0.05 /\
    (U * 0.005 <? 0.05)%float = true /\
    l_contingency_pct l = (U * 0.005)%float /\
    contingency_pct est = Py.round (l_contingency_pct l * 100)%float 1 /\
    contingency_pct est = (U * 0.5)%float /\
    (contingency_pct est <=? 3.5)%float = true /\
    (count_unchecked (checklist scn) = 7 -> contingency_pct est = 3.5%float).
Proof.
  intros Hv.
  pose proof (valid_unchecked scn Hv) as Hu.
  destruct (run_valid scn Hv) as (ucb & p & c & k & A & _ & _ & Hc & _ & _ & _ & _ & _ & Hrun).
  rewrite <- unchecked_count.
  destruct (contingency_table _ Hu) as (U & HU & Hcu & Hmin & Hlt & Hrnd & Hle & Hmax).
  rewrite Hcu in Hc. injection Hc as <-.
  exists (locals_at scn ucb p (Py.min (U * 0.005) 0.05) k A). eexists. exists U.
  split; [exact Hrun|]. split.
  { unfold compute_simulation. rewrite Hrun. cbn [bind]. rewrite returned_ok. reflexivity. }
  assert (Hl : l_contingency_pct (locals_at scn ucb p (Py.min (U * 0.005) 0.05) k A)
               = Py.min (U * 0.005) 0.05
               /\ l_unchecked (locals_at scn ucb p (Py.min (U * 0.005) 0.05) k A)
                  = unchecked (checklist scn)).
  { unfold locals_at. destruct (quantities_at scn A) as [[[? ?] ?] ?]. split; reflexivity. }
  destruct Hl as [Hl Hn].
  cbn [contingency_pct]. rewrite Hl.
  split; [exact Hn|].
  split; [exact HU|]. split; [reflexivity|]. split; [exact Hlt|]. split; [exact Hmin|].
  split; [reflexivity|]. rewrite Hmin, Hrnd. split; [reflexivity|].
  split; [exact Hle | exact Hmax].
Qed.

Lemma valid_checklist_gaps (n : Z) :
  0 <= n <= 7 ->
  valid_scenario (with_checklist scn_warehouse_steel (checklist_gaps n)) /\
  count_unchecked (checklist_gaps n) = n.
Proof.
  intros Hn.
  assert (Hcases : n = 0 \/ n = 1 \/ n = 2 \/ n = 3 \/ n = 4 \/ n = 5 \/ n = 6 \/ n = 7) by lia.
  repeat (destruct Hcases as [-> | Hcases]);
    try subst n;
    (split; [unfold valid_scenario; cbn; repeat split; auto; lia | reflexivity]).
Qed.

(** C3: for every valid scenario, with [u] the number of unchecked checklist
    items (the entries whose value is false), [u] is between 0 and 7 and is
    what the code counts; the contingency is [min(u * 0.005, 0.05)]; the cap
    is never reached ([u * 0.005 < 0.05]), so the contingency is
    [u * 0.005]; the returned percentage is its rounding [u / 2], at most
    3.5.  A valid scenario with at least as many unchecked items never has a
    smaller contingency.  Every [n] from 0 to 7 is the number of unchecked
    items of some valid scenario, whose percentage is then [n / 2]; with all
    seven unchecked the percentage is 3.5, the largest there is. *)
Theorem C3_contingency (scn : Scenario) :
  valid_scenario scn ->
  let u := count_unchecked (checklist scn) in
  0 <= u <= 7 /\
  (exists l est U,
     run scn = Ok l /\ compute_simulation scn = Ok est /\
     l_unchecked l = u /\
     Py.float_of_int u = Ok U /\
     l_contingency_pct l = Py.min (U * 0.005) 0.05 /\
     (U * 0.005 <? 0.05)%float = true /\
     l_contingency_pct l = (U * 0.005)%float /\
     contingency_pct est = Py.round (l_contingency_pct l * 100)%float 1 /\
     contingency_pct est = (U * 0.5)%float /\
     (contingency_pct est <=? 3.5)%float = true /\
     (u = 7 -> contingency_pct est = 3.5%float)) /\
  (forall scn' l l' est est',
     valid_scenario scn' -> u <= count_unchecked (checklist scn') ->
     run scn = Ok l -> run scn' = Ok l' ->
     compute_simulation scn = Ok est -> compute_simulation scn' = Ok est' ->
     (l_contingency_pct l <=? l_contingency_pct l')%float = true /\
     (contingency_pct est <=? contingency_pct est')%float = true) /\
  (forall n, 0 <= n <= 7 ->
     exists scn' est' N,
       valid_scenario scn' /\ count_unchecked (checklist scn') = n /\
       compute_simulation scn' = Ok est' /\
       Py.float_of_int n = Ok N /\
       contingency_pct est' = (N * 0.5)%float /\
       (n = 7 -> contingency_pct est' = 3.5%float)).
Proof.
  intros Hv u.
  pose proof (valid_unchecked scn Hv) as Hu. rewrite unchecked_count in Hu. fold u in Hu.
  split; [exact Hu|]. split; [|split].
  - exact (contingency_of_valid scn Hv).
  - intros scn' l l' est est' Hv' Hle Hrun Hrun' Hest Hest'.
    pose proof (valid_unchecked scn' Hv') as Hu'. rewrite unchecked_count in Hu'.
    destruct (contingency_monotone u (count_unchecked (checklist scn')) ltac:(lia) ltac:(lia))
      as (c1 & c2 & Hc1 & Hc2 & Hcmp & Hpct).
    destruct (run_valid scn Hv) as (ucb & p & c & k & A & _ & _ & Hc & _ & _ & _ & _ & _ & Hr).
    destruct (run_valid scn' Hv') as (ucb' & p' & c' & k' & A' & _ & _ & Hc' & _ & _ & _ & _ & _ & Hr').
    rewrite unchecked_count in Hc, Hc'. fold u in Hc. rewrite Hc1 in Hc. rewrite Hc2 in Hc'.
    injection Hc as <-. injection Hc' as <-.
    unfold compute_simulation in Hest, Hest'.
    rewrite Hrun in Hest. rewrite Hrun' in Hest'. cbn [bind] in Hest, Hest'.
    rewrite returned_ok in Hest, Hest'.
    injection Hest as <-. injection Hest' as <-.
    rewrite Hr in Hrun. rewrite Hr' in Hrun'.
    injection Hrun as <-. injection Hrun' as <-.
    cbn [contingency_pct].
    unfold locals_at.
    destruct (quantities_at scn A) as [[[? ?] ?] ?].
    destruct (quantities_at scn' A') as [[[? ?] ?] ?].
    cbn [l_contingency_pct]. split; assumption.
  - intros n Hn.
    destruct (valid_checklist_gaps n Hn) as [Hv' Hcount].
    destruct (contingency_of_valid _ Hv')
      as (l' & est' & N & _ & Hest' & _ & HN & _ & _ & _ & _ & Hpct & _ & Hmax).
    cbn [checklist with_checklist] in HN, Hmax. rewrite Hcount in HN, Hmax.
    exists (with_checklist scn_warehouse_steel (checklist_gaps n)), est', N.
    split; [exact Hv'|]. split; [exact Hcount|]. split; [exact Hest'|].
    split; [exact HN|]. split; [exact Hpct | exact Hmax].
Qed.

Lemma C3_witness :
  valid_scenario scn_all_unchecked /\
  count_unchecked (checklist scn_all_unchecked) = 7 /\
  exists est,
    compute_simulation scn_all_unchecked = Ok est /\
    contingency_pct est = 3.5%float.
Proof.
  assert (Hv : valid_scenario scn_all_unchecked).
  { unfold valid_scenario, scn_all_unchecked, scn_warehouse_steel; cbn.
    repeat split; auto; lia. }
  split; [exact Hv|]. split; [reflexivity|].
  destruct (C3_contingency scn_all_unchecked Hv)
    as (_ & (l & est & U & _ & Hest & _ & _ & _ & _ & _ & _ & _ & _ & Hmax) & _).
  exists est. split; [exact Hest|]. apply Hmax. reflexivity.
Defined.

(** C4, as stated, fails: for the Warehouse / 10000 m2 / Steel / Standard /
    Basic / North scenario with no option and nothing unchecked, the unit
    cost base does not round to 378.21 and neither the subtotal nor the total
    is 3,782,100. *)
Lemma C4_counterexample :
  ~ (exists l est,
       run scn_warehouse_steel = Ok l /\
       compute_simulation scn_warehouse_steel = Ok est /\
       Py.round (l_unit_cost_base l) 2 = 378.21%float /\
       l_adders l = 0 /\
       contingency_pct est = 0%float /\
       subtotal_no_cont est = 3782100%float /\
       total_cost est = 3782100%float /\
       steel_t est = 200%float /\
       concrete_m3 est = 500%float /\
       co2_tons est = 410%float /\
       lead_time_wks est = 12).
Proof.
  intros (l & est & _ & Hc & _ & _ & _ & _ & Ht & _).
  evaluate_in Hc. injection Hc as <-. revert Ht. cbn [total_cost]. float_neq.
Qed.

(** C4, amended: for that scenario the unit cost base is
    420 * 0.95 * 1.00 * 0.95, which is 379.05 to two decimals, the adders are
    0, the contingency is 0.0, the subtotal and the total are 3,790,500, and
    steel is 200.0 t, concrete 500.0 m3, carbon 410.0 t and the lead time 12
    weeks. *)
Theorem C4_warehouse_steel :
  exists l est,
    run scn_warehouse_steel = Ok l /\
    compute_simulation scn_warehouse_steel = Ok est /\
    l_unit_cost_base l = (420 * 0.95 * 1.00 * 0.95)%float /\
    Py.round (l_unit_cost_base l) 2 = 379.05%float /\
    l_adders l = 0 /\
    l_contingency_pct l = 0%float /\
    contingency_pct est = 0%float /\
    subtotal_no_cont est = 3790500%float /\
    total_cost est = 3790500%float /\
    unit_cost est = PyFloat 379.05%float /\
    steel_t est = 200%float /\
    concrete_m3 est = 500%float /\
    co2_tons est = 410%float /\
    lead_time_wks est = 12.
Proof.
  eexists. eexists.
  split; [vm_compute; reflexivity|].
  split; [vm_compute; reflexivity|].
  vm_compute. repeat split.
Qed.

(** C5, as stated, fails: for the Concrete scenario with mezzanine and HVAC
    in the South the lead time is not 16 weeks. *)
Lemma C5_counterexample :
  ~ (exists est,
       compute_simulation scn_warehouse_concrete = Ok est /\
       lead_time_wks est = 16).
Proof.
  intros (est & Hc & Hl).
  evaluate_in Hc. injection Hc as <-. revert Hl. cbn [lead_time_wks]. discriminate.
Qed.

(** C5, amended: for that scenario the lead time is 18 weeks: 16 for
    Concrete with a mezzanine, one more for HVAC and one more for the South;
    the region multiplier 1.05 is in the unit cost base 450 * 1.05 * 1.00 *
    0.95 and the HVAC adder 45 is, with the mezzanine's 60, in the adders
    105, which give the unit cost 553.88. *)
Theorem C5_warehouse_concrete :
  exists l est,
    run scn_warehouse_concrete = Ok l /\
    compute_simulation scn_warehouse_concrete = Ok est /\
    lead_time_wks est = 18 /\
    lead_time_wks est = lead_weeks scn_warehouse_concrete 16 /\
    l_unit_cost_base l = (450 * 1.05 * 1.00 * 0.95)%float /\
    l_adders l = 60 + 45 /\
    adders_per_m2 est = 105 /\
    unit_cost est = PyFloat 553.88%float.
Proof.
  eexists. eexists.
  split; [vm_compute; reflexivity|].
  split; [vm_compute; reflexivity|].
  vm_compute. repeat split.
Qed.

(** C6, as stated, fails: two valid scenarios that differ in the area only
    (500 and 10500 m2) have different unit costs, 400.99 and 401.0. *)
Lemma C6_counterexample :
  ~ (forall scn a1 a2 e1 e2,
       valid_scenario (with_area scn a1) -> valid_scenario (with_area scn a2) ->
       a1 < a2 ->
       compute_simulation (with_area scn a1) = Ok e1 ->
       compute_simulation (with_area scn a2) = Ok e2 ->
       (total_cost e1 <? total_cost e2)%float = true /\ unit_cost e1 = unit_cost e2).
Proof.
  intros H.
  assert (Hv : forall a, 500 <= a <= 50000 -> valid_scenario (with_area scn_half_cent a)).
  { intros a Ha. unfold valid_scenario, scn_half_cent; cbn. repeat split; auto; lia. }
  destruct (valid_returns _ (Hv 500 ltac:(lia))) as [e1 H1].
  destruct (valid_returns _ (Hv 10500 ltac:(lia))) as [e2 H2].
  destruct (H scn_half_cent 500 10500 e1 e2 (Hv 500 ltac:(lia)) (Hv 10500 ltac:(lia))
              ltac:(lia) H1 H2) as [_ Hu].
  evaluate_in H1. evaluate_in H2.
  injection H1 as <-. injection H2 as <-.
  cbn [unit_cost] in Hu.
  apply (f_equal (fun v => match v with
                           | PyFloat f => Prim2SF f
                           | PyInt _ => S754_nan
                           end)) in Hu.
  vm_compute in Hu. discriminate.
Qed.

(** C6, amended: of two valid scenarios that differ in the area only, the
    one with the strictly larger area has the strictly larger total cost,
    and the two unit costs are equal or one cent apart: each is the double
    nearest to a whole number of hundredths, and the two numbers of
    hundredths differ by at most one.  (The quotient [total / area] moves in
    its last bits with the area and, on a half cent, rounds either way.) *)
Theorem C6_area_monotone (scn : Scenario) (a1 a2 : Z) :
  valid_scenario (with_area scn a1) -> valid_scenario (with_area scn a2) ->
  a1 < a2 ->
  exists e1 e2,
    compute_simulation (with_area scn a1) = Ok e1 /\
    compute_simulation (with_area scn a2) = Ok e2 /\
    (total_cost e1 <? total_cost e2)%float = true /\
    exists k1 k2 : positive,
      unit_cost e1 = PyFloat (Py.decimal false k1 2) /\
      unit_cost e2 = PyFloat (Py.decimal false k2 2) /\
      -1 <= Zpos k1 - Zpos k2 <= 1.
Proof.
  intros Hv1 Hv2 Hlt.
  destruct (run_valid _ Hv1) as (ucb & u & c & k & A1 & Hucb & Hu & Hc & Hk & HA1 & Bu & Bk & PA1 & Hrun1).
  destruct (run_valid _ Hv2) as (ucb' & u' & c' & k' & A2 & Hucb' & Hu' & Hc' & Hk' & HA2 & _ & _ & PA2 & Hrun2).
  rewrite unit_cost_base_with_area in Hucb, Hucb'.
  rewrite Hucb in Hucb'. injection Hucb' as <-.
  change (opts (with_area scn a1)) with (opts scn) in Hu.
  change (opts (with_area scn a2)) with (opts scn) in Hu'.
  rewrite Hu in Hu'. injection Hu' as <-.
  change (checklist (with_area scn a1)) with (checklist scn) in Hc.
  change (checklist (with_area scn a2)) with (checklist scn) in Hc'.
  rewrite Hc in Hc'. injection Hc' as <-.
  rewrite Hk in Hk'. injection Hk' as <-.
  destruct (pos_between_spec _ _ _ Bu) as (vu & Pu & Ru).
  destruct (pos_between_spec _ _ _ Bk) as (vk & Pk & Rk).
  destruct Hv1 as (_ & _ & _ & _ & _ & Ha1 & _).
  destruct Hv2 as (_ & _ & _ & _ & _ & Ha2 & _).
  cbn [area_m2 with_area] in Ha1, Ha2, PA1, PA2.
  destruct (unit_costs_close A1 A2 u k a1 a2 vu vk PA1 PA2 Ha1 Ha2 Pu Ru Pk Rk)
    as (k1 & k2 & R1 & R2 & Hk12).
  eexists. eexists.
  split. { unfold compute_simulation. rewrite Hrun1. cbn [bind]. rewrite returned_ok. reflexivity. }
  split. { unfold compute_simulation. rewrite Hrun2. cbn [bind]. rewrite returned_ok. reflexivity. }
  cbn [total_cost unit_cost].
  rewrite (proj1 (locals_at_total _ ucb u c k A1)), (proj1 (locals_at_total _ ucb u c k A2)).
  split.
  { apply (rounded_total_increasing A1 A2 u k a1 a2 vu vk); try assumption; lia. }
  exists k1, k2.
  assert (U1 : l_unit_cost_total (locals_at (with_area scn a1) ucb u c k A1)
               = PyFloat (A1 * u * k / A1)%float).
  { unfold locals_at. destruct (quantities_at _ A1) as [[[? ?] ?] ?].
    cbn [l_unit_cost_total area_m2 with_area].
    destruct (Z.eqb_spec a1 0); [lia | reflexivity]. }
  assert (U2 : l_unit_cost_total (locals_at (with_area scn a2) ucb u c k A2)
               = PyFloat (A2 * u * k / A2)%float).
  { unfold locals_at. destruct (quantities_at _ A2) as [[[? ?] ?] ?].
    cbn [l_unit_cost_total area_m2 with_area].
    destruct (Z.eqb_spec a2 0); [lia | reflexivity]. }
  rewrite U1, U2. cbn [Py.round_num]. rewrite R1, R2.
  split; [reflexivity|]. split; [reflexivity | exact Hk12].
Qed.

Lemma C6_witness :
  valid_scenario (with_area scn_half_cent 500) /\
  valid_scenario (with_area scn_half_cent 10500) /\
  500 < 10500 /\
  exists e1 e2,
    compute_simulation (with_area scn_half_cent 500) = Ok e1 /\
    compute_simulation (with_area scn_half_cent 10500) = Ok e2 /\
    (total_cost e1 <? total_cost e2)%float = true.
Proof.
  assert (Hv : forall a, 500 <= a <= 50000 -> valid_scenario (with_area scn_half_cent a)).
  { intros a Ha. unfold valid_scenario, scn_half_cent; cbn. repeat split; auto; lia. }
  split; [apply Hv; lia|]. split; [apply Hv; lia|]. split; [lia|].
  destruct (C6_area_monotone scn_half_cent 500 10500) as (e1 & e2 & H1 & H2 & Ht & _);
    [apply Hv; lia | apply Hv; lia | lia |].
  exists e1, e2. repeat split; assumption.
Defined.

(** C8: the unit cost [total / area] is guarded.  With a zero area the guard
    gives the integer 0 where the division would raise; a run with a zero
    area has unit cost 0, and such a run exists for every otherwise valid
    scenario; from area 500 on the guard is not taken: the unit cost is the
    quotient. *)
Theorem C8_area_guard (scn : Scenario) :
  (forall t, unit_cost_total t 0 = Ok (PyInt 0)) /\
  (forall t, Py.div_int t 0 = Raise ZeroDivisionError) /\
  (forall est, area_m2 scn = 0 -> compute_simulation scn = Ok est ->
               unit_cost est = PyInt 0) /\
  (valid_scenario scn ->
   exists est, compute_simulation (with_area scn 0) = Ok est /\ unit_cost est = PyInt 0) /\
  (500 <= area_m2 scn ->
   forall t, unit_cost_total t (area_m2 scn)
             = (q <- Py.div_int t (area_m2 scn) ;; Ok (PyFloat q))) /\
  (valid_scenario scn ->
   exists l est A,
     run scn = Ok l /\ compute_simulation scn = Ok est /\
     Py.float_of_int (area_m2 scn) = Ok A /\
     l_unit_cost_total l = PyFloat (l_total l / A)%float /\
     unit_cost est = PyFloat (Py.round (l_total l / A)%float 2)).
Proof.
  split; [reflexivity|]. split; [reflexivity|]. split; [|split; [|split]].
  - intros est Ha. unfold compute_simulation, run.
    destruct (unit_cost_base scn) as [ucb|]; cbn [bind]; [|discriminate].
    destruct (contingency _) as [c|]; cbn [bind]; [|discriminate].
    destruct (Py.add_int _ _) as [u|]; cbn [bind]; [|discriminate].
    destruct (Py.int_mul _ _) as [st|]; cbn [bind]; [|discriminate].
    destruct (Py.int_add _ _) as [k|]; cbn [bind]; [|discriminate].
    destruct (quantities scn) as [[[[steel conc] co2] weeks]|]; cbn [bind]; [|discriminate].
    rewrite Ha. unfold unit_cost_total. cbn [Z.eqb bind].
    rewrite returned_ok. intros E. injection E as <-. reflexivity.
  - intros Hv.
    destruct (run_valid scn Hv) as (ucb & u & c & k & A & Hucb & Hu & Hc & Hk & _ & _ & _ & _ & _).
    assert (Hrun : run (with_area scn 0) = Ok (locals_at (with_area scn 0) ucb u c k 0%float)).
    { apply run_ok; try assumption. reflexivity. }
    unfold compute_simulation. rewrite Hrun. cbn [bind]. rewrite returned_ok.
    eexists. split; [reflexivity|].
    unfold locals_at. destruct (quantities_at (with_area scn 0) 0) as [[[? ?] ?] ?].
    reflexivity.
  - intros Ha t. unfold unit_cost_total.
    destruct (Z.eqb_spec (area_m2 scn) 0); [lia | reflexivity].
  - intros Hv.
    destruct (run_valid scn Hv) as (ucb & u & c & k & A & _ & _ & _ & _ & HA & _ & _ & _ & Hrun).
    exists (locals_at scn ucb u c k A). eexists. exists A.
    split; [exact Hrun|]. split.
    { unfold compute_simulation. rewrite Hrun. cbn [bind]. rewrite returned_ok. reflexivity. }
    split; [exact HA|].
    destruct Hv as (_ & _ & _ & _ & _ & Harea & _).
    unfold locals_at. destruct (quantities_at scn A) as [[[? ?] ?] ?].
    cbn [l_unit_cost_total l_total unit_cost].
    destruct (Z.eqb_spec (area_m2 scn) 0); [lia|]. split; reflexivity.
Qed.

Lemma C8_witness :
  valid_scenario scn_warehouse_steel /\
  exists est,
    compute_simulation (with_area scn_warehouse_steel 0) = Ok est /\
    unit_cost est = PyInt 0.
Proof.
  split; [exact valid_warehouse_steel|].
  exact (proj1 (proj2 (proj2 (proj2 (C8_area_guard scn_warehouse_steel))))
           valid_warehouse_steel).
Defined.

(** C9: for every valid scenario the steel and concrete quantities are the
    area products rounded to one decimal, and the carbon is the formula of
    the structural system applied to those rounded quantities, itself rounded
    to one decimal. *)
Theorem C9_carbon_from_rounded (scn : Scenario) :
  valid_scenario scn ->
  exists est A,
    compute_simulation scn = Ok est /\
    Py.float_of_int (area_m2 scn) = Ok A /\
    (structural_system scn = "Steel" ->
     steel_t est = Py.round (A * 0.02)%float 1 /\
     concrete_m3 est = Py.round (A * 0.05)%float 1 /\
     co2_tons est = Py.round (steel_t est * 1.8 + concrete_m3 est * 0.1)%float 1) /\
    (structural_system scn = "Concrete" ->
     steel_t est = Py.round (A * 0.008)%float 1 /\
     concrete_m3 est = Py.round (A * 0.12)%float 1 /\
     co2_tons est = Py.round (steel_t est * 1.4 + concrete_m3 est * 0.22)%float 1).
Proof.
  intros Hv.
  destruct (run_valid scn Hv) as (ucb & u & c & k & A & _ & _ & _ & _ & HA & _ & _ & _ & Hrun).
  eexists. exists A. split.
  { unfold compute_simulation. rewrite Hrun. cbn [bind]. rewrite returned_ok. reflexivity. }
  split; [exact HA|].
  unfold locals_at, quantities_at. cbn [steel_t concrete_m3 co2_tons].
  split; intros Hss; rewrite Hss; cbn [String.eqb Ascii.eqb Bool.eqb andb];
    cbn [l_steel_t l_conc_m3 l_co2]; repeat split.
Qed.

Lemma C9_witness :
  valid_scenario scn_warehouse_concrete /\
  exists est A,
    compute_simulation scn_warehouse_concrete = Ok est /\
    Py.float_of_int 10000 = Ok A /\
    co2_tons est = Py.round (steel_t est * 1.4 + concrete_m3 est * 0.22)%float 1.
Proof.
  assert (Hv : valid_scenario scn_warehouse_concrete).
  { unfold valid_scenario, scn_warehouse_concrete; cbn. repeat split; auto; lia. }
  split; [exact Hv|].
  destruct (C9_carbon_from_rounded scn_warehouse_concrete Hv) as (est & A & Hc & HA & _ & Hconc).
  exists est, A. split; [exact Hc|]. split; [exact HA|].
  exact (proj2 (proj2 (Hconc eq_refl))).
Defined.

(** C10: the estimate depends on the checklist only through its number of
    false entries: two checklists, of any keys, order and length, with the
    same number of false entries give the same result. *)
Theorem C10_checklist_count (scn : Scenario) (cl1 cl2 : list (string * bool)) :
  unchecked cl1 = unchecked cl2 ->
  compute_simulation (with_checklist scn cl1) = compute_simulation (with_checklist scn cl2).
Proof.
  intros Hu. apply compute_simulation_inputs; try reflexivity. exact Hu.
Qed.

Lemma C10_witness :
  unchecked [("a", false); ("b", true)] = unchecked [("x", true); ("y", true); ("z", false)] /\
  compute_simulation (with_checklist scn_warehouse_steel [("a", false); ("b", true)])
  = compute_simulation
      (with_checklist scn_warehouse_steel [("x", true); ("y", true); ("z", false)]).
Proof.
  split; [reflexivity|].
  apply (C10_checklist_count scn_warehouse_steel). reflexivity.
Defined.

(** * Further properties of the code *)

(** For every valid scenario the five shares before rounding sum, added
    from left to right in floating point, exactly to the total before
    rounding, the Contingency share being what the other four leave of it;
    each share is then rounded to a whole number on its own, as the total
    is, and the five returned values sum to the returned total cost to
    within 2. *)
Theorem buckets_sum_within_two (scn : Scenario) :
  valid_scenario scn ->
  exists l est,
    run scn = Ok l /\ compute_simulation scn = Ok est /\
    total_cost est = Py.round (l_total l) 0 /\
    cost_buckets est = round_buckets (l_shares l) /\
    Contingency (l_shares l)
    = (l_total l - (Structure (l_shares l) + Envelope (l_shares l)
                    + MEP (l_shares l) + Finishes (l_shares l)))%float /\
    bucket_fsum (l_shares l) = l_total l /\
    -2 <= bucket_sum (cost_buckets est) - int_of_float (total_cost est) <= 2.
Proof.
  intros Hv.
  destruct (run_valid scn Hv) as (ucb & u & c & k & A & _ & _ & _ & _ & _ & Bu & Bk & PA & Hrun).
  destruct (pos_between_spec _ _ _ Bu) as (vu & Pu & Ru).
  destruct (pos_between_spec _ _ _ Bk) as (vk & Pk & Rk).
  destruct Hv as (_ & _ & _ & _ & _ & Ha & _).
  destruct (total_value A u k (area_m2 scn) vu vk PA Ha Pu Ru Pk Rk) as (vT & PT & BT).
  rewrite bpow_m53 in BT.
  assert (HaR : (500 <= IZR (area_m2 scn) <= 50000)%R) by (split; apply IZR_le; lia).
  assert (HT : (189000 <= vT <= 84200000)%R).
  { set (p := (vu * vk)%R) in *.
    assert (Hp : (379 <= p <= 1682)%R) by (unfold p; split; nra).
    set (Q := (IZR (area_m2 scn) * p)%R) in *.
    assert (HQ : (500 * 379 <= Q <= 50000 * 1682)%R) by (unfold Q; split; nra).
    lra. }
  destruct (shares_round_off _ vT PT HT) as [Hsum Hrnd].
  destruct (locals_at_total scn ucb u c k A) as (Ltot & Lsh & _).
  exists (locals_at scn ucb u c k A). eexists.
  split; [exact Hrun|]. split.
  { unfold compute_simulation. rewrite Hrun. cbn [bind]. rewrite returned_ok. reflexivity. }
  cbn [total_cost cost_buckets]. rewrite Ltot, Lsh.
  split; [reflexivity|]. split; [reflexivity|]. split; [reflexivity|].
  split; [exact Hsum | exact Hrnd].
Qed.

Lemma buckets_sum_within_two_witness :
  valid_scenario (with_area scn_warehouse_steel 500) /\
  exists est,
    compute_simulation (with_area scn_warehouse_steel 500) = Ok est /\
    -2 <= bucket_sum (cost_buckets est) - int_of_float (total_cost est) <= 2.
Proof.
  assert (Hv : valid_scenario (with_area scn_warehouse_steel 500)).
  { unfold valid_scenario, scn_warehouse_steel; cbn. repeat split; auto; lia. }
  split; [exact Hv|].
  destruct (buckets_sum_within_two _ Hv) as (l & est & _ & Hc & _ & _ & _ & _ & Hb).
  exists est. split; assumption.
Defined.

Lemma is_pos_fun (f : float) (v w : R) : is_pos f v -> is_pos f w -> v = w.
Proof.
  intros (m & e & H & <-) (m' & e' & H' & <-). rewrite H in H'. injection H' as <- <-.
  reflexivity.
Qed.

Lemma scaled_le_spec (num den : Z) (x y : float) :
  scaled_le num den x y = true ->
  exists vx vy, is_pos x vx /\ is_pos y vy /\ (vx * IZR num <= vy * IZR den)%R.
Proof.
  unfold scaled_le.
  destruct (Prim2SF x) as [| | |sx mx ex] eqn:Hx; try discriminate.
  destruct sx; try discriminate.
  destruct (Prim2SF y) as [| | |sy my ey] eqn:Hy; try discriminate.
  destruct sy; try discriminate.
  cbv zeta. set (e := Z.min ex ey). intros H. apply Z.leb_le in H.
  exists (F2R (Zpos mx) ex), (F2R (Zpos my) ey).
  split; [exists mx, ex; split; [exact Hx | reflexivity]|].
  split; [exists my, ey; split; [exact Hy | reflexivity]|].
  rewrite <- (F2R_shift (Zpos mx) ex e), <- (F2R_shift (Zpos my) ey e) by (unfold e; lia).
  unfold F2R. apply IZR_le in H. rewrite !mult_IZR in H. rewrite !mult_IZR.
  pose proof (bpow_pos e). nra.
Qed.

Lemma scaled_le_refl (lo hi : Z) (x : float) :
  pos_between lo hi x = true -> scaled_le 1 1 x x = true.
Proof.
  unfold pos_between, scaled_le.
  destruct (Prim2SF x) as [| | |s m e]; try discriminate.
  destruct s; [discriminate|]. intros _. cbv zeta. apply Z.leb_refl.
Qed.

(** ** The quotient of two integers below [2^53] *)

Lemma SFdiv_int_R (k c : positive) :
  Zpos k < 2 ^ 53 -> Zpos c < 2 ^ 53 ->
  exists m' e',
    SFdiv prec emax (S754_finite false k 0) (S754_finite false c 0) = S754_finite false m' e' /\
    SpecFloat.bounded prec emax m' e' = true /\
    (Rabs (F2R (Zpos m') e' - IZR (Zpos k) / IZR (Zpos c))
     <= IZR (Zpos k) / IZR (Zpos c) * bpow (-53))%R.
Proof.
  intros Hk Hc.
  pose proof (digits2_pos_bounds k) as [Lk Uk].
  pose proof (digits2_pos_bounds c) as [Lc Uc].
  set (d1 := Zpos (digits2_pos k)) in *. set (d2 := Zpos (digits2_pos c)) in *.
  assert (Hd1 : 1 <= d1 <= 53).
  { assert (d1 - 1 < 53) by (apply pow2_lt_inv; lia). unfold d1 in *. lia. }
  assert (Hd2 : 1 <= d2 <= 53).
  { assert (d2 - 1 < 53) by (apply pow2_lt_inv; lia). unfold d2 in *. lia. }
  set (s := 53 + d2 - d1).
  set (N := Zpos k * 2 ^ s).
  assert (Hcore : SFdiv_core_binary prec emax (Zpos k) 0 (Zpos c) 0
                  = (N / Zpos c, - s, new_location (Zpos c) (N mod Zpos c))).
  { unfold SFdiv_core_binary. cbn [Zdigits2]. fold d1 d2.
    replace (d1 + 0 - (d2 + 0)) with (d1 - d2) by lia.
    rewrite fexp_normal by lia.
    change (IntDef.Z.min (d1 - d2 - 53) (0 - 0)) with (Z.min (d1 - d2 - 53) (0 - 0)).
    replace (Z.min (d1 - d2 - 53) (0 - 0)) with (- s) by (unfold s; lia).
    replace (0 - 0 - - s) with s by lia.
    destruct s as [|sp|sp] eqn:Es; try (unfold s in Es; lia).
    change (IntDef.Z.shiftl (Zpos k) (Zpos sp)) with (Z.shiftl (Zpos k) (Zpos sp)).
    rewrite Z.shiftl_mul_pow2 by lia. fold N.
    change (IntDef.Z.div_eucl N (Zpos c)) with (Z.div_eucl N (Zpos c)).
    unfold Z.div, Z.modulo. destruct (Z.div_eucl N (Zpos c)). reflexivity. }
  pose proof (Z.div_mod N (Zpos c) ltac:(lia)) as Hdm.
  pose proof (Z.mod_pos_bound N (Zpos c) ltac:(lia)) as Hmod.
  set (q := N / Zpos c) in *. set (r := N mod Zpos c) in *.
  assert (HNlo : 2 ^ 52 * 2 ^ d2 <= N).
  { unfold N. replace (2 ^ 52 * 2 ^ d2) with (2 ^ (d1 - 1) * 2 ^ s).
    - apply Z.mul_le_mono_nonneg_r; [apply Z.pow_nonneg; lia | exact Lk].
    - rewrite <- !Z.pow_add_r by (unfold s; lia). f_equal. unfold s. lia. }
  assert (HNhi : N < 2 ^ 54 * 2 ^ (d2 - 1)).
  { unfold N. replace (2 ^ 54 * 2 ^ (d2 - 1)) with (2 ^ d1 * 2 ^ s).
    - apply Z.mul_lt_mono_pos_r; [apply Z.pow_pos_nonneg; unfold s; lia | exact Uk].
    - rewrite <- !Z.pow_add_r by (unfold s; lia). f_equal. unfold s. lia. }
  assert (Hq : 2 ^ 52 <= q < 2 ^ 54).
  { change (2 ^ 52) with 4503599627370496 in *. change (2 ^ 54) with 18014398509481984 in *.
    set (P := 2 ^ d2) in *. set (Ph := 2 ^ (d2 - 1)) in *.
    split; nia. }
  destruct q as [|qp|qp] eqn:Eq; try lia.
  assert (Dq : 53 <= Zpos (digits2_pos qp) <= 54).
  { pose proof (digits2_pos_bounds qp) as [Lq Uq].
    assert (52 < Zpos (digits2_pos qp)) by (apply pow2_lt_inv; lia).
    assert (Zpos (digits2_pos qp) - 1 < 54) by (apply pow2_lt_inv; lia).
    lia. }
  destruct (binary_round_aux_loc_R false qp (- s) (Zpos c) r)
    as (m' & e' & Hbra & Hb & Herr); try lia; try (unfold s; lia).
  assert (Hval : ((IZR (Zpos qp) + IZR r / IZR (Zpos c)) * bpow (- s)
                  = IZR (Zpos k) / IZR (Zpos c))%R).
  { assert (HcR : (0 < IZR (Zpos c))%R) by (apply IZR_lt; lia).
    assert (E1 : (IZR (Zpos qp) + IZR r / IZR (Zpos c)
                  = IZR (Zpos k) * bpow s / IZR (Zpos c))%R).
    { rewrite bpow_IZR, <- mult_IZR by (unfold s; lia). fold N.
      rewrite Hdm, plus_IZR, mult_IZR. field. lra. }
    rewrite E1, bpow_opp. pose proof (bpow_pos s). field. split; lra. }
  rewrite Hval in Herr.
  exists m', e'. split; [|split; [exact Hb | exact Herr]].
  unfold SFdiv. rewrite Hcore. exact Hbra.
Qed.

(** The double nearest to [k / 100]. *)
Lemma decimal2_pos (k : positive) :
  Zpos k < 2 ^ 53 ->
  exists v, is_pos (Py.decimal false k 2) v /\
            (Rabs (v - IZR (Zpos k) / 100) <= IZR (Zpos k) / 100 * bpow (-53))%R.
Proof.
  intros Hk.
  destruct (SFdiv_int_R k 100 Hk ltac:(change (2 ^ 53) with 9007199254740992; lia))
    as (m' & e' & Hd & Hb & Herr).
  exists (F2R (Zpos m') e'). split; [|exact Herr].
  unfold Py.decimal. change (Z.to_pos (10 ^ 2)) with 100%positive.
  apply is_pos_of_SF; assumption.
Qed.

Lemma rounded_total_lt (A1 A2 u1 u2 k1 k2 : float) (a1 a2 : Z) (vu1 vu2 vk1 vk2 : R) :
  is_pos A1 (IZR a1) -> is_pos A2 (IZR a2) ->
  500 <= a1 -> a1 <= a2 -> a2 <= 50000 ->
  is_pos u1 vu1 -> (379 <= vu1 <= 841)%R ->
  is_pos u2 vu2 -> (379 <= vu2 <= 841)%R ->
  is_pos k1 vk1 -> (1 <= vk1 <= 2)%R ->
  is_pos k2 vk2 -> (1 <= vk2 <= 2)%R ->
  (vu1 * vk1 * 251 <= vu2 * vk2 * 250)%R ->
  (Py.round (A1 * u1 * k1) 0 <? Py.round (A2 * u2 * k2) 0)%float = true.
Proof.
  intros P1 P2 H1 H12 H2 Pu1 Hu1 Pu2 Hu2 Pk1 Hk1 Pk2 Hk2 Hgap.
  destruct (total_value A1 u1 k1 a1 vu1 vk1 P1 ltac:(lia) Pu1 Hu1 Pk1 Hk1) as (vT1 & PT1 & B1).
  destruct (total_value A2 u2 k2 a2 vu2 vk2 P2 ltac:(lia) Pu2 Hu2 Pk2 Hk2) as (vT2 & PT2 & B2).
  rewrite bpow_m53 in *.
  assert (Ha1 : (500 <= IZR a1 <= 50000)%R) by (split; apply IZR_le; lia).
  assert (Ha2 : (500 <= IZR a2 <= 50000)%R) by (split; apply IZR_le; lia).
  assert (Hstep : (IZR a1 <= IZR a2)%R) by (apply IZR_le; lia).
  set (p1 := (vu1 * vk1)%R) in *. set (p2 := (vu2 * vk2)%R) in *.
  assert (Hp1 : (379 <= p1 <= 1682)%R) by (unfold p1; split; nra).
  assert (Hp2 : (379 <= p2 <= 1682)%R) by (unfold p2; split; nra).
  set (Q1 := (IZR a1 * p1)%R) in *. set (Q2 := (IZR a2 * p2)%R) in *.
  assert (HQ1 : (500 * 379 <= Q1 <= 50000 * 1682)%R) by (unfold Q1; split; nra).
  assert (HQ2 : (500 * 379 <= Q2 <= 50000 * 1682)%R) by (unfold Q2; split; nra).
  assert (Hg : (Q1 * 251 <= Q2 * 250)%R) by (unfold Q1, Q2; nra).
  assert (HT1 : (189000 <= vT1 <= 84200000)%R) by lra.
  assert (HT2 : (189000 <= vT2 <= 84200000)%R) by lra.
  assert (Hd : (vT1 + 700 <= vT2)%R) by lra.
  destruct (round0_pos _ vT1 PT1) as (z1 & Z1 & R1 & E1); try lra.
  { rewrite bpow_52. lra. }
  destruct (round0_pos _ vT2 PT2) as (z2 & Z2 & R2 & E2); try lra.
  { rewrite bpow_52. lra. }
  apply Rabs_le_inv in E1, E2.
  apply (ltb_pos _ _ (IZR z1) (IZR z2) R1 R2); try (apply window_intro; lra).
  lra.
Qed.

Lemma unit_cost_lt (A1 A2 u1 u2 k1 k2 : float) (a1 a2 : Z) (vu1 vu2 vk1 vk2 : R) :
  is_pos A1 (IZR a1) -> is_pos A2 (IZR a2) ->
  500 <= a1 <= 50000 -> 500 <= a2 <= 50000 ->
  is_pos u1 vu1 -> (379 <= vu1 <= 841)%R ->
  is_pos u2 vu2 -> (379 <= vu2 <= 841)%R ->
  is_pos k1 vk1 -> (1 <= vk1 <= 2)%R ->
  is_pos k2 vk2 -> (1 <= vk2 <= 2)%R ->
  (vu1 * vk1 * 251 <= vu2 * vk2 * 250)%R ->
  (Py.round (A1 * u1 * k1 / A1) 2 <? Py.round (A2 * u2 * k2 / A2) 2)%float = true.
Proof.
  intros P1 P2 H1 H2 Pu1 Hu1 Pu2 Hu2 Pk1 Hk1 Pk2 Hk2 Hgap.
  destruct (unit_cost_value A1 u1 k1 a1 vu1 vk1 P1 H1 Pu1 Hu1 Pk1 Hk1) as (q1 & Pq1 & B1).
  destruct (unit_cost_value A2 u2 k2 a2 vu2 vk2 P2 H2 Pu2 Hu2 Pk2 Hk2) as (q2 & Pq2 & B2).
  rewrite bpow_m53 in *.
  set (p1 := (vu1 * vk1)%R) in *. set (p2 := (vu2 * vk2)%R) in *.
  assert (Hp1 : (379 <= p1 <= 1682)%R) by (unfold p1; split; nra).
  assert (Hp2 : (379 <= p2 <= 1682)%R) by (unfold p2; split; nra).
  destruct (round2_cents _ q1 Pq1) as (c1 & R1 & E1); [lra|].
  destruct (round2_cents _ q2 Pq2) as (c2 & R2 & E2); [lra|].
  apply Rabs_le_inv in E1, E2.
  assert (Hq1 : (378 <= q1 <= 1683)%R) by lra.
  assert (Hq2 : (378 <= q2 <= 1683)%R) by lra.
  assert (Hc1 : Zpos c1 < 2 ^ 53).
  { apply lt_IZR. change (2 ^ 53) with 9007199254740992. lra. }
  assert (Hc2 : Zpos c2 < 2 ^ 53).
  { apply lt_IZR. change (2 ^ 53) with 9007199254740992. lra. }
  destruct (decimal2_pos c1 Hc1) as (v1 & Pv1 & D1).
  destruct (decimal2_pos c2 Hc2) as (v2 & Pv2 & D2).
  rewrite bpow_m53 in *. apply Rabs_le_inv in D1, D2.
  rewrite R1, R2.
  apply (ltb_pos _ _ v1 v2 Pv1 Pv2); try (apply window_intro; lra).
  lra.
Qed.

Lemma prices_monotone_true :
  forallb (fun x => forallb (pair_ok x) summaries) summaries = true.
Proof. vm_compute. reflexivity. Qed.

Lemma all_opts_complete (o : Opts) : In o all_opts.
Proof. destruct o as [[] [] []]; cbn; tauto. Qed.

Lemma In_all_choices (pt ss env q reg : string) (o : Opts) :
  In pt PROJECT_TYPES -> In ss STRUCTURAL_SYSTEMS -> In env ENVELOPES ->
  In q QUALITIES -> In reg REGIONS ->
  In (choice_of pt ss env q reg o) all_choices.
Proof.
  intros Hpt Hss Henv Hq Hreg. unfold all_choices.
  apply in_flat_map. exists pt. split; [exact Hpt|].
  apply in_flat_map. exists ss. split; [exact Hss|].
  apply in_flat_map. exists env. split; [exact Henv|].
  apply in_flat_map. exists q. split; [exact Hq|].
  apply in_flat_map. exists reg. split; [exact Hreg|].
  apply in_map. apply all_opts_complete.
Qed.

Lemma summary_in (scn : Scenario) :
  valid_scenario scn -> In (summary scn) summaries.
Proof.
  intros (Hpt & Hss & Henv & Hq & Hreg & _ & _).
  change (summary scn)
    with (summary (choice_of (project_type scn) (structural_system scn) (envelope scn)
                             (quality scn) (region scn) (opts scn))).
  unfold summaries. apply in_map. apply In_all_choices; assumption.
Qed.

Lemma summary_some (scn : Scenario) (b : Z) (r e q : float) (o : Opts) (u : float) :
  summary scn = Some (b, r, e, q, o, u) ->
  drivers scn = Ok (b, r, e, q) /\ o = opts scn /\ price scn = Ok u.
Proof.
  unfold summary. destruct (drivers scn) as [[[[b' r'] e'] q']|]; [|discriminate].
  destruct (price scn) as [u'|]; [|discriminate].
  intros H. injection H as <- <- <- <- <- <-. repeat split.
Qed.

(** The unit prices of two valid scenarios whose drivers are ordered. *)
Lemma price_monotone (s1 s2 : Scenario) :
  valid_scenario s1 -> valid_scenario s2 -> drivers_le s1 s2 = true ->
  exists u1 u2,
    price s1 = Ok u1 /\ price s2 = Ok u2 /\ scaled_le 1 1 u1 u2 = true /\
    (drivers_le s2 s1 = false -> scaled_le 251 250 u1 u2 = true).
Proof.
  intros Hv1 Hv2 Hle.
  pose proof (proj1 (forallb_forall _ _) prices_monotone_true _ (summary_in s1 Hv1)) as H1.
  cbv beta in H1.
  pose proof (proj1 (forallb_forall _ _) H1 _ (summary_in s2 Hv2)) as H2.
  clear H1. unfold pair_ok in H2.
  destruct (summary s1) as [[[[[[b1 r1] e1] q1] o1] u1]|] eqn:S1; [|discriminate].
  destruct (summary s2) as [[[[[[b2 r2] e2] q2] o2] u2]|] eqn:S2; [|discriminate].
  destruct (summary_some _ _ _ _ _ _ _ S1) as (D1 & -> & P1).
  destruct (summary_some _ _ _ _ _ _ _ S2) as (D2 & -> & P2).
  assert (E12 : drivers_le s1 s2
                = summary_le (b1, r1, e1, q1, opts s1, u1) (b2, r2, e2, q2, opts s2, u2)).
  { unfold drivers_le. rewrite D1, D2. reflexivity. }
  assert (E21 : drivers_le s2 s1
                = summary_le (b2, r2, e2, q2, opts s2, u2) (b1, r1, e1, q1, opts s1, u1)).
  { unfold drivers_le. rewrite D1, D2. reflexivity. }
  rewrite <- E12, Hle in H2. unfold summary_price_le in H2. rewrite <- E21 in H2.
  apply andb_prop in H2. destruct H2 as [Hle1 Hgap].
  exists u1, u2. split; [exact P1|]. split; [exact P2|]. split; [exact Hle1|].
  intros Hne. rewrite Hne in Hgap. exact Hgap.
Qed.

Lemma factor_monotone (n1 n2 : Z) :
  0 <= n1 -> n1 <= n2 -> n2 <= 7 -> factor_le n1 n2 = true.
Proof.
  intros H0 H12 H7.
  assert (C1 : n1 = 0 \/ n1 = 1 \/ n1 = 2 \/ n1 = 3 \/ n1 = 4 \/ n1 = 5 \/ n1 = 6 \/ n1 = 7) by lia.
  assert (C2 : n2 = 0 \/ n2 = 1 \/ n2 = 2 \/ n2 = 3 \/ n2 = 4 \/ n2 = 5 \/ n2 = 6 \/ n2 = 7) by lia.
  repeat (destruct C1 as [-> | C1]);
    repeat (destruct C2 as [-> | C2]); subst; try lia; vm_compute; reflexivity.
Qed.

Lemma price_of_run (scn : Scenario) (ucb u : float) :
  unit_cost_base scn = Ok ucb -> Py.add_int ucb (adders (opts scn)) = Ok u ->
  price scn = Ok u.
Proof. intros H1 H2. unfold price. rewrite H1. exact H2. Qed.

Lemma factor_of_run (n : Z) (c k : float) :
  contingency n = Ok c -> Py.int_add 1 c = Ok k -> factor n = Ok k.
Proof. intros H1 H2. unfold factor. rewrite H1. exact H2. Qed.

(** Two valid scenarios, the second with no smaller area, unit price and
    factor, and with a unit price or factor at least 0.4 percent higher: the
    second has the strictly larger total cost and unit cost. *)
Lemma dearer (s1 s2 : Scenario) (u1 u2 k1 k2 : float) :
  valid_scenario s1 -> valid_scenario s2 ->
  area_m2 s1 <= area_m2 s2 ->
  price s1 = Ok u1 -> price s2 = Ok u2 ->
  factor (unchecked (checklist s1)) = Ok k1 ->
  factor (unchecked (checklist s2)) = Ok k2 ->
  scaled_le 1 1 u1 u2 = true -> scaled_le 1 1 k1 k2 = true ->
  scaled_le 251 250 u1 u2 = true \/ scaled_le 251 250 k1 k2 = true ->
  exists e1 e2 c1 c2,
    compute_simulation s1 = Ok e1 /\ compute_simulation s2 = Ok e2 /\
    (total_cost e1 <? total_cost e2)%float = true /\
    unit_cost e1 = PyFloat c1 /\ unit_cost e2 = PyFloat c2 /\
    (c1 <? c2)%float = true.
Proof.
  intros Hv1 Hv2 Ha Hp1 Hp2 Hf1 Hf2 Hule Hkle Hgap.
  destruct (run_valid _ Hv1) as (ucb1 & u1' & c1 & k1' & A1 & Hucb1 & Hu1 & Hc1 & Hk1 & HA1 & Bu1 & Bk1 & PA1 & Hrun1).
  destruct (run_valid _ Hv2) as (ucb2 & u2' & c2 & k2' & A2 & Hucb2 & Hu2 & Hc2 & Hk2 & HA2 & Bu2 & Bk2 & PA2 & Hrun2).
  rewrite (price_of_run _ _ _ Hucb1 Hu1) in Hp1. injection Hp1 as ->.
  rewrite (price_of_run _ _ _ Hucb2 Hu2) in Hp2. injection Hp2 as ->.
  rewrite (factor_of_run _ _ _ Hc1 Hk1) in Hf1. injection Hf1 as ->.
  rewrite (factor_of_run _ _ _ Hc2 Hk2) in Hf2. injection Hf2 as ->.
  destruct (pos_between_spec _ _ _ Bu1) as (vu1 & Pu1 & Ru1).
  destruct (pos_between_spec _ _ _ Bu2) as (vu2 & Pu2 & Ru2).
  destruct (pos_between_spec _ _ _ Bk1) as (vk1 & Pk1 & Rk1).
  destruct (pos_between_spec _ _ _ Bk2) as (vk2 & Pk2 & Rk2).
  destruct (scaled_le_spec _ _ _ _ Hule) as (x & y & Px & Py & Hxy).
  rewrite (is_pos_fun _ _ _ Px Pu1), (is_pos_fun _ _ _ Py Pu2) in Hxy. clear x y Px Py.
  destruct (scaled_le_spec _ _ _ _ Hkle) as (x & y & Px & Py & Hkxy).
  rewrite (is_pos_fun _ _ _ Px Pk1), (is_pos_fun _ _ _ Py Pk2) in Hkxy. clear x y Px Py.
  assert (Hg : (vu1 * vk1 * 251 <= vu2 * vk2 * 250)%R).
  { destruct Hgap as [Hg | Hg];
      destruct (scaled_le_spec _ _ _ _ Hg) as (x & y & Px & Py & Hgxy).
    - rewrite (is_pos_fun _ _ _ Px Pu1), (is_pos_fun _ _ _ Py Pu2) in Hgxy. nra.
    - rewrite (is_pos_fun _ _ _ Px Pk1), (is_pos_fun _ _ _ Py Pk2) in Hgxy. nra. }
  destruct Hv1 as (_ & _ & _ & _ & _ & Ha1 & _).
  destruct Hv2 as (_ & _ & _ & _ & _ & Ha2 & _).
  eexists. eexists. exists (Py.round (A1 * u1 * k1 / A1) 2), (Py.round (A2 * u2 * k2 / A2) 2).
  split. { unfold compute_simulation. rewrite Hrun1. cbn [bind]. rewrite returned_ok. reflexivity. }
  split. { unfold compute_simulation. rewrite Hrun2. cbn [bind]. rewrite returned_ok. reflexivity. }
  cbn [total_cost unit_cost].
  rewrite (proj1 (locals_at_total s1 ucb1 u1 c1 k1 A1)), (proj1 (locals_at_total s2 ucb2 u2 c2 k2 A2)).
  split.
  { apply (rounded_total_lt A1 A2 u1 u2 k1 k2 (area_m2 s1) (area_m2 s2) vu1 vu2 vk1 vk2);
      try assumption; lia. }
  assert (U1 : l_unit_cost_total (locals_at s1 ucb1 u1 c1 k1 A1)
               = PyFloat (A1 * u1 * k1 / A1)%float).
  { unfold locals_at. destruct (quantities_at _ A1) as [[[? ?] ?] ?].
    cbn [l_unit_cost_total]. destruct (Z.eqb_spec (area_m2 s1) 0); [lia | reflexivity]. }
  assert (U2 : l_unit_cost_total (locals_at s2 ucb2 u2 c2 k2 A2)
               = PyFloat (A2 * u2 * k2 / A2)%float).
  { unfold locals_at. destruct (quantities_at _ A2) as [[[? ?] ?] ?].
    cbn [l_unit_cost_total]. destruct (Z.eqb_spec (area_m2 s2) 0); [lia | reflexivity]. }
  rewrite U1, U2. cbn [Py.round_num].
  split; [reflexivity|]. split; [reflexivity|].
  apply (unit_cost_lt A1 A2 u1 u2 k1 k2 (area_m2 s1) (area_m2 s2) vu1 vu2 vk1 vk2);
    assumption.
Qed.

(** The estimate is strictly monotone in its cost drivers.  Of two valid
    scenarios, let the second have no smaller area, base cost, region,
    envelope and quality multipliers, no fewer options and no fewer
    unchecked items, and let it differ from the first in a driver or have
    more unchecked items: then its total cost and its unit cost are strictly
    larger. *)
Theorem cost_monotone (s1 s2 : Scenario) :
  valid_scenario s1 -> valid_scenario s2 ->
  area_m2 s1 <= area_m2 s2 ->
  drivers_le s1 s2 = true ->
  count_unchecked (checklist s1) <= count_unchecked (checklist s2) ->
  drivers_le s2 s1 = false \/ count_unchecked (checklist s1) < count_unchecked (checklist s2) ->
  exists e1 e2 c1 c2,
    compute_simulation s1 = Ok e1 /\ compute_simulation s2 = Ok e2 /\
    (total_cost e1 <? total_cost e2)%float = true /\
    unit_cost e1 = PyFloat c1 /\ unit_cost e2 = PyFloat c2 /\
    (c1 <? c2)%float = true.
Proof.
  intros Hv1 Hv2 Ha Hd Hn Hstrict.
  rewrite <- !unchecked_count in Hn, Hstrict.
  destruct (price_monotone s1 s2 Hv1 Hv2 Hd) as (u1 & u2 & Hp1 & Hp2 & Hule & Hugap).
  pose proof (valid_unchecked s1 Hv1) as Hn1.
  pose proof (valid_unchecked s2 Hv2) as Hn2.
  pose proof (factor_monotone _ _ (proj1 Hn1) Hn (proj2 Hn2)) as Hf.
  unfold factor_le in Hf.
  destruct (factor (unchecked (checklist s1))) as [k1|] eqn:Hf1; [|discriminate].
  destruct (factor (unchecked (checklist s2))) as [k2|] eqn:Hf2; [|discriminate].
  apply andb_prop in Hf. destruct Hf as [Hkle Hkgap].
  apply (dearer s1 s2 u1 u2 k1 k2); try assumption.
  destruct Hstrict as [Hs | Hs].
  - left. exact (Hugap Hs).
  - right. apply Z.ltb_lt in Hs. rewrite Hs in Hkgap. exact Hkgap.
Qed.

Lemma valid_with_quality (scn : Scenario) (q : string) :
  valid_scenario scn -> In q QUALITIES -> valid_scenario (with_quality scn q).
Proof.
  intros (Hpt & Hss & Henv & _ & Hreg & Ha & Hc) Hq.
  unfold valid_scenario. cbn [with_quality project_type structural_system envelope quality
                                region area_m2 checklist].
  repeat split; try assumption; lia.
Qed.

(** The drivers of a valid scenario rise with the quality. *)
Lemma drivers_quality (scn : Scenario) :
  valid_scenario scn ->
  drivers_le (with_quality scn "Basic") (with_quality scn "Standard") = true /\
  drivers_le (with_quality scn "Standard") (with_quality scn "Basic") = false /\
  drivers_le (with_quality scn "Standard") (with_quality scn "Premium") = true /\
  drivers_le (with_quality scn "Premium") (with_quality scn "Standard") = false.
Proof.
  destruct scn as [pj pt area ss env q reg o cl sent].
  unfold valid_scenario, PROJECT_TYPES, STRUCTURAL_SYSTEMS, ENVELOPES, QUALITIES, REGIONS.
  cbn [project_type structural_system envelope quality region In].
  intros (Hpt & Hss & Henv & _ & Hreg & _ & _).
  destruct o as [[] [] []];
  destruct Hpt as [<- | [<- | [<- | []]]];
  destruct Hss as [<- | [<- | []]];
  destruct Henv as [<- | [<- | []]];
  destruct Hreg as [<- | [<- | [<- | []]]];
  vm_compute; repeat split.
Qed.

Lemma PyFloat_inj (a b : float) : PyFloat a = PyFloat b -> a = b.
Proof.
  intros H.
  exact (f_equal (fun v => match v with PyFloat f => f | PyInt _ => a end) H).
Qed.

(** The line of [make_quality_line] rises: for every valid scenario the
    three unit costs, for Basic, Standard and Premium, are strictly
    increasing, and the unit cost of the scenario itself is one of them. *)
Theorem quality_line_increasing (scn : Scenario) (calc : Estimate) :
  valid_scenario scn ->
  exists c1 c2 c3,
    make_quality_line scn calc
    = Ok (["Basic"; "Standard"; "Premium"], [PyFloat c1; PyFloat c2; PyFloat c3]) /\
    (c1 <? c2)%float = true /\ (c2 <? c3)%float = true /\
    (forall est, compute_simulation scn = Ok est ->
                 In (unit_cost est) [PyFloat c1; PyFloat c2; PyFloat c3]).
Proof.
  intros Hv.
  assert (Hb : valid_scenario (with_quality scn "Basic"))
    by (apply valid_with_quality; [exact Hv | cbn; tauto]).
  assert (Hs : valid_scenario (with_quality scn "Standard"))
    by (apply valid_with_quality; [exact Hv | cbn; tauto]).
  assert (Hp : valid_scenario (with_quality scn "Premium"))
    by (apply valid_with_quality; [exact Hv | cbn; tauto]).
  destruct (drivers_quality scn Hv) as (L1 & S1 & L2 & S2).
  assert (Ha : area_m2 scn <= area_m2 scn) by lia.
  assert (Hn : count_unchecked (checklist scn) <= count_unchecked (checklist scn)) by lia.
  destruct (cost_monotone _ _ Hb Hs Ha L1 Hn (or_introl S1))
    as (e1 & e2 & c1 & c2 & E1 & E2 & _ & U1 & U2 & Lt12).
  destruct (cost_monotone _ _ Hs Hp Ha L2 Hn (or_introl S2))
    as (e2' & e3 & c2' & c3 & E2' & E3 & _ & U2' & U3 & Lt23).
  rewrite E2 in E2'. injection E2' as <-.
  rewrite U2 in U2'. apply PyFloat_inj in U2'. subst c2'.
  exists c1, c2, c3. split; [|split; [exact Lt12 | split; [exact Lt23|]]].
  - unfold make_quality_line. cbn [quality_loop]. rewrite E1. cbn [bind].
    rewrite E2. cbn [bind]. rewrite E3. cbn [bind app]. rewrite U1, U2, U3. reflexivity.
  - intros est Hest.
    assert (Hq : forall q, quality scn = q ->
                 compute_simulation (with_quality scn q) = Ok est).
    { intros q <-. rewrite <- Hest. apply compute_simulation_inputs; reflexivity. }
    destruct Hv as (_ & _ & _ & Hqs & _).
    destruct Hqs as [Q | [Q | [Q | []]]]; symmetry in Q; specialize (Hq _ Q).
    + rewrite E1 in Hq. injection Hq as <-. rewrite U1. left. reflexivity.
    + rewrite E2 in Hq. injection Hq as <-. rewrite U2. right. left. reflexivity.
    + rewrite E3 in Hq. injection Hq as <-. rewrite U3. right. right. left. reflexivity.
Qed.

Lemma quality_line_increasing_witness :
  valid_scenario scn_warehouse_steel /\
  exists c1 c2 c3,
    make_quality_line scn_warehouse_steel
      {| unit_cost := PyInt 0; total_cost := 0; contingency_pct := 0; steel_t := 0;
         concrete_m3 := 0; co2_tons := 0; lead_time_wks := 0;
         cost_buckets := {| Structure := 0; Envelope := 0; MEP := 0; Finishes := 0;
                            Contingency := 0 |};
         subtotal_no_cont := 0; adders_per_m2 := 0 |}
    = Ok (["Basic"; "Standard"; "Premium"], [PyFloat c1; PyFloat c2; PyFloat c3]) /\
    (c1 <? c2)%float = true /\ (c2 <? c3)%float = true.
Proof.
  split; [exact valid_warehouse_steel|].
  destruct (quality_line_increasing scn_warehouse_steel
              {| unit_cost := PyInt 0; total_cost := 0; contingency_pct := 0; steel_t := 0;
                 concrete_m3 := 0; co2_tons := 0; lead_time_wks := 0;
                 cost_buckets := {| Structure := 0; Envelope := 0; MEP := 0; Finishes := 0;
                                    Contingency := 0 |};
                 subtotal_no_cont := 0; adders_per_m2 := 0 |}
              valid_warehouse_steel) as (c1 & c2 & c3 & H & L1 & L2 & _).
  exists c1, c2, c3. repeat split; assumption.
Defined.

Lemma cost_monotone_witness :
  valid_scenario scn_warehouse_steel /\ valid_scenario scn_warehouse_premium /\
  drivers_le scn_warehouse_steel scn_warehouse_premium = true /\
  exists e1 e2,
    compute_simulation scn_warehouse_steel = Ok e1 /\
    compute_simulation scn_warehouse_premium = Ok e2 /\
    (total_cost e1 <? total_cost e2)%float = true.
Proof.
  assert (Hv : valid_scenario scn_warehouse_premium).
  { apply valid_with_quality; [exact valid_warehouse_steel | cbn; tauto]. }
  split; [exact valid_warehouse_steel|]. split; [exact Hv|].
  split; [vm_compute; reflexivity|].
  assert (Ha : area_m2 scn_warehouse_steel <= area_m2 scn_warehouse_premium)
    by (cbn; lia).
  assert (Hd : drivers_le scn_warehouse_steel scn_warehouse_premium = true)
    by (vm_compute; reflexivity).
  assert (Hn : count_unchecked (checklist scn_warehouse_steel)
               <= count_unchecked (checklist scn_warehouse_premium))
    by (vm_compute; discriminate).
  assert (Hs : drivers_le scn_warehouse_premium scn_warehouse_steel = false)
    by (vm_compute; reflexivity).
  destruct (cost_monotone scn_warehouse_steel scn_warehouse_premium
              valid_warehouse_steel Hv Ha Hd Hn (or_introl Hs))
    as (e1 & e2 & _ & _ & H1 & H2 & Ht & _).
  exists e1, e2. repeat split; assumption.
Defined.

(** [float(z)] succeeds below [2^1023] in magnitude. *)
Lemma float_of_int_ok (z : Z) :
  Z.abs z < 2 ^ 1023 -> exists f, Py.float_of_int z = Ok f.
Proof.
  intros Hz. unfold Py.float_of_int.
  destruct z as [|p|p]; cbn [binary_normalize].
  - eexists. reflexivity.
  - destruct (binary_round_R false p 0) as (m' & e' & Hr & _).
    { unfold F2R. change (bpow 0) with 1%R. rewrite Rmult_1_r. split.
      - apply Rle_trans with (bpow 0); [apply bpow_le; lia|].
        change (bpow 0) with 1%R. apply IZR_le. lia.
      - rewrite bpow_IZR by lia. apply IZR_lt. exact Hz. }
    rewrite Hr. eexists. reflexivity.
  - destruct (binary_round_R true p 0) as (m' & e' & Hr & _).
    { unfold F2R. change (bpow 0) with 1%R. rewrite Rmult_1_r. split.
      - apply Rle_trans with (bpow 0); [apply bpow_le; lia|].
        change (bpow 0) with 1%R. apply IZR_le. lia.
      - rewrite bpow_IZR by lia. apply IZR_lt. exact Hz. }
    rewrite Hr. eexists. reflexivity.
Qed.

Lemma base_table_bound (a b : string) (base : Z) :
  assoc2 base_table a b = Some base -> 420 <= base <= 560.
Proof.
  unfold base_table. cbn [assoc2].
  repeat match goal with
         | |- context [if ?c then _ else _] => destruct c
         end; intros H; inversion H; lia.
Qed.

(** With the four lookups found, the area and the number of unchecked items
    below [2^1023] in magnitude, [compute_simulation] returns. *)
Lemma lookups_return (scn : Scenario) :
  assoc2 base_table (project_type scn) (structural_system scn) <> None ->
  assoc region_table (region scn) <> None ->
  assoc envelope_table (envelope scn) <> None ->
  assoc quality_table (quality scn) <> None ->
  Z.abs (area_m2 scn) < 2 ^ 1023 ->
  unchecked (checklist scn) < 2 ^ 1023 ->
  exists est, compute_simulation scn = Ok est.
Proof.
  intros Hb Hr He Hq Ha Hu.
  assert (P : 0 < 2 ^ 1023) by (apply Z.pow_pos_nonneg; lia).
  assert (P10 : 2 ^ 10 <= 2 ^ 1023) by (apply Z.pow_le_mono_r; lia).
  change (2 ^ 10) with 1024 in P10.
  unfold compute_simulation, run, unit_cost_base, getitem2, getitem.
  destruct (assoc2 base_table (project_type scn) (structural_system scn)) as [base|] eqn:Eb;
    [|congruence].
  destruct (assoc region_table (region scn)) as [rm|]; [|congruence].
  destruct (assoc envelope_table (envelope scn)) as [em|]; [|congruence].
  destruct (assoc quality_table (quality scn)) as [qm|]; [|congruence].
  cbn [bind].
  pose proof (base_table_bound _ _ _ Eb) as Bb.
  destruct (float_of_int_ok base ltac:(lia)) as (fb & Hfb).
  unfold Py.int_mul at 1. rewrite Hfb. cbn [bind].
  pose proof (unchecked_bounds (checklist scn)) as Bu.
  destruct (float_of_int_ok (unchecked (checklist scn)) ltac:(lia)) as (fu & Hfu).
  unfold contingency, Py.int_mul at 1. rewrite Hfu. cbn [bind].
  assert (Bad : 0 <= adders (opts scn) <= 113).
  { unfold adders. destruct (opts scn) as [[] [] []]; cbn; lia. }
  destruct (float_of_int_ok (adders (opts scn)) ltac:(lia)) as (fa & Hfa).
  unfold Py.add_int. rewrite Hfa. cbn [bind].
  destruct (float_of_int_ok (area_m2 scn) Ha) as (A & HA).
  unfold Py.int_mul at 1. rewrite HA. cbn [bind].
  destruct (float_of_int_ok 1 ltac:(lia)) as (f1 & Hf1).
  unfold Py.int_add. rewrite Hf1. cbn [bind].
  rewrite (quantities_ok scn A HA). cbn [bind].
  destruct (quantities_at scn A) as [[[steel conc] co2] weeks].
  rewrite (unit_cost_total_ok _ A _ HA). cbn [bind].
  rewrite returned_ok. eexists. reflexivity.
Qed.

(** The errors of [compute_simulation]: the [KeyError] of the first lookup
    that misses, in the order base cost, region, envelope, quality, each with
    the key that was looked up; with all four found, only an [OverflowError],
    and only when the area or the number of unchecked items is beyond the
    range of a float.  There is no [ZeroDivisionError]. *)
Theorem errors_classified (scn : Scenario) (e : exn) :
  compute_simulation scn = Raise e ->
  (assoc2 base_table (project_type scn) (structural_system scn) = None /\
   e = KeyError (KPair (project_type scn) (structural_system scn))) \/
  (assoc2 base_table (project_type scn) (structural_system scn) <> None /\
   ((assoc region_table (region scn) = None /\ e = KeyError (KStr (region scn))) \/
    (assoc region_table (region scn) <> None /\
     ((assoc envelope_table (envelope scn) = None /\
       e = KeyError (KStr (envelope scn))) \/
      (assoc envelope_table (envelope scn) <> None /\
       ((assoc quality_table (quality scn) = None /\
         e = KeyError (KStr (quality scn))) \/
        (assoc quality_table (quality scn) <> None /\
         e = OverflowError /\
         (2 ^ 1023 <= Z.abs (area_m2 scn) \/
          2 ^ 1023 <= count_unchecked (checklist scn))))))))).
Proof.
  intros Hraise.
  destruct (assoc2 base_table (project_type scn) (structural_system scn)) as [base|] eqn:Eb.
  2:{ left. split; [reflexivity|].
      unfold compute_simulation, run, unit_cost_base, getitem2 in Hraise.
      rewrite Eb in Hraise. cbn [bind] in Hraise. congruence. }
  right. split; [discriminate|].
  destruct (assoc region_table (region scn)) as [rm|] eqn:Er.
  2:{ left. split; [reflexivity|].
      unfold compute_simulation, run, unit_cost_base, getitem2, getitem in Hraise.
      rewrite Eb, Er in Hraise. cbn [bind] in Hraise. congruence. }
  right. split; [discriminate|].
  destruct (assoc envelope_table (envelope scn)) as [em|] eqn:Ee.
  2:{ left. split; [reflexivity|].
      unfold compute_simulation, run, unit_cost_base, getitem2, getitem in Hraise.
      rewrite Eb, Er, Ee in Hraise. cbn [bind] in Hraise. congruence. }
  right. split; [discriminate|].
  destruct (assoc quality_table (quality scn)) as [qm|] eqn:Eq.
  2:{ left. split; [reflexivity|].
      unfold compute_simulation, run, unit_cost_base, getitem2, getitem in Hraise.
      rewrite Eb, Er, Ee, Eq in Hraise. cbn [bind] in Hraise. congruence. }
  right. split; [discriminate|].
  split.
  - unfold compute_simulation in Hraise.
    destruct (run scn) as [l|e0] eqn:Hrun; cbn [bind] in Hraise.
    { rewrite returned_ok in Hraise. discriminate. }
    injection Hraise as <-.
    unfold run in Hrun.
    destruct (unit_cost_base scn) as [ucb|e1] eqn:E0; cbn [bind] in Hrun.
    2:{ injection Hrun as <-.
        unfold unit_cost_base, getitem2, getitem in E0.
        rewrite Eb, Er, Ee, Eq in E0. cbn [bind] in E0.
        unfold Py.int_mul in E0.
        destruct (Py.float_of_int base) as [fb|e0] eqn:Hfb; cbn [bind] in E0;
          [discriminate|].
        apply float_of_int_raise in Hfb. congruence. }
    destruct (contingency (unchecked (checklist scn))) as [c|e1] eqn:E1; cbn [bind] in Hrun;
      [|apply contingency_raise in E1; congruence].
    destruct (Py.add_int ucb (adders (opts scn))) as [u|e2] eqn:E2; cbn [bind] in Hrun;
      [|apply (int_op_raise (fun x => (ucb + x)%float)) in E2; congruence].
    destruct (Py.int_mul (area_m2 scn) u) as [st|e3] eqn:E3; cbn [bind] in Hrun;
      [|apply (int_op_raise (fun x => (x * u)%float)) in E3; congruence].
    destruct (Py.int_add 1 c) as [k|e4] eqn:E4; cbn [bind] in Hrun;
      [|apply (int_op_raise (fun x => (x + c)%float)) in E4; congruence].
    destruct (quantities scn) as [[[[steel conc] co2] weeks]|e5] eqn:E5; cbn [bind] in Hrun;
      [|apply quantities_raise in E5; congruence].
    destruct (unit_cost_total (st * k) (area_m2 scn)) as [uct|e6] eqn:E6; cbn [bind] in Hrun;
      [discriminate|].
    apply unit_cost_total_raise in E6. congruence.
  - rewrite <- unchecked_count.
    destruct (Z_lt_le_dec (Z.abs (area_m2 scn)) (2 ^ 1023)) as [Ha | Ha]; [|left; exact Ha].
    destruct (Z_lt_le_dec (unchecked (checklist scn)) (2 ^ 1023)) as [Hu | Hu];
      [|right; exact Hu].
    exfalso.
    destruct (lookups_return scn) as [est Hest]; try assumption; try congruence.
Qed.

Lemma errors_classified_witness :
  compute_simulation scn_unknown_region = Raise (KeyError (KStr "East")) /\
  assoc2 base_table (project_type scn_unknown_region)
         (structural_system scn_unknown_region) <> None /\
  assoc region_table (region scn_unknown_region) = None.
Proof.
  assert (H : compute_simulation scn_unknown_region = Raise (KeyError (KStr "East")))
    by (vm_compute; reflexivity).
  split; [exact H|].
  destruct (errors_classified scn_unknown_region _ H) as [[Hb _] | [Hb [[Hr _] | [Hr _]]]].
  - vm_compute in Hb. discriminate.
  - split; assumption.
  - exfalso. apply Hr. reflexivity.
Defined.

(** [compute_simulation] returns for every choice of the form, whatever the
    area (zero and negative areas too) and whatever the checklist, within the
    range of a float; with a zero area the unit cost is the integer 0. *)
Theorem engine_total (scn : Scenario) :
  In (project_type scn) PROJECT_TYPES ->
  In (structural_system scn) STRUCTURAL_SYSTEMS ->
  In (envelope scn) ENVELOPES ->
  In (quality scn) QUALITIES ->
  In (region scn) REGIONS ->
  Z.abs (area_m2 scn) < 2 ^ 1023 ->
  count_unchecked (checklist scn) < 2 ^ 1023 ->
  exists est, compute_simulation scn = Ok est /\
              (area_m2 scn = 0 -> unit_cost est = PyInt 0).
Proof.
  intros Hpt Hss Henv Hq Hreg Ha Hu. rewrite <- unchecked_count in Hu.
  destruct (lookups_return scn) as [est Hest]; try assumption.
  - apply base_table_domain. split; assumption.
  - cbn in Hreg. destruct Hreg as [<- | [<- | [<- | []]]]; discriminate.
  - cbn in Henv. destruct Henv as [<- | [<- | []]]; discriminate.
  - cbn in Hq. destruct Hq as [<- | [<- | [<- | []]]]; discriminate.
  - exists est. split; [exact Hest|].
    intros H0. revert Hest. unfold compute_simulation, run.
    destruct (unit_cost_base scn) as [ucb|]; cbn [bind]; [|discriminate].
    destruct (contingency _) as [c|]; cbn [bind]; [|discriminate].
    destruct (Py.add_int _ _) as [u|]; cbn [bind]; [|discriminate].
    destruct (Py.int_mul _ _) as [st|]; cbn [bind]; [|discriminate].
    destruct (Py.int_add _ _) as [k|]; cbn [bind]; [|discriminate].
    destruct (quantities scn) as [[[[steel conc] co2] weeks]|]; cbn [bind]; [|discriminate].
    rewrite H0. unfold unit_cost_total. cbn [Z.eqb bind].
    rewrite returned_ok. intros E. injection E as <-. reflexivity.
Qed.

Lemma engine_total_witness :
  Z.abs (area_m2 scn_negative_area) < 2 ^ 1023 /\
  count_unchecked (checklist scn_negative_area) < 2 ^ 1023 /\
  exists est, compute_simulation scn_negative_area = Ok est.
Proof.
  assert (Ha : Z.abs (area_m2 scn_negative_area) < 2 ^ 1023) by (vm_compute; reflexivity).
  assert (Hu : count_unchecked (checklist scn_negative_area) < 2 ^ 1023)
    by (vm_compute; reflexivity).
  split; [exact Ha|]. split; [exact Hu|].
  assert (H1 : In (project_type scn_negative_area) PROJECT_TYPES) by (cbn; tauto).
  assert (H2 : In (structural_system scn_negative_area) STRUCTURAL_SYSTEMS) by (cbn; tauto).
  assert (H3 : In (envelope scn_negative_area) ENVELOPES) by (cbn; tauto).
  assert (H4 : In (quality scn_negative_area) QUALITIES) by (cbn; tauto).
  assert (H5 : In (region scn_negative_area) REGIONS) by (cbn; tauto).
  destruct (engine_total scn_negative_area H1 H2 H3 H4 H5 Ha Hu) as (est & Hest & _).
  exists est. exact Hest.
Defined.

Lemma assoc_setitem (ss : store) (k k' : string) (v : value) :
  assoc (setitem ss k v) k' = if String.eqb k' k then Some v else assoc ss k'.
Proof.
  induction ss as [|[k0 v0] ss IH]; cbn [setitem assoc].
  - reflexivity.
  - destruct (String.eqb_spec k k0) as [-> | Hne]; cbn [assoc].
    + destruct (String.eqb k' k0); reflexivity.
    + rewrite IH. destruct (String.eqb_spec k' k0) as [-> | Hne'].
      * destruct (String.eqb_spec k0 k) as [E | _]; [congruence | reflexivity].
      * reflexivity.
Qed.

Lemma set_missing_assoc (d : list (string * value)) (ss : store) (k : string) :
  assoc (set_missing d ss) k
  = match assoc ss k with
    | Some v => Some v
    | None => assoc d k
    end.
Proof.
  unfold set_missing. revert ss.
  induction d as [|[k0 v0] d IH]; intros ss; cbn [fold_left fst snd assoc].
  - destruct (assoc ss k); reflexivity.
  - rewrite IH. unfold contains.
    destruct (assoc ss k0) as [w|] eqn:E0.
    + destruct (assoc ss k) as [v|] eqn:Ek; [reflexivity|].
      destruct (String.eqb_spec k k0) as [-> | _]; [congruence | reflexivity].
    + rewrite assoc_setitem.
      destruct (String.eqb_spec k k0) as [-> | _].
      * rewrite E0. reflexivity.
      * reflexivity.
Qed.

Lemma set_missing_present (d : list (string * value)) (ss : store) :
  (forall k v, In (k, v) d -> contains ss k = true) -> set_missing d ss = ss.
Proof.
  unfold set_missing.
  induction d as [|[k0 v0] d IH]; intros H; cbn [fold_left fst snd].
  - reflexivity.
  - rewrite (H k0 v0) by (left; reflexivity).
    apply IH. intros k v Hin. apply (H k v). right. exact Hin.
Qed.

Lemma assoc_in {V} (tbl : list (string * V)) (k : string) (v : V) :
  In (k, v) tbl -> assoc tbl k <> None.
Proof.
  induction tbl as [|[k0 v0] tbl IH]; cbn [In assoc]; [tauto|].
  intros [E | Hin].
  - injection E as -> ->. rewrite String.eqb_refl. discriminate.
  - destruct (String.eqb k k0); [discriminate | exact (IH Hin)].
Qed.

(** [init_state] gives a key its default exactly when the key is missing,
    and leaves every other key as it is; a second call changes nothing. *)
Theorem init_state_fills (ss : store) :
  (forall k, assoc (init_state ss) k
             = match assoc ss k with
               | Some v => Some v
               | None => assoc defaults k
               end) /\
  init_state (init_state ss) = init_state ss.
Proof.
  split.
  - intros k. apply set_missing_assoc.
  - unfold init_state at 1. apply set_missing_present.
    intros k v Hin. unfold contains, init_state. rewrite set_missing_assoc.
    destruct (assoc ss k); [reflexivity|].
    destruct (assoc defaults k) eqn:E; [reflexivity|].
    exfalso. exact (assoc_in _ _ _ Hin E).
Qed.

Lemma filter_all {A} (f : A -> bool) (l : list A) :
  (forall x, In x l -> f x = true) -> filter f l = l.
Proof.
  induction l as [|a l IH]; intros H; cbn [filter]; [reflexivity|].
  rewrite (H a) by (left; reflexivity). f_equal. apply IH.
  intros x Hx. apply H. right. exact Hx.
Qed.

Lemma in_keys_filter (f : string * value -> bool) (ss : store) (k : string) :
  In k (map fst (filter f ss)) -> In k (map fst ss).
Proof.
  intros H. apply in_map_iff in H. destruct H as ((k0 & v0) & <- & Hin).
  apply filter_In in Hin. apply in_map. exact (proj1 Hin).
Qed.

Lemma NoDup_keys_filter (f : string * value -> bool) (ss : store) :
  NoDup (map fst ss) -> NoDup (map fst (filter f ss)).
Proof.
  induction ss as [|[k v] ss IH]; cbn [map filter fst]; intros H; [constructor|].
  inversion H as [|? ? Hnotin Hnd]; subst.
  destruct (f (k, v)); cbn [map fst].
  - constructor; [|exact (IH Hnd)].
    intros Hin. apply Hnotin. exact (in_keys_filter _ _ _ Hin).
  - exact (IH Hnd).
Qed.

(** Deleting a key of a dictionary removes its entry. *)
Lemma delitem_present (ss : store) (k : string) :
  NoDup (map fst ss) -> In k (map fst ss) ->
  delitem ss k = Ok (filter (fun kv => negb (String.eqb k (fst kv))) ss).
Proof.
  induction ss as [|[k0 v0] ss IH]; cbn [map fst In delitem filter]; intros Hnd Hin; [tauto|].
  inversion Hnd as [|? ? Hnotin Hnd']; subst.
  destruct (String.eqb_spec k k0) as [-> | Hne]; cbn [negb].
  - f_equal. symmetry. apply filter_all.
    intros [k1 v1] H1. cbn [fst].
    destruct (String.eqb_spec k0 k1) as [-> | _]; [|reflexivity].
    exfalso. apply Hnotin. apply (in_map fst) in H1. exact H1.
  - destruct Hin as [E | Hin]; [congruence|].
    rewrite (IH Hnd' Hin). reflexivity.
Qed.

Lemma delete_unkept_filter (ks : list string) (ss : store) :
  NoDup ks -> NoDup (map fst ss) ->
  (forall k, In k ks -> existsb (String.eqb k) keep = false -> In k (map fst ss)) ->
  delete_unkept ks ss
  = Ok (filter (fun kv => existsb (String.eqb (fst kv)) keep
                          || negb (existsb (String.eqb (fst kv)) ks)) ss).
Proof.
  revert ss.
  induction ks as [|k ks IH]; intros ss Hks Hss Hin; cbn [delete_unkept].
  - f_equal. symmetry. apply filter_all. intros kv _. cbn [existsb negb].
    apply orb_true_r.
  - inversion Hks as [|? ? Hk Hks']; subst.
    destruct (existsb (String.eqb k) keep) eqn:Kk.
    + rewrite (IH ss Hks' Hss) by (intros k' Hk'; apply Hin; right; exact Hk').
      f_equal. apply filter_ext. intros [k1 v1]. cbn [fst existsb].
      destruct (String.eqb_spec k1 k) as [-> | _]; [|reflexivity].
      rewrite Kk. reflexivity.
    + rewrite (delitem_present ss k Hss (Hin k (or_introl eq_refl) Kk)). cbn [bind].
      rewrite IH.
      * f_equal. clear - Kk.
        induction ss as [|[k1 v1] ss IH]; cbn [filter fst existsb]; [reflexivity|].
        destruct (String.eqb_spec k k1) as [<- | Hne]; cbn [negb].
        -- rewrite String.eqb_refl, Kk. cbn [orb negb]. exact IH.
        -- cbn [filter fst].
           destruct (String.eqb_spec k1 k) as [E | _]; [congruence|]. cbn [orb].
           rewrite IH. reflexivity.
      * exact Hks'.
      * apply NoDup_keys_filter. exact Hss.
      * intros k' Hk' Kk'.
        pose proof (Hin k' (or_intror Hk') Kk') as Hpresent.
        apply in_map_iff in Hpresent. destruct Hpresent as ((k2 & v2) & E & H2).
        cbn [fst] in E. subst k2.
        apply in_map_iff. exists (k', v2). split; [reflexivity|].
        apply filter_In. split; [exact H2|]. cbn [fst].
        destruct (String.eqb_spec k k') as [-> | _]; [contradiction | reflexivity].
Qed.

Lemma assoc_notin {V} (tbl : list (string * V)) (k : string) :
  ~ In k (map fst tbl) -> assoc tbl k = None.
Proof.
  induction tbl as [|[k0 v0] tbl IH]; cbn [map fst In assoc]; intros H; [reflexivity|].
  destruct (String.eqb_spec k k0) as [-> | _]; [tauto|].
  apply IH. tauto.
Qed.

Lemma kept_entries (ss : store) :
  NoDup (map fst ss) ->
  filter (fun kv => existsb (String.eqb (fst kv)) keep
                    || negb (existsb (String.eqb (fst kv)) (map fst ss))) ss
  = match assoc ss "dark_mode" with
    | Some v => [("dark_mode", v)]
    | None => []
    end.
Proof.
  intros Hnd.
  rewrite (filter_ext_in _ (fun kv => String.eqb (fst kv) "dark_mode")).
  2:{ intros [k v] Hin. cbn [fst keep existsb].
      replace (existsb (String.eqb k) (map fst ss)) with true.
      - cbn [negb]. rewrite !orb_false_r. reflexivity.
      - symmetry. apply existsb_exists. exists k. split; [|apply String.eqb_refl].
        apply (in_map fst) in Hin. exact Hin. }
  induction ss as [|[k0 v0] ss IH]; cbn [filter fst assoc]; [reflexivity|].
  inversion Hnd as [|? ? Hnotin Hnd']; subst.
  rewrite (String.eqb_sym "dark_mode" k0).
  destruct (String.eqb_spec k0 "dark_mode") as [-> | Hne].
  - rewrite (IH Hnd'), (assoc_notin ss "dark_mode" Hnotin). reflexivity.
  - exact (IH Hnd').
Qed.

(** [reset_all] on a dictionary: no deletion fails; afterwards the session
    holds the keys of [defaults] and no other, every one with its default
    value except [dark_mode], which keeps the value it had; the session reads
    as that of a first run; and a second reset changes nothing. *)
Theorem reset_all_restores (ss : store) :
  NoDup (map fst ss) ->
  exists ss',
    reset_all ss = Ok ss' /\
    ss' = match assoc ss "dark_mode" with
          | Some v => ("dark_mode", v) :: tl defaults
          | None => defaults
          end /\
    map fst ss' = map fst defaults /\
    (forall k, k <> "dark_mode" -> assoc ss' k = assoc defaults k) /\
    reset_all ss' = Ok ss' /\
    (forall b, assoc ss "dark_mode" = Some (VBool b) ->
               session_of ss' = Some (default_session b)).
Proof.
  intros Hnd. unfold reset_all.
  rewrite (delete_unkept_filter (map fst ss) ss Hnd Hnd)
    by (intros k Hk _; exact Hk).
  cbn [bind]. rewrite (kept_entries ss Hnd).
  destruct (assoc ss "dark_mode") as [v|].
  - eexists. split; [reflexivity|].
    split; [vm_compute; reflexivity|].
    split; [reflexivity|].
    split.
    { intros k Hk. vm_compute init_state. cbn [assoc defaults].
      destruct (String.eqb_spec k "dark_mode") as [E | _]; [contradiction | reflexivity]. }
    split; [vm_compute; reflexivity|].
    intros b E. injection E as ->. vm_compute. reflexivity.
  - eexists. split; [reflexivity|].
    split; [vm_compute; reflexivity|].
    split; [reflexivity|].
    split; [intros k _; reflexivity|].
    split; [vm_compute; reflexivity|].
    intros b E. discriminate.
Qed.

Lemma reset_all_restores_witness :
  NoDup (map fst store_in_use) /\
  exists ss',
    reset_all store_in_use = Ok ss' /\
    session_of ss' = Some (default_session true).
Proof.
  assert (Hnd : NoDup (map fst store_in_use)).
  { cbn [map fst store_in_use].
    repeat (constructor; [cbn [In]; intuition discriminate|]). constructor. }
  split; [exact Hnd|].
  destruct (reset_all_restores store_in_use Hnd) as (ss' & Hr & _ & _ & _ & _ & Hs).
  exists ss'. split; [exact Hr|]. apply Hs. reflexivity.
Defined.

(** [load_preset] writes its nine arguments and the pulse flag, and leaves
    the rest of the session (dark mode, project, sent flag and time stamp,
    checklist, share link) as it was. *)
Theorem load_preset_session (ss : store) (st : SessionState)
    (p_type : string) (area : Z) (structure envelope quality region : string)
    (skylights mezz hvac : bool) :
  session_of ss = Some st ->
  session_of (load_preset p_type area structure envelope quality region
                          skylights mezz hvac ss)
  = Some {| dark_mode := dark_mode st; ss_project := ss_project st;
            sent_flag := sent_flag st; last_sent_ts := last_sent_ts st;
            ss_project_type := p_type; built_area := area;
            ss_structural_system := structure; ss_envelope := envelope;
            ss_quality := quality; ss_region := region;
            opt_skylights := skylights; opt_mezzanine := mezz; opt_hvac := hvac;
            ss_checklist := ss_checklist st; pulse := true;
            fake_link := fake_link st; fake_qr := fake_qr st |}.
Proof.
  unfold session_of, load_preset, get_bool, get_int, get_str, get_checklist, get_opt_str.
  rewrite !assoc_setitem.
  cbn [String.eqb Ascii.eqb Bool.eqb andb].
  intros H.
  repeat match type of H with
         | context [match assoc ss ?k with _ => _ end] =>
             destruct (assoc ss k) as [[| | | | |]|]; try discriminate H
         end;
  injection H as <-; reflexivity.
Qed.

Lemma load_preset_session_witness :
  session_of store_in_use = Some session_in_use /\
  exists st',
    session_of (preset_retail_std store_in_use) = Some st' /\
    ss_project_type st' = "Retail" /\ built_area st' = 3000 /\
    ss_checklist st' = ss_checklist session_in_use /\
    sent_flag st' = true /\ pulse st' = true.
Proof.
  assert (H : session_of store_in_use = Some session_in_use) by (vm_compute; reflexivity).
  split; [exact H|].
  eexists. split.
  - exact (load_preset_session store_in_use session_in_use
             "Retail" 3000 "Steel" "Standard" "Standard" "South" true false true H).
  - repeat split.
Defined.

(** A preset with choices of the form and an area in the slider's range
    leaves a valid scenario. *)
Lemma load_preset_valid (ss : store) (st : SessionState)
    (p_type : string) (area : Z) (structure env qual reg : string)
    (skylights mezz hvac : bool) :
  session_of ss = Some st ->
  map fst (ss_checklist st) = CHECKLIST_ITEMS ->
  In p_type PROJECT_TYPES -> In structure STRUCTURAL_SYSTEMS ->
  In env ENVELOPES -> In qual QUALITIES -> In reg REGIONS ->
  500 <= area <= 50000 ->
  exists st' est,
    session_of (load_preset p_type area structure env qual reg
                            skylights mezz hvac ss) = Some st' /\
    ss_checklist st' = ss_checklist st /\
    sent_flag st' = sent_flag st /\
    valid_scenario (capture_scenario st') /\
    compute_simulation (capture_scenario st') = Ok est.
Proof.
  intros Hs Hc H1 H2 H3 H4 H5 H6.
  pose proof (load_preset_session ss st p_type area structure env qual reg
                skylights mezz hvac Hs) as H.
  match type of H with _ = Some ?r => set (st' := r) in * end.
  assert (Hv : valid_scenario (capture_scenario st')).
  { unfold valid_scenario, capture_scenario, st'.
    cbn [project_type structural_system envelope quality region area_m2
         checklist ss_project_type ss_structural_system ss_envelope ss_quality ss_region
         built_area ss_checklist].
    tauto. }
  destruct (valid_returns _ Hv) as [est Hest].
  exists st', est. split; [exact H|]. split; [reflexivity|]. split; [reflexivity|].
  split; [exact Hv | exact Hest].
Qed.

(** Each of the three preset buttons leaves a session whose scenario is
    valid, with the checklist and the sent flag it had, and for which the
    engine returns an estimate. *)
Theorem presets_valid (ss : store) (st : SessionState) (preset : store -> store) :
  session_of ss = Some st ->
  map fst (ss_checklist st) = CHECKLIST_ITEMS ->
  In preset [preset_basic_whse; preset_premium_office; preset_retail_std] ->
  exists st' est,
    session_of (preset ss) = Some st' /\
    ss_checklist st' = ss_checklist st /\
    sent_flag st' = sent_flag st /\
    valid_scenario (capture_scenario st') /\
    compute_simulation (capture_scenario st') = Ok est.
Proof.
  intros Hs Hc Hp.
  cbn [In] in Hp. destruct Hp as [<- | [<- | [<- | []]]];
    apply (load_preset_valid ss st); try assumption; cbn; try tauto; lia.
Qed.

Lemma presets_valid_witness :
  session_of store_in_use = Some session_in_use /\
  map fst (ss_checklist session_in_use) = CHECKLIST_ITEMS /\
  exists st' est,
    session_of (preset_premium_office store_in_use) = Some st' /\
    compute_simulation (capture_scenario st') = Ok est.
Proof.
  assert (H : session_of store_in_use = Some session_in_use) by (vm_compute; reflexivity).
  assert (Hc : map fst (ss_checklist session_in_use) = CHECKLIST_ITEMS) by reflexivity.
  split; [exact H|]. split; [exact Hc|].
  destruct (presets_valid store_in_use session_in_use preset_premium_office H Hc)
    as (st' & est & Hs & _ & _ & _ & Hest).
  { right. left. reflexivity. }
  exists st', est. split; assumption.
Defined.
